(** * ICU performance report: metrics aggregation, comparison and export

    A shallow embedding of the reporting core of the application:
    - [src/hooks/useReports.ts]  (the [useReports] hook and its
      [fetchReportData] effect),
    - [src/utils/pdfExport.ts]   (the [generatePDF] metrics table),
    - the two [DischargeForm] components that write discharge records,
    - the [ReportMetrics] / [ComparisonData] declarations.

    Conventions of the embedding.
    - A JavaScript [number] is [JS.number]: an exact rational, [NaN] or a
      signed infinity.  Binary64 rounding and the sign of zero are not
      modelled: finite arithmetic is exact.
    - Array lengths and the tallies kept in the reducer objects are natural
      numbers; they are injected into [JS.number] where the source stores
      them in a result record.
    - An object literal used as a dictionary ([Record<string, number>]) is
      an association list of its own properties in creation order;
      [Obj.entries] applies the property order of [Object.entries].  A key
      that the object does not own is read from [Object.prototype]
      ([Obj.inherited]).
    - [new Date(s).getTime()], the validity of [new Date(s)] and date-fns
      [format] are parameters of the development. *)

From Stdlib Require Import NArith ZArith QArith Qround Qabs.
From Stdlib Require Import List String Ascii Bool.
From Stdlib Require Import Arith Lia Lqa Permutation Sorted.
Import ListNotations.

Local Open Scope string_scope.
Local Open Scope nat_scope.

(* ================================================================== *)
(** ** JavaScript numbers *)

Module JS.

Inductive number : Type :=
| Finite (q : Q)
| NaN
| Infinity (negative : bool).

Definition of_Z (z : Z) : number := Finite (inject_Z z).
Definition of_nat (n : nat) : number := of_Z (Z.of_nat n).

Definition isZero (q : Q) : bool := Qeq_bool q 0.
Definition isNeg (q : Q) : bool :=
  match Qcompare q 0 with Lt => true | _ => false end.

(** [ToBoolean] on a number: [0] and [NaN] are falsy. *)
Definition truthy (x : number) : bool :=
  match x with
  | Finite q => negb (isZero q)
  | NaN => false
  | Infinity _ => true
  end.

(** [x || y]. *)
Definition or (x y : number) : number := if truthy x then x else y.

Definition neg (x : number) : number :=
  match x with
  | Finite q => Finite (- q)
  | NaN => NaN
  | Infinity s => Infinity (negb s)
  end.

Definition add (x y : number) : number :=
  match x, y with
  | NaN, _ | _, NaN => NaN
  | Finite a, Finite b => Finite (a + b)
  | Infinity s, Finite _ | Finite _, Infinity s => Infinity s
  | Infinity s, Infinity t => if Bool.eqb s t then Infinity s else NaN
  end.

Definition sub (x y : number) : number := add x (neg y).

Definition mul (x y : number) : number :=
  match x, y with
  | NaN, _ | _, NaN => NaN
  | Finite a, Finite b => Finite (a * b)
  | Infinity s, Finite q | Finite q, Infinity s =>
      if isZero q then NaN else Infinity (xorb s (isNeg q))
  | Infinity s, Infinity t => Infinity (xorb s t)
  end.

Definition div (x y : number) : number :=
  match x, y with
  | NaN, _ | _, NaN => NaN
  | Finite a, Finite b =>
      if isZero b
      then (if isZero a then NaN else Infinity (isNeg a))
      else Finite (a / b)
  | Finite _, Infinity _ => Finite 0
  | Infinity s, Finite b => Infinity (xorb s (isNeg b))
  | Infinity _, Infinity _ => NaN
  end.

(** Two numbers denote the same value. *)
Definition eqv (x y : number) : Prop :=
  match x, y with
  | Finite a, Finite b => a == b
  | NaN, NaN => True
  | Infinity s, Infinity t => s = t
  | _, _ => False
  end.

Definition isNaN (x : number) : bool :=
  match x with NaN => true | _ => false end.

Definition isFinite (x : number) : bool :=
  match x with Finite _ => true | _ => false end.

(** [v || 0] for a tally [v] that may be [undefined]. *)
Definition orZero (v : option nat) : nat :=
  match v with
  | Some n => if Nat.eqb n 0 then 0 else n
  | None => 0
  end.

(** What a field declared as a number can hold when it is filled from a
    dictionary: a number, or a string. *)
Inductive value : Type :=
| Num (x : number)
| Str (s : string).

End JS.

Coercion JS.Num : JS.number >-> JS.value.

Notation "x =js= y" := (JS.eqv x y) (at level 70, no associativity).

(* ================================================================== *)
(** ** Objects used as dictionaries *)

Module Obj.

Definition digit_of (c : ascii) : option N :=
  let n := N_of_ascii c in
  if ((48 <=? n) && (n <=? 57))%N then Some (n - 48)%N else None.

Fixpoint read_digits (s : string) (acc : N) : option N :=
  match s with
  | EmptyString => Some acc
  | String c s' =>
      match digit_of c with
      | Some d => read_digits s' (10 * acc + d)%N
      | None => None
      end
  end.

(** A property key is an array index when it is the canonical decimal
    numeral of an integer in [0, 2^32 - 2]. *)
Definition arrayIndex (k : string) : option N :=
  match k with
  | EmptyString => None
  | String c rest =>
      if Ascii.eqb c "0" && negb (String.eqb rest "") then None
      else match read_digits k 0 with
           | Some n => if (n <=? 4294967294)%N then Some n else None
           | None => None
           end
  end.

Section Dict.
Context {V : Type}.

(** Own properties, in creation order. *)
Definition t : Type := list (string * V).

Definition empty : t := [].

(** [o[k]] *)
Fixpoint get (o : t) (k : string) : option V :=
  match o with
  | [] => None
  | (k', v) :: o' => if String.eqb k' k then Some v else get o' k
  end.

(** [o[k] = v]: an existing property keeps its place, a new one is
    created last. *)
Fixpoint set (o : t) (k : string) (v : V) : t :=
  match o with
  | [] => [(k, v)]
  | (k', v') :: o' =>
      if String.eqb k' k then (k', v) :: o' else (k', v') :: set o' k v
  end.

Fixpoint insert_index (e : N * (string * V)) (l : list (N * (string * V)))
  : list (N * (string * V)) :=
  match l with
  | [] => [e]
  | e' :: l' =>
      if (fst e <=? fst e')%N then e :: l else e' :: insert_index e l'
  end.

Definition indexed (o : t) : list (N * (string * V)) :=
  flat_map (fun kv => match arrayIndex (fst kv) with
                      | Some n => [(n, kv)]
                      | None => []
                      end) o.

Definition named (o : t) : t :=
  filter (fun kv => match arrayIndex (fst kv) with
                    | Some _ => false
                    | None => true
                    end) o.

(** [Object.entries(o)]: array-index keys in ascending numeric order,
    then the other keys in creation order. *)
Definition entries (o : t) : list (string * V) :=
  map snd (fold_right insert_index [] (indexed o)) ++ named o.

(** [Object.values(o)] *)
Definition values (o : t) : list V := map snd (entries o).

Definition keys (o : t) : list string := map fst (entries o).
End Dict.

Arguments t : clear implicits.

(** The names of the properties that a plain object inherits from
    [Object.prototype]. *)
Definition prototypeNames : list string :=
  [ "constructor"; "hasOwnProperty"; "isPrototypeOf";
    "propertyIsEnumerable"; "toLocaleString"; "toString"; "valueOf";
    "__proto__"; "__defineGetter__"; "__defineSetter__";
    "__lookupGetter__"; "__lookupSetter__" ].

(** [k] names a property of [Object.prototype]. *)
Definition inherited (k : string) : bool :=
  existsb (String.eqb k) prototypeNames.

End Obj.

(* ================================================================== *)
(** ** Arrays *)

Module Array.

Section Sort.
Context {A : Type}.
Variable compareFn : A -> A -> Z.

Fixpoint insert (x : A) (l : list A) : list A :=
  match l with
  | [] => [x]
  | y :: l' =>
      if (compareFn x y <=? 0)%Z then x :: l else y :: insert x l'
  end.

(** [arr.sort(compareFn)]: the sort is stable, so for a consistent
    comparator its result is the one of a stable insertion sort.  For a
    comparator that is not consistent the order is left to the
    implementation, and this is one of the orders it may give. *)
Definition sort (l : list A) : list A := fold_right insert [] l.
End Sort.

(** [arr.slice(0, n)] *)
Definition slice0 {A : Type} (n : nat) (l : list A) : list A := firstn n l.

(** [arr.find(p)] *)
Definition find {A : Type} (p : A -> bool) (l : list A) : option A :=
  List.find p l.

(** [arr.reduce((a, b) => a + b, 0)] *)
Definition sum (l : list JS.number) : JS.number :=
  fold_left JS.add l (JS.of_nat 0).

End Array.

(* ================================================================== *)
(** ** Rows of the data store *)

Module Patient.
Record t : Type := mk
  { id : string;
    name : string;
    mrn : string;
    status : string;
    diagnosis : string;
    admission_date : string }.
End Patient.

Module Discharge.
Record t : Type := mk
  { patient_id : string;
    discharge_date : string;
    discharge_diagnosis : string;
    discharge_summary : string;
    discharge_medications : string;
    follow_up_instructions : string;
    discharge_condition : string;
    discharged_by : string;
    created_at : string }.
End Discharge.

Module Medication.
Record t : Type := mk { patient_id : string; created_at : string }.
End Medication.

Module LabResult.
Record t : Type := mk { patient_id : string; created_at : string }.
End LabResult.

Module Vital.
Record t : Type := mk { patient_id : string; created_at : string }.
End Vital.

(* ================================================================== *)
(** ** Report values ([ReportMetrics], [ReportActivities]) *)

Module Metrics.
Record t : Type := mk
  { totalPatients : JS.number;
    criticalCases : JS.number;
    medicationsGiven : JS.number;
    labTests : JS.number;
    averageStayDuration : JS.number;
    bedOccupancyRate : JS.number;
    readmissionRate : JS.number;
    mortalityRate : JS.number }.
End Metrics.

Module NameValue.
Record t : Type := mk { name : string; value : JS.value }.
End NameValue.

Module NameCount.
Record t : Type := mk { name : string; count : JS.value }.
End NameCount.

Module Activities.
Record t : Type := mk
  { patientStatusDistribution : list NameValue.t;
    dailyActivities : list NameValue.t;
    topProcedures : list NameCount.t;
    commonDiagnoses : list NameCount.t }.
End Activities.

(* ================================================================== *)
(** ** The [useReports] hook: state, effects and completions *)

(** A value that can be thrown or reported in a response's [error]
    field: an instance of [Error], or any other value (such as a plain
    object carrying a message). *)
Inductive Thrown : Type :=
| ErrorObject (message : string)
| OtherValue (message : string).

Definition instanceofError (e : Thrown) : bool :=
  match e with ErrorObject _ => true | OtherValue _ => false end.

(** [e.message] *)
Definition messageOf (e : Thrown) : string :=
  match e with ErrorObject m => m | OtherValue m => m end.

Module Response.
Record t (A : Type) : Type := mk
  { data : option (list A);
    error : option Thrown }.
Arguments mk {A}.
Arguments data {A}.
Arguments error {A}.
End Response.

Inductive Effect : Type :=
| ConsoleError (label : string) (err : Thrown)
| ToastError (msg : string).

Module Hook.
Record t : Type := mk
  { metrics : Metrics.t;
    activities : Activities.t;
    loading : bool;
    error : option Thrown;
    effects : list Effect }.

(** The [useState] defaults. *)
Definition initial : t :=
  {| metrics :=
       {| Metrics.totalPatients := JS.of_nat 0;
          Metrics.criticalCases := JS.of_nat 0;
          Metrics.medicationsGiven := JS.of_nat 0;
          Metrics.labTests := JS.of_nat 0;
          Metrics.averageStayDuration := JS.of_nat 0;
          Metrics.bedOccupancyRate := JS.of_nat 0;
          Metrics.readmissionRate := JS.of_nat 0;
          Metrics.mortalityRate := JS.of_nat 0 |};
     activities :=
       {| Activities.patientStatusDistribution := [];
          Activities.dailyActivities := [];
          Activities.topProcedures := [];
          Activities.commonDiagnoses := [] |};
     loading := true;
     error := None;
     effects := [] |}.
End Hook.

Inductive Completion (A : Type) : Type :=
| Normal (a : A)
| Throw (e : Thrown).
Arguments Normal {A}.
Arguments Throw {A}.

(** Computations over the hook state that may throw. *)
Definition M (A : Type) : Type := Hook.t -> Completion A * Hook.t.

Definition ret {A} (a : A) : M A := fun s => (Normal a, s).

Definition bind {A B} (c : M A) (k : A -> M B) : M B :=
  fun s =>
    match c s with
    | (Normal a, s') => k a s'
    | (Throw e, s') => (Throw e, s')
    end.

Definition throw {A} (e : Thrown) : M A := fun s => (Throw e, s).

Notation "x <- c ;; k" := (bind c (fun x => k))
  (at level 61, c at next level, right associativity).
Notation "c ;; k" := (bind c (fun _ => k))
  (at level 61, right associativity).

(** [try { body } catch (err) { handler } finally { final }] *)
Definition tryCatchFinally (body : M unit) (handler : Thrown -> M unit)
    (final : M unit) : M unit :=
  fun s =>
    match body s with
    | (Normal _, s1) => final s1
    | (Throw err, s1) =>
        match handler err s1 with
        | (Normal _, s2) => final s2
        | (Throw e', s2) =>
            match final s2 with
            | (Normal _, s3) => (Throw e', s3)
            | (Throw e'', s3) => (Throw e'', s3)
            end
        end
    end.

Definition setMetrics (m : Metrics.t) : M unit := fun s =>
  (Normal tt, {| Hook.metrics := m; Hook.activities := Hook.activities s;
                 Hook.loading := Hook.loading s; Hook.error := Hook.error s;
                 Hook.effects := Hook.effects s |}).

Definition setActivities (a : Activities.t) : M unit := fun s =>
  (Normal tt, {| Hook.metrics := Hook.metrics s; Hook.activities := a;
                 Hook.loading := Hook.loading s; Hook.error := Hook.error s;
                 Hook.effects := Hook.effects s |}).

Definition setLoading (b : bool) : M unit := fun s =>
  (Normal tt, {| Hook.metrics := Hook.metrics s;
                 Hook.activities := Hook.activities s;
                 Hook.loading := b; Hook.error := Hook.error s;
                 Hook.effects := Hook.effects s |}).

Definition setError (e : option Thrown) : M unit := fun s =>
  (Normal tt, {| Hook.metrics := Hook.metrics s;
                 Hook.activities := Hook.activities s;
                 Hook.loading := Hook.loading s; Hook.error := e;
                 Hook.effects := Hook.effects s |}).

Definition emit (e : Effect) : M unit := fun s =>
  (Normal tt, {| Hook.metrics := Hook.metrics s;
                 Hook.activities := Hook.activities s;
                 Hook.loading := Hook.loading s; Hook.error := Hook.error s;
                 Hook.effects := Hook.effects s ++ [e] |}).

(** [if (response.error) throw response.error] *)
Definition throwIfError {A} (r : Response.t A) : M unit :=
  match Response.error r with
  | Some e => throw e
  | None => ret tt
  end.

(** [response.data || []] *)
Definition dataOrEmpty {A} (r : Response.t A) : list A :=
  match Response.data r with
  | Some l => l
  | None => []
  end.

(* ================================================================== *)
(** ** What the reducers keep under a key *)

Module Tally.

(** [Count n] is the number [n].  [Text member j] is a string: when the
    key is the name of a function of [Object.prototype], [acc[k]] reads
    that function, [(f || 0) + 1] is its source text followed by [1],
    and every further [+ 1] appends another [1]. *)
Inductive t : Type :=
| Count (n : nat)
| Text (member : string) (ones : nat).

(** The source text of the built-in function [Object.prototype[member]],
    as the V8 engine prints it. *)
Definition sourceText (member : string) : string :=
  "function "
    ++ (if String.eqb member "constructor" then "Object" else member)
    ++ "() { [native code] }".

Fixpoint ones (j : nat) : string :=
  match j with
  | O => EmptyString
  | S j' => String "1" (ones j')
  end.

Definition toValue (v : t) : JS.value :=
  match v with
  | Count n => JS.Num (JS.of_nat n)
  | Text member j => JS.Str (sourceText member ++ ones j)
  end.

(** [count > 1]: a [Text] converts to [NaN], and [NaN > 1] is false. *)
Definition moreThanOne (v : t) : bool :=
  match v with
  | Count n => 1 <? n
  | Text _ _ => false
  end.

End Tally.

(* ================================================================== *)
(** ** [fetchReportData] *)

Section FetchReportData.

(** [new Date(s).getTime()], in milliseconds since the epoch. *)
Variable getTime : string -> Z.
(** date-fns [format(date, pattern)] in the caller's time zone, the
    date given by its time value. *)
Variable format : Z -> string -> string.
(** Whether [new Date(s)] is a valid date; [getTime s] is its time
    value when it is. *)
Variable validDate : string -> bool.

(** The reducer callback [acc[k] = (acc[k] || 0) + 1; return acc].  The
    accumulator starts as [{}]: a key that it does not own is read from
    [Object.prototype].  There [__proto__] is an accessor: the read
    gives the prototype object, and its setter ignores the string that
    is written, so that no property is created. *)
Definition tally (acc : Obj.t Tally.t) (k : string) : Obj.t Tally.t :=
  match Obj.get acc k with
  | Some (Tally.Count n) =>
      Obj.set acc k (Tally.Count (JS.orZero (Some n) + 1))
  | Some (Tally.Text member j) => Obj.set acc k (Tally.Text member (S j))
  | None =>
      if Obj.inherited k
      then if String.eqb k "__proto__" then acc
           else Obj.set acc k (Tally.Text k 1)
      else Obj.set acc k (Tally.Count (JS.orZero None + 1))
  end.

Definition statusDistribution (patients : list Patient.t)
  : Obj.t Tally.t :=
  fold_left (fun acc curr => tally acc (Patient.status curr))
    patients Obj.empty.

Definition isToday (today : Z) (stamp : string) : bool :=
  String.eqb (format (getTime stamp) "yyyy-MM-dd")
             (format today "yyyy-MM-dd").

Definition admissionsToday (today : Z) (patients : list Patient.t) : nat :=
  List.length (filter (fun p => isToday today (Patient.admission_date p))
            patients).

Definition dischargesToday (today : Z) (discharges : list Discharge.t)
  : nat :=
  List.length (filter (fun d => isToday today (Discharge.discharge_date d))
            discharges).

Definition labTestsToday (today : Z) (labResults : list LabResult.t)
  : nat :=
  List.length (filter (fun l => isToday today (LabResult.created_at l))
            labResults).

Definition medicationsToday (today : Z) (medications : list Medication.t)
  : nat :=
  List.length (filter (fun m => isToday today (Medication.created_at m))
            medications).

Definition diagnosesCount (patients : list Patient.t) : Obj.t Tally.t :=
  fold_left (fun acc curr => tally acc (Patient.diagnosis curr))
    patients Obj.empty.

(** The comparator [([, a], [, b]) => b - a].  When one of the two is a
    [Text] the difference is [NaN], which the sort takes for [+0]. *)
Definition byCountDesc (x y : string * Tally.t) : Z :=
  match snd x, snd y with
  | Tally.Count a, Tally.Count b => (Z.of_nat b - Z.of_nat a)%Z
  | _, _ => 0%Z
  end.

Definition sortedDiagnoses (patients : list Patient.t)
  : list NameCount.t :=
  map (fun '(name, count) => NameCount.mk name (Tally.toValue count))
    (Array.slice0 5
       (Array.sort byCountDesc (Obj.entries (diagnosesCount patients)))).

Definition totalBeds : nat := 50.

Definition occupiedBeds (patients : list Patient.t) : nat :=
  List.length (filter (fun p => negb (String.eqb (Patient.status p) "Discharged"))
            patients).

Definition bedOccupancyRate (patients : list Patient.t) : JS.number :=
  JS.div (JS.of_nat (occupiedBeds patients)) (JS.of_nat totalBeds).

Definition deceasedDischarges (discharges : list Discharge.t) : nat :=
  List.length (filter (fun d =>
                    String.eqb (Discharge.discharge_condition d) "Deceased")
            discharges).

Definition mortalityRate (discharges : list Discharge.t) : JS.number :=
  JS.div (JS.of_nat (deceasedDischarges discharges))
         (JS.or (JS.of_nat (List.length discharges)) (JS.of_nat 1)).

Definition patientAdmissions (patients : list Patient.t)
  : Obj.t Tally.t :=
  fold_left (fun acc curr => tally acc (Patient.mrn curr))
    patients Obj.empty.

Definition readmissions (patients : list Patient.t) : nat :=
  List.length (filter (fun count => Tally.moreThanOne count)
            (Obj.values (patientAdmissions patients))).

Definition readmissionRate (patients : list Patient.t) : JS.number :=
  JS.div (JS.of_nat (readmissions patients))
         (JS.or (JS.of_nat (List.length patients)) (JS.of_nat 1)).

Definition msPerDay : Z := (1000 * 60 * 60 * 24)%Z.

Definition stayDurations (patients : list Patient.t)
    (discharges : list Discharge.t) : list JS.number :=
  map (fun d =>
         match Array.find
                 (fun p => String.eqb (Patient.id p) (Discharge.patient_id d))
                 patients with
         | None => JS.of_nat 0
         | Some patient =>
             JS.div
               (JS.sub (JS.of_Z (getTime (Discharge.discharge_date d)))
                       (JS.of_Z (getTime (Patient.admission_date patient))))
               (JS.of_Z msPerDay)
         end)
    discharges.

Definition averageStayDuration (patients : list Patient.t)
    (discharges : list Discharge.t) : JS.number :=
  let stayDurations := stayDurations patients discharges in
  if JS.truthy (JS.of_nat (List.length stayDurations))
  then JS.div (Array.sum stayDurations) (JS.of_nat (List.length stayDurations))
  else JS.of_nat 0.

(** [statusDistribution['Critical'] || 0].  The name [Critical] is not
    inherited, so that what is read is a number or [undefined]: the
    reducer leaves a [Text] under inherited names only. *)
Definition criticalCases (patients : list Patient.t) : nat :=
  match Obj.get (statusDistribution patients) "Critical" with
  | Some (Tally.Count n) => JS.orZero (Some n)
  | Some (Tally.Text _ _) => 0
  | None => JS.orZero None
  end.

Definition computedMetrics (patients : list Patient.t)
    (medications : list Medication.t) (labResults : list LabResult.t)
    (discharges : list Discharge.t) : Metrics.t :=
  {| Metrics.totalPatients := JS.of_nat (List.length patients);
     Metrics.criticalCases := JS.of_nat (criticalCases patients);
     Metrics.medicationsGiven := JS.of_nat (List.length medications);
     Metrics.labTests := JS.of_nat (List.length labResults);
     Metrics.averageStayDuration := averageStayDuration patients discharges;
     Metrics.bedOccupancyRate := bedOccupancyRate patients;
     Metrics.readmissionRate := readmissionRate patients;
     Metrics.mortalityRate := mortalityRate discharges |}.

(** The object passed to [setActivities], given today's four counts. *)
Definition activitiesOf
    (admissionsToday dischargesToday labTestsToday medicationsToday : nat)
    (patients : list Patient.t)
    (medications : list Medication.t) (labResults : list LabResult.t)
    (discharges : list Discharge.t) (vitals : list Vital.t)
  : Activities.t :=
  {| Activities.patientStatusDistribution :=
       map (fun '(name, value) => NameValue.mk name (Tally.toValue value))
         (Obj.entries (statusDistribution patients));
     Activities.dailyActivities :=
       [ NameValue.mk "Admissions" (JS.of_nat admissionsToday);
         NameValue.mk "Discharges" (JS.of_nat dischargesToday);
         NameValue.mk "Lab Tests" (JS.of_nat labTestsToday);
         NameValue.mk "Medications" (JS.of_nat medicationsToday) ];
     Activities.topProcedures :=
       [ NameCount.mk "Vital Signs" (JS.of_nat (List.length vitals));
         NameCount.mk "Lab Tests" (JS.of_nat (List.length labResults));
         NameCount.mk "Medication Administration"
           (JS.of_nat (List.length medications));
         NameCount.mk "Patient Assessment" (JS.of_nat (List.length patients));
         NameCount.mk "Discharge Planning"
           (JS.of_nat (List.length discharges)) ];
     Activities.commonDiagnoses := sortedDiagnoses patients |}.

(** The activities of collections whose stamps are all valid dates. *)
Definition computedActivities (today : Z) (patients : list Patient.t)
    (medications : list Medication.t) (labResults : list LabResult.t)
    (discharges : list Discharge.t) (vitals : list Vital.t)
  : Activities.t :=
  activitiesOf (admissionsToday today patients)
    (dischargesToday today discharges) (labTestsToday today labResults)
    (medicationsToday today medications)
    patients medications labResults discharges vitals.

(** date-fns [format(new Date(stamp), 'yyyy-MM-dd')]: on an invalid date
    it throws a [RangeError]. *)
Definition formatStamp (stamp : string) : M string :=
  if validDate stamp then ret (format (getTime stamp) "yyyy-MM-dd")
  else throw (ErrorObject "Invalid time value").

(** [rows.filter(r => format(new Date(stamp(r)), 'yyyy-MM-dd') ===
    format(today, 'yyyy-MM-dd')).length] *)
Fixpoint countToday {A : Type} (stamp : A -> string) (today : Z)
    (rows : list A) : M nat :=
  match rows with
  | [] => ret 0
  | row :: rest =>
      day <- formatStamp (stamp row) ;;
      n <- countToday stamp today rest ;;
      ret (if String.eqb day (format today "yyyy-MM-dd") then S n else n)
  end.

(** The five responses that [await Promise.all([...])] yields. *)
Record Responses : Type := mkResponses
  { patientsResponse : Response.t Patient.t;
    medicationsResponse : Response.t Medication.t;
    labResultsResponse : Response.t LabResult.t;
    dischargesResponse : Response.t Discharge.t;
    vitalsResponse : Response.t Vital.t }.

(** [fetchReportData], from the point where the five responses have
    arrived; [today] is the clock reading of [new Date()]. *)
Definition fetchReportData (today : Z) (r : Responses) : M unit :=
  tryCatchFinally
    (setLoading true ;;
     setError None ;;
     throwIfError (patientsResponse r) ;;
     throwIfError (medicationsResponse r) ;;
     throwIfError (labResultsResponse r) ;;
     throwIfError (dischargesResponse r) ;;
     throwIfError (vitalsResponse r) ;;
     let patients := dataOrEmpty (patientsResponse r) in
     let medications := dataOrEmpty (medicationsResponse r) in
     let labResults := dataOrEmpty (labResultsResponse r) in
     let discharges := dataOrEmpty (dischargesResponse r) in
     let vitals := dataOrEmpty (vitalsResponse r) in
     admissionsToday <- countToday Patient.admission_date today patients ;;
     dischargesToday <-
       countToday Discharge.discharge_date today discharges ;;
     labTestsToday <- countToday LabResult.created_at today labResults ;;
     medicationsToday <-
       countToday Medication.created_at today medications ;;
     setMetrics (computedMetrics patients medications labResults discharges) ;;
     setActivities
       (activitiesOf admissionsToday dischargesToday labTestsToday
          medicationsToday patients medications labResults discharges
          vitals))
    (fun err =>
       emit (ConsoleError "Error fetching report data:" err) ;;
       setError (Some (if instanceofError err then err
                       else ErrorObject "Failed to fetch report data")) ;;
       emit (ToastError "Failed to load report data"))
    (setLoading false).

(** The hook state after one run of the effect. *)
Definition runFetch (today : Z) (r : Responses) (s : Hook.t) : Hook.t :=
  snd (fetchReportData today r s).

End FetchReportData.

(* ================================================================== *)
(** ** The discharge forms

    Two [DischargeForm] components write rows of the [discharges] table.
    Both insert [{ patient_id: patient.id, ...formData, discharged_by,
    created_at }]; they differ in the values their condition selector
    offers. *)

Module DischargeFormFields.
Record t (Condition : Type) : Type := mk
  { discharge_date : string;
    discharge_diagnosis : string;
    discharge_summary : string;
    discharge_medications : string;
    follow_up_instructions : string;
    discharge_condition : Condition }.
Arguments mk {Condition}.
Arguments discharge_date {Condition}.
Arguments discharge_diagnosis {Condition}.
Arguments discharge_summary {Condition}.
Arguments discharge_medications {Condition}.
Arguments follow_up_instructions {Condition}.
Arguments discharge_condition {Condition}.

(** [handleChange] for the control named [discharge_condition]. *)
Definition selectCondition {Condition} (formData : t Condition)
    (value : Condition) : t Condition :=
  {| discharge_date := discharge_date formData;
     discharge_diagnosis := discharge_diagnosis formData;
     discharge_summary := discharge_summary formData;
     discharge_medications := discharge_medications formData;
     follow_up_instructions := follow_up_instructions formData;
     discharge_condition := value |}.

(** The row passed to [insert]. *)
Definition row {Condition} (label : Condition -> string)
    (patient : Patient.t) (formData : t Condition)
    (user_id now : string) : Discharge.t :=
  {| Discharge.patient_id := Patient.id patient;
     Discharge.discharge_date := discharge_date formData;
     Discharge.discharge_diagnosis := discharge_diagnosis formData;
     Discharge.discharge_summary := discharge_summary formData;
     Discharge.discharge_medications := discharge_medications formData;
     Discharge.follow_up_instructions := follow_up_instructions formData;
     Discharge.discharge_condition := label (discharge_condition formData);
     Discharge.discharged_by := user_id;
     Discharge.created_at := now |}.
End DischargeFormFields.

(** The form whose selector offers Improved, Stable, Deteriorated and
    Deceased. *)
Module DischargeFormFour.
Inductive Condition : Type := Improved | Stable | Deteriorated | Deceased.

Definition label (c : Condition) : string :=
  match c with
  | Improved => "Improved"
  | Stable => "Stable"
  | Deteriorated => "Deteriorated"
  | Deceased => "Deceased"
  end.

(** The condition that records the death of the patient. *)
Definition terminal : Condition := Deceased.

Definition dischargeRow :=
  DischargeFormFields.row label.
End DischargeFormFour.

(** The form whose selector offers Improved and Died (value [died]). *)
Module DischargeFormTwo.
Inductive Condition : Type := Improved | died.

Definition label (c : Condition) : string :=
  match c with
  | Improved => "Improved"
  | died => "died"
  end.

Definition terminal : Condition := died.

Definition dischargeRow :=
  DischargeFormFields.row label.
End DischargeFormTwo.

(* ================================================================== *)
(** ** Period comparison ([ComparisonData]) *)

Module Changes.
Record t : Type := mk
  { totalPatients : JS.number;
    criticalCases : JS.number;
    averageStayDuration : JS.number;
    bedOccupancyRate : JS.number;
    readmissionRate : JS.number;
    mortalityRate : JS.number }.

(** The own properties of a value of this type. *)
Definition entries (c : t) : list (string * JS.number) :=
  [ ("totalPatients", totalPatients c);
    ("criticalCases", criticalCases c);
    ("averageStayDuration", averageStayDuration c);
    ("bedOccupancyRate", bedOccupancyRate c);
    ("readmissionRate", readmissionRate c);
    ("mortalityRate", mortalityRate c) ].
End Changes.

Module ComparisonData.
Record t : Type := mk
  { previousPeriod : Metrics.t;
    changes : Changes.t }.
End ComparisonData.

(** Modelled from the spec: the Comparison Engine function, of which the
    sources hold only the [ComparisonData] declaration.  It takes the
    metrics of the current and of the previous window and computes, by
    plain subtraction, the deltas of the six listed fields. *)
Definition comparePeriods (currentPeriod previousPeriod : Metrics.t)
  : ComparisonData.t :=
  {| ComparisonData.previousPeriod := previousPeriod;
     ComparisonData.changes :=
       {| Changes.totalPatients :=
            JS.sub (Metrics.totalPatients currentPeriod)
                   (Metrics.totalPatients previousPeriod);
          Changes.criticalCases :=
            JS.sub (Metrics.criticalCases currentPeriod)
                   (Metrics.criticalCases previousPeriod);
          Changes.averageStayDuration :=
            JS.sub (Metrics.averageStayDuration currentPeriod)
                   (Metrics.averageStayDuration previousPeriod);
          Changes.bedOccupancyRate :=
            JS.sub (Metrics.bedOccupancyRate currentPeriod)
                   (Metrics.bedOccupancyRate previousPeriod);
          Changes.readmissionRate :=
            JS.sub (Metrics.readmissionRate currentPeriod)
                   (Metrics.readmissionRate previousPeriod);
          Changes.mortalityRate :=
            JS.sub (Metrics.mortalityRate currentPeriod)
                   (Metrics.mortalityRate previousPeriod) |} |}.

(* ================================================================== *)
(** ** The document renderer: the Key Metrics table of [generatePDF] *)

Module Numeral.

Definition digit_char (d : N) : ascii := ascii_of_N (48 + d).

Fixpoint digits_fuel (fuel : nat) (n : N) (acc : string) : string :=
  match fuel with
  | O => acc
  | S fuel' =>
      let acc' := String (digit_char (n mod 10)) acc in
      if (n / 10 =? 0)%N then acc' else digits_fuel fuel' (n / 10) acc'
  end.

(** The decimal digits of [n], most significant first, ["0"] for zero. *)
Definition decimal (n : N) : string :=
  digits_fuel (S (N.to_nat (N.log2 n))) n "".

Fixpoint zeros (k : nat) : string :=
  match k with
  | O => ""
  | S k' => String "0" (zeros k')
  end.

End Numeral.

Section Renderer.

(** [Number::toString] for the finite values whose digit string depends
    on the binary64 representation: non-integers and magnitudes of
    [2^53] and above, where the shortest digits that read back as the
    same number are printed. *)
Variable toStringOther : Q -> string.

Definition isInteger (q : Q) : bool := Qeq_bool q (inject_Z (Qfloor q)).

Definition tenTo21 : Q := inject_Z (10 ^ 21).

Definition twoTo53 : Q := inject_Z (2 ^ 53).

(** [x.toString()]: an integer below [2^53] in magnitude is printed
    with all its digits. *)
Definition Number_toString (x : JS.number) : string :=
  match x with
  | JS.NaN => "NaN"
  | JS.Infinity false => "Infinity"
  | JS.Infinity true => "-Infinity"
  | JS.Finite q =>
      if isInteger q && negb (Qle_bool twoTo53 (Qabs q))
      then (if JS.isNeg q then "-" else "")
             ++ Numeral.decimal (Z.to_N (Z.abs (Qfloor q)))
      else toStringOther q
  end.

(** [v.toString()] on what a count field holds: a string is its own
    text. *)
Definition Value_toString (v : JS.value) : string :=
  match v with
  | JS.Num x => Number_toString x
  | JS.Str text => text
  end.

(** [x.toFixed(fractionDigits)] *)
Definition Number_toFixed (x : JS.number) (fractionDigits : nat) : string :=
  match x with
  | JS.Finite q =>
      let f := fractionDigits in
      let s := if JS.isNeg q then "-" else "" in
      let x := Qabs q in
      if Qle_bool tenTo21 x then s ++ toStringOther x
      else
        (* the integer n with n / 10^f - x closest to zero, the larger
           one of two *)
        let n := Z.to_N (Qfloor (x * inject_Z (10 ^ Z.of_nat f) + (1 # 2))) in
        let m := Numeral.decimal n in
        let m :=
          if Nat.eqb f 0 then m
          else
            let k := String.length m in
            let m := if k <=? f then Numeral.zeros (f + 1 - k) ++ m else m in
            let k := String.length m in
            substring 0 (k - f) m ++ "." ++ substring (k - f) f m in
        s ++ m
  | _ => Number_toString x
  end.

Definition metricsData (metrics : Metrics.t) : list (list string) :=
  [ ["Total Patients"; Number_toString (Metrics.totalPatients metrics)];
    ["Critical Cases"; Number_toString (Metrics.criticalCases metrics)];
    ["Medications Given";
     Number_toString (Metrics.medicationsGiven metrics)];
    ["Lab Tests"; Number_toString (Metrics.labTests metrics)];
    ["Average Stay Duration";
     Number_toFixed (Metrics.averageStayDuration metrics) 1 ++ " days"];
    ["Bed Occupancy Rate";
     Number_toFixed (JS.mul (Metrics.bedOccupancyRate metrics)
                            (JS.of_nat 100)) 1 ++ "%"];
    ["Readmission Rate";
     Number_toFixed (JS.mul (Metrics.readmissionRate metrics)
                            (JS.of_nat 100)) 1 ++ "%"];
    ["Mortality Rate";
     Number_toFixed (JS.mul (Metrics.mortalityRate metrics)
                            (JS.of_nat 100)) 1 ++ "%"] ].

End Renderer.

(* ================================================================== *)
(** ** The vocabulary of the specification *)

Module Spec.

(** The discharge condition that counts as a death in the report. *)
Definition deceasedSentinel : string := "Deceased".

(** How often the string [k] occurs in [l] (exact, case-sensitive). *)
Definition occurrences (k : string) (l : list string) : nat :=
  count_occ string_dec l k.

(** The distinct strings of [l]. *)
Definition distinct (l : list string) : list string := nodup string_dec l.

(** Each distinct string of [l] with its number of occurrences. *)
Definition groups (l : list string) : list (string * nat) :=
  map (fun k => (k, occurrences k l)) (distinct l).

(** [n / max(d, 1)] *)
Definition ratio (n d : nat) : Q :=
  inject_Z (Z.of_nat n) / inject_Z (Z.of_nat (Nat.max d 1)).

Fixpoint total (l : list Q) : Q :=
  match l with
  | [] => 0
  | q :: l' => q + total l'
  end.

(** The arithmetic mean, [0] for the empty list. *)
Definition mean (l : list Q) : Q :=
  match l with
  | [] => 0
  | _ :: _ => total l / inject_Z (Z.of_nat (List.length l))
  end.

Definition days (milliseconds : Z) : Q :=
  inject_Z milliseconds / inject_Z 86400000.

(** The stay duration a discharge contributes to the mean: the days
    between the admission timestamp of the matching admission (the first
    one in the fetched set whose [id] is the discharge's [patient_id])
    and the discharge timestamp, and [0] when no admission matches. *)
Inductive contributes (getTime : string -> Z) (admissions : list Patient.t)
    (d : Discharge.t) : Q -> Prop :=
| contributes_matched (before after : list Patient.t) (a : Patient.t) :
    admissions = (before ++ a :: after)%list ->
    Patient.id a = Discharge.patient_id d ->
    (forall p, In p before -> Patient.id p <> Discharge.patient_id d) ->
    contributes getTime admissions d
      (days (getTime (Discharge.discharge_date d)
             - getTime (Patient.admission_date a)))
| contributes_unmatched :
    (forall p, In p admissions -> Patient.id p <> Discharge.patient_id d) ->
    contributes getTime admissions d 0.

(** Counts in non-increasing order. *)
Definition nonIncreasing (l : list nat) : Prop :=
  StronglySorted (fun a b => b <= a) l.



(** The [error] fields of the five responses, in the order in which the
    fetches are listed. *)
Definition errors (r : Responses) : list (option Thrown) :=
  [ Response.error (patientsResponse r);
    Response.error (medicationsResponse r);
    Response.error (labResultsResponse r);
    Response.error (dischargesResponse r);
    Response.error (vitalsResponse r) ].

(** At least one of the five fetches failed. *)
Definition anyFetchFailed (r : Responses) : Prop :=
  exists e, In (Some e) (errors r).

(** The surfaced failure carries the cause: it is the cause itself, or
    at least has its message. *)
Definition carries (surfaced : option Thrown) (cause : Thrown) : Prop :=
  exists e, surfaced = Some e /\ (e = cause \/ messageOf e = messageOf cause).

(** A string of decimal digits read as a natural number. *)
Definition readCount (s : string) : option N :=
  match s with
  | EmptyString => None
  | String c rest =>
      if Ascii.eqb c "0" && negb (String.eqb rest "") then None
      else Obj.read_digits s 0
  end.

Fixpoint splitAtPoint (s : string) : option (string * string) :=
  match s with
  | EmptyString => None
  | String c rest =>
      if Ascii.eqb c "." then Some (EmptyString, rest)
      else match splitAtPoint rest with
           | Some (a, b) => Some (String c a, b)
           | None => None
           end
  end.

(** A numeral with exactly one decimal place, [ddd.d] or [-ddd.d], read
    as a rational. *)
Definition readOneDecimal (s : string) : option Q :=
  let '(negative, body) :=
    match s with
    | String c rest => if Ascii.eqb c "-" then (true, rest) else (false, s)
    | EmptyString => (false, s)
    end in
  match splitAtPoint body with
  | Some (a, String b EmptyString) =>
      match readCount a, Obj.digit_of b with
      | Some i, Some d =>
          let v := Z.of_N (10 * i + d) # 10 in
          Some (if negative then - v else v)
      | _, _ => None
      end
  | _ => None
  end.

(** [x] is the count [n], below [2^53]. *)
Definition isCount (x : JS.number) (n : nat) : Prop :=
  x =js= JS.of_nat n /\ (Z.of_nat n < 2 ^ 53)%Z.



(** [s] is the decimal integer string of the count [n]. *)
Definition rendersCount (s : string) (n : nat) : Prop :=
  readCount s = Some (N.of_nat n).

(** [s] is [q] to one decimal place followed by [unit]: a numeral with
    one decimal place, nearest to [q], then the unit. *)
Definition rendersOneDecimal (s : string) (q : Q) (unit : string) : Prop :=
  exists body d,
    s = body ++ unit /\ readOneDecimal body = Some d
    /\ (Qabs (d - q) <= 1 # 20)%Q.

(** The value rounded to tenths, as the number of tenths of its
    magnitude. *)
Definition tenths (q : Q) : N :=
  Z.to_N (Qfloor (Qabs q * inject_Z (10 ^ Z.of_nat 1) + (1 # 2))).

(** Every character of [s] is a decimal digit. *)
Fixpoint allDigits (s : string) : Prop :=
  match s with
  | EmptyString => True
  | String c rest =>
      (exists d, (d < 10)%N /\ c = Numeral.digit_char d) /\ allDigits rest
  end.

(** No key is the name of a property of [Object.prototype]. *)
Definition plainKeys (l : list string) : bool :=
  forallb (fun k => negb (Obj.inherited k)) l.

(** The reducer step on a dictionary of counts, as it goes for a key
    that is not inherited. *)
Definition tallyOwn (acc : Obj.t nat) (k : string) : Obj.t nat :=
  Obj.set acc k (JS.orZero (Obj.get acc k) + 1).

(** The counts of the keys, by first occurrence. *)
Definition talliesOwn (keys : list string) : Obj.t nat :=
  fold_left tallyOwn keys Obj.empty.

(** The order by descending count. *)
Definition byCountOwn (x y : string * nat) : Z :=
  (Z.of_nat (snd y) - Z.of_nat (snd x))%Z.

(** A dictionary of counts as the reducers hold it. *)
Definition counted (o : Obj.t nat) : Obj.t Tally.t :=
  map (fun kv => (fst kv, Tally.Count (snd kv))) o.

(** The counts among the entries of a dictionary. *)
Definition counts (o : Obj.t Tally.t) : Obj.t nat :=
  flat_map (fun kv => match snd kv with
                      | Tally.Count n => [(fst kv, n)]
                      | Tally.Text _ _ => []
                      end) o.

(** A [Text] sits under inherited names only, a [Count] under the
    others. *)
Definition wellKeyed (o : Obj.t Tally.t) : Prop :=
  forall k v, In (k, v) o ->
    match v with
    | Tally.Count _ => Obj.inherited k = false
    | Tally.Text _ _ => Obj.inherited k = true
    end.

(** The dictionary [o] holds, for the keys seen so far, how often each
    was seen. *)
Definition tallied (o : Obj.t nat) (seen : list string) : Prop :=
  NoDup (map fst o)
  /\ forall k v, In (k, v) o <-> (v = occurrences k seen /\ 0 < v).

(** The duration computed for one discharge, as a rational. *)
Definition computedStay (getTime : string -> Z) (patients : list Patient.t)
    (d : Discharge.t) : Q :=
  match Array.find
          (fun p => String.eqb (Patient.id p) (Discharge.patient_id d))
          patients with
  | None => inject_Z 0
  | Some patient =>
      (inject_Z (getTime (Discharge.discharge_date d))
       + - inject_Z (getTime (Patient.admission_date patient)))
      / inject_Z msPerDay
  end.

(** The duration the specification assigns to one discharge. *)
Definition specifiedStay (getTime : string -> Z) (patients : list Patient.t)
    (d : Discharge.t) : Q :=
  match Array.find
          (fun p => String.eqb (Patient.id p) (Discharge.patient_id d))
          patients with
  | None => 0
  | Some patient =>
      days (getTime (Discharge.discharge_date d)
            - getTime (Patient.admission_date patient))
  end.

(** The failure that is thrown: the first error in the order in which
    the responses are checked. *)
Definition firstFailure (r : Responses) : option Thrown :=
  match List.find (fun e => match e with Some _ => true | None => false end)
          (errors r) with
  | Some e => e
  | None => None
  end.

(** The sentence on fetch failures as the specification words it: after
    a run in which a fetch failed, metrics and activities are the
    previous ones, loading is cleared, and the surfaced failure carries
    the underlying cause. *)
Definition fetchFailureAsStated : Prop :=
  forall (getTime : string -> Z) (format : Z -> string -> string)
         (validDate : string -> bool)
         (today : Z) (r : Responses) (s : Hook.t),
    anyFetchFailed r ->
    let s' := runFetch getTime format validDate today r s in
    Hook.metrics s' = Hook.metrics s
    /\ Hook.activities s' = Hook.activities s
    /\ Hook.loading s' = false
    /\ exists cause, In (Some cause) (errors r)
                     /\ carries (Hook.error s') cause.

(** Every field of the metrics is a finite number. *)
Definition populated (m : Metrics.t) : bool :=
  JS.isFinite (Metrics.totalPatients m)
  && JS.isFinite (Metrics.criticalCases m)
  && JS.isFinite (Metrics.medicationsGiven m)
  && JS.isFinite (Metrics.labTests m)
  && JS.isFinite (Metrics.averageStayDuration m)
  && JS.isFinite (Metrics.bedOccupancyRate m)
  && JS.isFinite (Metrics.readmissionRate m)
  && JS.isFinite (Metrics.mortalityRate m).

(** [d] is the exact difference [x - y] of two finite numbers. *)
Definition difference (x y d : JS.number) : Prop :=
  match x, y, d with
  | JS.Finite a, JS.Finite b, JS.Finite c => c == a - b
  | _, _, _ => False
  end.

End Spec.

(* ================================================================== *)
(** ** The exported document: [generatePDF]

    The document is modelled by the calls made on it, in order, and by
    the [lastAutoTable.finalY] that the table plugin leaves behind.
    Where a table ends is decided by the plugin: it is a parameter. *)

Module Pdf.

Inductive Op : Type :=
| SetFontSize (size : nat)
| Text (text : string) (x : nat) (y : JS.number)
| AutoTable (startY : JS.number) (head body : list (list string))
| AddPage
| Save (filename : string).

Record Doc : Type := mkDoc
  { ops : list Op;
    lastAutoTable : option JS.number }.

(** [new jsPDF()] *)
Definition new : Doc := {| ops := []; lastAutoTable := None |}.

Definition call (op : Op) (doc : Doc) : Doc :=
  {| ops := ops doc ++ [op]; lastAutoTable := lastAutoTable doc |}.

(** [doc.lastAutoTable.finalY]; it is read only after a table. *)
Definition finalY (doc : Doc) : JS.number :=
  match lastAutoTable doc with
  | Some y => y
  | None => JS.NaN
  end.

Record DateRange : Type := mkRange { startDate : Z; endDate : Z }.

Record ReportData : Type := mkData
  { metrics : Metrics.t;
    activities : Activities.t;
    dateRange : DateRange }.

End Pdf.

Section GeneratePDF.
Variable toStringOther : Q -> string.
Variable format : Z -> string -> string.
(** The [finalY] of a table drawn on a document. *)
Variable tableEnd :
  Pdf.Doc -> JS.number -> list (list string) -> list (list string)
  -> JS.number.

(** [autoTable(doc, { startY, head, body, theme: 'striped' })] *)
Definition autoTable (startY : JS.number) (head body : list (list string))
    (doc : Pdf.Doc) : Pdf.Doc :=
  {| Pdf.ops := Pdf.ops doc ++ [Pdf.AutoTable startY head body];
     Pdf.lastAutoTable := Some (tableEnd doc startY head body) |}.

Definition statusData (data : Pdf.ReportData) : list (list string) :=
  map (fun status =>
         [ NameValue.name status;
           Value_toString toStringOther (NameValue.value status) ])
    (Activities.patientStatusDistribution (Pdf.activities data)).

Definition activitiesData (data : Pdf.ReportData) : list (list string) :=
  map (fun activity =>
         [ NameValue.name activity;
           Value_toString toStringOther (NameValue.value activity) ])
    (Activities.dailyActivities (Pdf.activities data)).

Definition proceduresData (data : Pdf.ReportData) : list (list string) :=
  map (fun proc =>
         [ NameCount.name proc;
           Value_toString toStringOther (NameCount.count proc) ])
    (Activities.topProcedures (Pdf.activities data)).

Definition diagnosesData (data : Pdf.ReportData) : list (list string) :=
  map (fun diag =>
         [ NameCount.name diag;
           Value_toString toStringOther (NameCount.count diag) ])
    (Activities.commonDiagnoses (Pdf.activities data)).

(** [generatePDF(data)]; [now] is the clock reading of [new Date()]. *)
Definition generatePDF (data : Pdf.ReportData) (now : Z) : Pdf.Doc :=
  let doc := Pdf.new in
  let dateFormat := "MMM dd, yyyy" in
  let doc := Pdf.call (Pdf.SetFontSize 20) doc in
  let doc := Pdf.call (Pdf.Text "ICU Performance Report" 20 (JS.of_nat 20))
               doc in
  let doc := Pdf.call (Pdf.SetFontSize 12) doc in
  let doc :=
    Pdf.call
      (Pdf.Text
         ("Period: "
            ++ format (Pdf.startDate (Pdf.dateRange data)) dateFormat
            ++ " - "
            ++ format (Pdf.endDate (Pdf.dateRange data)) dateFormat)
         20 (JS.of_nat 30))
      doc in
  let doc := Pdf.call (Pdf.SetFontSize 16) doc in
  let doc := Pdf.call (Pdf.Text "Key Metrics" 20 (JS.of_nat 45)) doc in
  let doc :=
    autoTable (JS.of_nat 50) [["Metric"; "Value"]]
      (metricsData toStringOther (Pdf.metrics data)) doc in
  let doc := Pdf.call (Pdf.SetFontSize 16) doc in
  let doc :=
    Pdf.call (Pdf.Text "Patient Status Distribution" 20
                (JS.add (Pdf.finalY doc) (JS.of_nat 20))) doc in
  let doc :=
    autoTable (JS.add (Pdf.finalY doc) (JS.of_nat 25))
      [["Status"; "Count"]] (statusData data) doc in
  let doc := Pdf.call (Pdf.SetFontSize 16) doc in
  let doc :=
    Pdf.call (Pdf.Text "Daily Activities" 20
                (JS.add (Pdf.finalY doc) (JS.of_nat 20))) doc in
  let doc :=
    autoTable (JS.add (Pdf.finalY doc) (JS.of_nat 25))
      [["Activity"; "Count"]] (activitiesData data) doc in
  let doc := Pdf.call Pdf.AddPage doc in
  let doc := Pdf.call (Pdf.SetFontSize 16) doc in
  let doc := Pdf.call (Pdf.Text "Top Procedures" 20 (JS.of_nat 20)) doc in
  let doc :=
    autoTable (JS.of_nat 25) [["Procedure"; "Count"]] (proceduresData data)
      doc in
  let doc := Pdf.call (Pdf.SetFontSize 16) doc in
  let doc :=
    Pdf.call (Pdf.Text "Common Diagnoses" 20
                (JS.add (Pdf.finalY doc) (JS.of_nat 20))) doc in
  let doc :=
    autoTable (JS.add (Pdf.finalY doc) (JS.of_nat 25))
      [["Diagnosis"; "Count"]] (diagnosesData data) doc in
  Pdf.call (Pdf.Save ("ICU-Report-" ++ format now "yyyy-MM-dd" ++ ".pdf"))
    doc.

End GeneratePDF.

(* ================================================================== *)
(** ** Form handlers: events, requests and the clock

    A handler is modelled by what it does to the component and to the
    outside: the toasts, navigations, console lines and requests it
    issues, in order.  What the outside answers (the stored user, the
    [error] of each response, the readings of the clock) is given in an
    environment.  A string is the sequence of its code units, taken
    below 256. *)

Module Str.

(** The white space and line terminator code units below 256. *)
Definition isWhiteSpace (c : ascii) : bool :=
  let n := N_of_ascii c in
  ((n =? 9) || (n =? 10) || (n =? 11) || (n =? 12) || (n =? 13)
   || (n =? 32) || (n =? 160))%N.

Fixpoint trimStart (s : string) : string :=
  match s with
  | EmptyString => EmptyString
  | String c rest => if isWhiteSpace c then trimStart rest else s
  end.

Fixpoint trimEnd (s : string) : string :=
  match s with
  | EmptyString => EmptyString
  | String c rest =>
      match trimEnd rest with
      | EmptyString => if isWhiteSpace c then EmptyString
                       else String c EmptyString
      | rest' => String c rest'
      end
  end.

(** [s.trim()] *)
Definition trim (s : string) : string := trimEnd (trimStart s).

(** [ToBoolean] on a string: only the empty string is falsy. *)
Definition truthy (s : string) : bool := negb (String.eqb s "").

(** Every code unit of [s] is white space. *)
Fixpoint blank (s : string) : bool :=
  match s with
  | EmptyString => true
  | String c rest => isWhiteSpace c && blank rest
  end.

End Str.

Module Ui.

Inductive Request : Type :=
(** [from('discharges').insert(row)] *)
| InsertDischarge (row : Discharge.t)
(** [from('patients').update({ status: 'Discharged', updated_at })
    .eq('id', id)] *)
| MarkDischarged (id updated_at : string)
(** [from('medications').update({ status: 'Completed', end_date,
    updated_at }).eq('patient_id', id).eq('status', 'Active')] *)
| CompleteMedications (patient_id end_date updated_at : string)
(** [from('notifications').insert({ type, message, severity, user_id,
    patient_id, created_at })] *)
| InsertNotification (type message severity user_id patient_id : string)
    (created_at : option string)
(** [from('patients').select('mrn').eq('mrn', mrn).single()] *)
| LookupMrn (mrn : string)
(** [from('patients').select('id').eq('bed_number', bed)
    .neq('status', 'Discharged').single()] *)
| LookupBed (bed_number : string)
(** [from('patients').insert(row).select().single()]; the row is
    [{ ...formData, age, admission_date, attending_physician_id,
    created_at, updated_at }]. *)
| InsertPatient (mrn name : string) (age : JS.number)
    (gender diagnosis bed_number history examination notes status
     admission_date attending_physician_id created_at updated_at : string)
(** [from('patients').select(...).eq('id', id).single()] *)
| SelectPatient (id : string)
(** [from('patients').update({ status, updated_at }).eq('id', id)] *)
| UpdateStatus (id status updated_at : string)
(** [from('lab_results').insert([row])] *)
| InsertLabResult (patient_id category test_name result : string)
    (unit reference_range : option string) (status : string)
    (notes : option string) (ordered_by : string).

Inductive Event : Type :=
| ToastError (msg : string)
| ToastSuccess (msg : string)
| Navigate (path : string)
| Console (label : string) (err : Thrown)
| Sent (request : Request)
| OnDischarge
(** [setPatient(data)] *)
| SetPatient (patient : Patient.t)
(** [setPatient(prev => prev ? { ...prev, status } : null)] *)
| SetPatientStatus (status : string)
| OnClose.

(** [localStorage.getItem('user')] and what [JSON.parse] makes of it:
    there is no item; or the item does not parse, and [JSON.parse]
    throws; or it is the text [null], which parses to [null] without
    an exception; or it parses to the object that the login stores,
    whose [id] is a string. *)
Inductive Stored : Type :=
| NoItem
| Unreadable (err : Thrown)
| Null
| User (id : string).

(** What reading [user.id] throws when [user] is [null]: a [TypeError],
    with the message of the V8 engine. *)
Definition idOfNull : Thrown :=
  ErrorObject "Cannot read properties of null (reading 'id')".

Record State : Type := mkState
  { loading : bool;
    events : list Event;
    ticks : nat }.

(** The component before the handler runs. *)
Definition idle : State := {| loading := false; events := []; ticks := 0 |}.

Definition M (A : Type) : Type := State -> Completion A * State.

Definition ret {A} (a : A) : M A := fun s => (Normal a, s).

Definition bind {A B} (c : M A) (k : A -> M B) : M B :=
  fun s =>
    match c s with
    | (Normal a, s') => k a s'
    | (Throw e, s') => (Throw e, s')
    end.

Definition throw {A} (e : Thrown) : M A := fun s => (Throw e, s).

Definition emit (e : Event) : M unit := fun s =>
  (Normal tt, {| loading := loading s; events := events s ++ [e];
                 ticks := ticks s |}).

Definition setLoading (b : bool) : M unit := fun s =>
  (Normal tt, {| loading := b; events := events s; ticks := ticks s |}).

(** [new Date().toISOString()]: the next reading of the clock. *)
Definition nowISO (clock : nat -> string) : M string := fun s =>
  (Normal (clock (ticks s)),
   {| loading := loading s; events := events s; ticks := S (ticks s) |}).

(** [try { body } catch (error) { handler } finally { final }] *)
Definition tryCatchFinally (body : M unit) (handler : Thrown -> M unit)
    (final : M unit) : M unit :=
  fun s =>
    match body s with
    | (Normal _, s1) => final s1
    | (Throw err, s1) =>
        match handler err s1 with
        | (Normal _, s2) => final s2
        | (Throw e', s2) =>
            match final s2 with
            | (Normal _, s3) => (Throw e', s3)
            | (Throw e'', s3) => (Throw e'', s3)
            end
        end
    end.

(** The requests among the events, in order. *)
Definition requests (l : list Event) : list Request :=
  flat_map (fun e => match e with Sent r => [r] | _ => [] end) l.

End Ui.

Declare Scope ui_scope.
Delimit Scope ui_scope with ui.
Notation "c >>= k" := (Ui.bind c k)
  (at level 62, left associativity) : ui_scope.
Notation "c >> k" := (Ui.bind c (fun _ => k))
  (at level 62, left associativity) : ui_scope.

(** Runs a handler on a state whose environment is known. *)
Ltac run_handler :=
  unfold Ui.bind, Ui.tryCatchFinally, Ui.setLoading, Ui.emit, Ui.nowISO,
    Ui.throw, Ui.ret;
  cbn; rewrite <- ?app_assoc; cbn [app]; reflexivity.

(** The form with two conditions: [validateForm] and [handleSubmit]. *)
Module DischargeSubmitTwo.

Record Env : Type := mkEnv
  { stored : Ui.Stored;
    clock : nat -> string;
    dischargeError : option Thrown;
    updateError : option Thrown;
    medicationError : option Thrown }.

Definition FormData : Type :=
  DischargeFormFields.t DischargeFormTwo.Condition.

Definition validateForm (formData : FormData) : Ui.M bool :=
  (if negb (Str.truthy (DischargeFormFields.discharge_date formData))
   then Ui.emit (Ui.ToastError "Discharge date is required")
        >> Ui.ret false
   else if negb (Str.truthy
                   (Str.trim (DischargeFormFields.discharge_diagnosis
                                formData)))
   then Ui.emit (Ui.ToastError "Discharge diagnosis is required")
        >> Ui.ret false
   else if negb (Str.truthy
                   (Str.trim (DischargeFormFields.discharge_summary
                                formData)))
   then Ui.emit (Ui.ToastError "Discharge summary is required")
        >> Ui.ret false
   else Ui.ret true)%ui.

Definition severity (c : DischargeFormTwo.Condition) : string :=
  match c with
  | DischargeFormTwo.died => "critical"
  | DischargeFormTwo.Improved => "info"
  end.

Definition handleSubmit (patient : Patient.t) (formData : FormData)
    (env : Env) : Ui.M unit :=
  (validateForm formData >>= fun valid =>
   if negb valid then Ui.ret tt
   else
     Ui.setLoading true >>
     Ui.tryCatchFinally
       (match stored env with
        | Ui.NoItem =>
            Ui.emit (Ui.ToastError "Please log in again") >>
            Ui.emit (Ui.Navigate "/login")
        | Ui.Unreadable err => Ui.throw err
        | Ui.Null =>
            (* [discharged_by: user.id] in the row of the first insert *)
            Ui.throw Ui.idOfNull
        | Ui.User user_id =>
            Ui.nowISO (clock env) >>= fun created_at =>
            Ui.emit (Ui.Sent (Ui.InsertDischarge
                                (DischargeFormTwo.dischargeRow patient
                                   formData user_id created_at))) >>
            match dischargeError env with
            | Some err =>
                Ui.emit (Ui.Console "Discharge error:" err) >>
                Ui.throw (ErrorObject "Failed to create discharge record")
            | None => Ui.ret tt
            end >>
            Ui.nowISO (clock env) >>= fun updated_at =>
            Ui.emit (Ui.Sent (Ui.MarkDischarged (Patient.id patient)
                                updated_at)) >>
            match updateError env with
            | Some err =>
                Ui.emit (Ui.Console "Patient update error:" err) >>
                Ui.throw (ErrorObject "Failed to update patient status")
            | None => Ui.ret tt
            end >>
            Ui.nowISO (clock env) >>= fun end_date =>
            Ui.nowISO (clock env) >>= fun updated_at' =>
            Ui.emit (Ui.Sent (Ui.CompleteMedications (Patient.id patient)
                                end_date updated_at')) >>
            match medicationError env with
            | Some err => Ui.emit (Ui.Console "Medication update error:" err)
            | None => Ui.ret tt
            end >>
            Ui.nowISO (clock env) >>= fun notified_at =>
            Ui.emit
              (Ui.Sent
                 (Ui.InsertNotification "discharge"
                    ("Patient " ++ Patient.name patient
                       ++ " has been discharged ("
                       ++ DischargeFormTwo.label
                            (DischargeFormFields.discharge_condition formData)
                       ++ ")")
                    (severity
                       (DischargeFormFields.discharge_condition formData))
                    user_id (Patient.id patient) (Some notified_at))) >>
            Ui.emit (Ui.ToastSuccess "Patient discharged successfully") >>
            Ui.emit Ui.OnDischarge >>
            Ui.emit (Ui.Navigate "/dashboard")
        end)
       (fun error =>
          Ui.emit (Ui.Console "Error discharging patient:" error) >>
          Ui.emit (Ui.ToastError
                     "Failed to discharge patient. Please try again."))
       (Ui.setLoading false))%ui.

End DischargeSubmitTwo.

(** The form with four conditions: [handleSubmit]. *)
Module DischargeSubmitFour.

Record Env : Type := mkEnv
  { stored : Ui.Stored;
    clock : nat -> string;
    updateError : option Thrown;
    dischargeError : option Thrown }.

Definition FormData : Type :=
  DischargeFormFields.t DischargeFormFour.Condition.

Definition handleSubmit (patient : Patient.t) (formData : FormData)
    (env : Env) : Ui.M unit :=
  (Ui.setLoading true >>
   Ui.tryCatchFinally
     (match stored env with
      | Ui.NoItem =>
          Ui.emit (Ui.ToastError "Please log in again") >>
          Ui.emit (Ui.Navigate "/login")
      | Ui.Unreadable err => Ui.throw err
      | Ui.Null =>
          Ui.nowISO (clock env) >>= fun updated_at =>
          Ui.emit (Ui.Sent (Ui.MarkDischarged (Patient.id patient)
                              updated_at)) >>
          match updateError env with
          | Some err => Ui.throw err
          | None => Ui.ret tt
          end >>
          (* [discharged_by: user.id] in the row of the insert *)
          Ui.throw Ui.idOfNull
      | Ui.User user_id =>
          Ui.nowISO (clock env) >>= fun updated_at =>
          Ui.emit (Ui.Sent (Ui.MarkDischarged (Patient.id patient)
                              updated_at)) >>
          match updateError env with
          | Some err => Ui.throw err
          | None => Ui.ret tt
          end >>
          Ui.nowISO (clock env) >>= fun created_at =>
          Ui.emit (Ui.Sent (Ui.InsertDischarge
                              (DischargeFormFour.dischargeRow patient
                                 formData user_id created_at))) >>
          match dischargeError env with
          | Some err => Ui.throw err
          | None => Ui.ret tt
          end >>
          Ui.emit
            (Ui.Sent
               (Ui.InsertNotification "discharge"
                  ("Patient " ++ Patient.name patient
                     ++ " has been discharged")
                  "info" user_id (Patient.id patient) None)) >>
          Ui.emit (Ui.ToastSuccess "Patient discharged successfully") >>
          Ui.emit Ui.OnDischarge >>
          Ui.emit (Ui.Navigate "/dashboard")
      end)
     (fun error =>
        Ui.emit (Ui.Console "Error discharging patient:" error) >>
        Ui.emit (Ui.ToastError "Failed to discharge patient"))
     (Ui.setLoading false))%ui.

End DischargeSubmitFour.

(* ================================================================== *)
(** ** The admission form: [validateForm] and [handleSubmit] *)

Module Num.

(** [x < y] on numbers: false when an operand is [NaN]. *)
Definition lt (x y : JS.number) : bool :=
  match x, y with
  | JS.NaN, _ | _, JS.NaN => false
  | JS.Finite a, JS.Finite b =>
      match Qcompare a b with Lt => true | _ => false end
  | JS.Finite _, JS.Infinity negative => negb negative
  | JS.Infinity negative, JS.Finite _ => negative
  | JS.Infinity s, JS.Infinity t => s && negb t
  end.

(** The value of a digit in the radix, if it is one. *)
Definition digitValue (radix : N) (c : ascii) : option N :=
  let n := N_of_ascii c in
  let v :=
    if ((48 <=? n) && (n <=? 57))%N then Some (n - 48)%N
    else if ((97 <=? n) && (n <=? 122))%N then Some (n - 87)%N
    else if ((65 <=? n) && (n <=? 90))%N then Some (n - 55)%N
    else None in
  match v with
  | Some d => if (d <? radix)%N then Some d else None
  | None => None
  end.

(** The value of the longest prefix of digits; [None] when it is
    empty. *)
Fixpoint digitsValue (radix : N) (s : string) (acc : option N) : option N :=
  match s with
  | EmptyString => acc
  | String c rest =>
      match digitValue radix c with
      | Some d =>
          digitsValue radix rest
            (Some (radix * match acc with Some a => a | None => 0 end + d)%N)
      | None => acc
      end
  end.

(** The Number value of a non-negative integer: the integer itself up
    to [2^53]; beyond, the nearest number with 53 significant bits, the
    even one of two nearest, and [Infinity] when that reaches
    [2^1024]. *)
Definition ofInteger (v : N) : JS.number :=
  if (v <=? 2 ^ 53)%N then JS.of_Z (Z.of_N v)
  else
    let e := (N.log2 v - 52)%N in
    let q := N.shiftr v e in
    let r := (v - N.shiftl q e)%N in
    let half := N.shiftl 1 (e - 1) in
    let q' :=
      if (half <? r)%N || ((r =? half)%N && N.odd q) then (q + 1)%N
      else q in
    let m := N.shiftl q' e in
    if (2 ^ 1024 <=? m)%N then JS.Infinity false else JS.of_Z (Z.of_N m).

(** [parseInt(s)], without a radix argument.  For a decimal numeral of
    more than 20 significant digits the standard lets the
    implementation read the digits after the 20th as zeros; here every
    digit is read.  Either reading is far above any bound that the
    forms compare an age with. *)
Definition parseInt (s : string) : JS.number :=
  let inputString := Str.trimStart s in
  let '(negative, rest) :=
    match inputString with
    | String c r =>
        if Ascii.eqb c "-" then (true, r)
        else if Ascii.eqb c "+" then (false, r)
        else (false, inputString)
    | EmptyString => (false, inputString)
    end in
  let '(radix, numeral) :=
    match rest with
    | String c0 (String c1 r) =>
        if Ascii.eqb c0 "0" && (Ascii.eqb c1 "x" || Ascii.eqb c1 "X")
        then (16%N, r) else (10%N, rest)
    | _ => (10%N, rest)
    end in
  match digitsValue radix numeral None with
  | None => JS.NaN
  | Some v => if negative then JS.neg (ofInteger v) else ofInteger v
  end.

End Num.

Module AdmitPatientForm.

Record FormData : Type := mkForm
  { mrn : string;
    name : string;
    age : string;
    gender : string;
    diagnosis : string;
    bed_number : string;
    history : string;
    examination : string;
    notes : string;
    status : string }.

(** A response of [.single()]: whether a row came back, and the error
    with its code. *)
Record Lookup : Type := mkLookup
  { found : bool;
    error : option (string * Thrown) }.

Record Env : Type := mkEnv
  { stored : Ui.Stored;
    clock : nat -> string;
    existingPatient : Lookup;
    existingBed : Lookup;
    insertError : option Thrown;
    newPatient : option string }.

Definition required (field msg : string) : option string :=
  if negb (Str.truthy (Str.trim field)) then Some msg else None.

(** [!age || parseInt(age) < 0 || parseInt(age) > 150] *)
Definition ageRefused (age : string) : bool :=
  negb (Str.truthy age)
  || Num.lt (Num.parseInt age) (JS.of_nat 0)
  || Num.lt (JS.of_nat 150) (Num.parseInt age).

Definition validateForm (formData : FormData) : Ui.M bool :=
  (if negb (Str.truthy (Str.trim (mrn formData)))
   then Ui.emit (Ui.ToastError "MRN is required") >> Ui.ret false
   else if negb (Str.truthy (Str.trim (name formData)))
   then Ui.emit (Ui.ToastError "Patient name is required") >> Ui.ret false
   else if ageRefused (age formData)
   then Ui.emit (Ui.ToastError "Please enter a valid age (0-150)")
        >> Ui.ret false
   else if negb (Str.truthy (gender formData))
   then Ui.emit (Ui.ToastError "Gender is required") >> Ui.ret false
   else if negb (Str.truthy (Str.trim (diagnosis formData)))
   then Ui.emit (Ui.ToastError "Diagnosis is required") >> Ui.ret false
   else if negb (Str.truthy (Str.trim (bed_number formData)))
   then Ui.emit (Ui.ToastError "Bed number is required") >> Ui.ret false
   else if negb (Str.truthy (Str.trim (history formData)))
   then Ui.emit (Ui.ToastError "Patient history is required")
        >> Ui.ret false
   else if negb (Str.truthy (Str.trim (examination formData)))
   then Ui.emit (Ui.ToastError "Physical examination is required")
        >> Ui.ret false
   else Ui.ret true)%ui.

(** [if (error && error.code !== 'PGRST116') throw error] *)
Definition throwUnlessNoRow (l : Lookup) : Ui.M unit :=
  match error l with
  | Some (code, err) =>
      if negb (String.eqb code "PGRST116") then Ui.throw err else Ui.ret tt
  | None => Ui.ret tt
  end.

Definition handleSubmit (formData : FormData) (env : Env) : Ui.M unit :=
  (validateForm formData >>= fun valid =>
   if negb valid then Ui.ret tt
   else
     Ui.setLoading true >>
     Ui.tryCatchFinally
       (match stored env with
        | Ui.NoItem =>
            Ui.emit (Ui.ToastError "Please log in again") >>
            Ui.emit (Ui.Navigate "/login")
        | Ui.Unreadable err => Ui.throw err
        | Ui.Null =>
            Ui.emit (Ui.Sent (Ui.LookupMrn (mrn formData))) >>
            throwUnlessNoRow (existingPatient env) >>
            (if found (existingPatient env)
             then Ui.emit (Ui.ToastError
                             "A patient with this MRN already exists")
             else
               Ui.emit (Ui.Sent (Ui.LookupBed (bed_number formData))) >>
               throwUnlessNoRow (existingBed env) >>
               (if found (existingBed env)
                then Ui.emit (Ui.ToastError "This bed is already occupied")
                else
                  Ui.nowISO (clock env) >>= fun admission_date =>
                  (* [attending_physician_id: user.id] in the row of the
                     insert, after [admission_date] *)
                  Ui.throw Ui.idOfNull))
        | Ui.User user_id =>
            Ui.emit (Ui.Sent (Ui.LookupMrn (mrn formData))) >>
            throwUnlessNoRow (existingPatient env) >>
            (if found (existingPatient env)
             then Ui.emit (Ui.ToastError
                             "A patient with this MRN already exists")
             else
               Ui.emit (Ui.Sent (Ui.LookupBed (bed_number formData))) >>
               throwUnlessNoRow (existingBed env) >>
               (if found (existingBed env)
                then Ui.emit (Ui.ToastError "This bed is already occupied")
                else
                  Ui.nowISO (clock env) >>= fun admission_date =>
                  Ui.nowISO (clock env) >>= fun created_at =>
                  Ui.nowISO (clock env) >>= fun updated_at =>
                  Ui.emit
                    (Ui.Sent
                       (Ui.InsertPatient (mrn formData) (name formData)
                          (Num.parseInt (age formData)) (gender formData)
                          (diagnosis formData) (bed_number formData)
                          (history formData) (examination formData)
                          (notes formData) (status formData)
                          admission_date user_id created_at updated_at)) >>
                  match insertError env with
                  | Some err =>
                      Ui.emit (Ui.Console "Insert error:" err) >>
                      Ui.throw (ErrorObject "Failed to admit patient")
                  | None => Ui.ret tt
                  end >>
                  match newPatient env with
                  | None =>
                      Ui.throw
                        (ErrorObject
                           "No patient data returned after insertion")
                  | Some id =>
                      Ui.nowISO (clock env) >>= fun notified_at =>
                      Ui.emit
                        (Ui.Sent
                           (Ui.InsertNotification "status"
                              ("New patient admitted: " ++ name formData)
                              "info" user_id id (Some notified_at))) >>
                      Ui.emit (Ui.ToastSuccess
                                 "Patient admitted successfully") >>
                      Ui.emit (Ui.Navigate ("/patients/" ++ id))
                  end))
        end)
       (fun error =>
          Ui.emit (Ui.Console "Error admitting patient:" error) >>
          Ui.emit (Ui.ToastError
                     "Failed to admit patient. Please try again."))
       (Ui.setLoading false))%ui.

End AdmitPatientForm.

(* ================================================================== *)
(** ** The patient page: [fetchPatient] and [handleStatusChange] *)

Module PatientPage.

(** The route parameter [id], the patient in the component's state, the
    stored user, and what the requests answer. *)
Record Env : Type := mkEnv
  { id : option string;
    patient : option Patient.t;
    stored : Ui.Stored;
    clock : nat -> string;
    data : option Patient.t;
    error : option Thrown;
    updateError : option Thrown }.

(** [ToBoolean(id)] *)
Definition idGiven (env : Env) : option string :=
  match id env with
  | Some i => if Str.truthy i then Some i else None
  | None => None
  end.

Definition fetchPatient (env : Env) : Ui.M unit :=
  (Ui.tryCatchFinally
     (match idGiven env with
      | None =>
          Ui.emit (Ui.ToastError "No patient ID provided") >>
          Ui.emit (Ui.Navigate "/dashboard")
      | Some i =>
          Ui.emit (Ui.Sent (Ui.SelectPatient i)) >>
          match error env with
          | Some err => Ui.throw err
          | None => Ui.ret tt
          end >>
          match data env with
          | None =>
              Ui.emit (Ui.ToastError "Patient not found") >>
              Ui.emit (Ui.Navigate "/dashboard")
          | Some p => Ui.emit (Ui.SetPatient p)
          end
      end)
     (fun error =>
        Ui.emit (Ui.Console "Error fetching patient:" error) >>
        Ui.emit (Ui.ToastError "Failed to load patient data") >>
        Ui.emit (Ui.Navigate "/dashboard"))
     (Ui.setLoading false))%ui.

(** [newStatus === 'Critical' ? 'critical' : 'info'] *)
Definition severity (newStatus : string) : string :=
  if String.eqb newStatus "Critical" then "critical" else "info".

(** The handler has a [catch] and no [finally]. *)
Definition handleStatusChange (newStatus : string) (env : Env) : Ui.M unit :=
  (Ui.tryCatchFinally
     (match patient env, idGiven env with
      | Some p, Some i =>
          Ui.nowISO (clock env) >>= fun updated_at =>
          Ui.emit (Ui.Sent (Ui.UpdateStatus i newStatus updated_at)) >>
          match updateError env with
          | Some err => Ui.throw err
          | None => Ui.ret tt
          end >>
          Ui.emit (Ui.SetPatientStatus newStatus) >>
          Ui.emit (Ui.ToastSuccess
                     ("Patient status updated to " ++ newStatus)) >>
          match stored env with
          | Ui.NoItem => Ui.ret tt
          | Ui.Unreadable err => Ui.throw err
          | Ui.Null =>
              (* [user_id: user.id] in the row of the notification *)
              Ui.throw Ui.idOfNull
          | Ui.User user_id =>
              Ui.emit
                (Ui.Sent
                   (Ui.InsertNotification "status"
                      ("Patient " ++ Patient.name p ++ " status changed to "
                         ++ newStatus)
                      (severity newStatus) user_id i None))
          end
      | _, _ => Ui.ret tt
      end)
     (fun error =>
        Ui.emit (Ui.Console "Error updating patient status:" error) >>
        Ui.emit (Ui.ToastError "Failed to update patient status"))
     (Ui.ret tt))%ui.

End PatientPage.

(** The form that adds a lab result: [handleSubmit]. *)
Module AddLabResultForm.

Record FormData : Type := mkForm
  { category : string;
    test_name : string;
    result : string;
    unit : string;
    reference_range : string;
    status : string;
    notes : string }.

Record Env : Type := mkEnv
  { stored : Ui.Stored;
    error : option Thrown }.

(** [s || null] *)
Definition orNull (s : string) : option string :=
  if Str.truthy s then Some s else None.

Definition handleSubmit (patientId : string) (formData : FormData)
    (env : Env) : Ui.M Datatypes.unit :=
  (Ui.setLoading true >>
   Ui.tryCatchFinally
     (match stored env with
      | Ui.NoItem => Ui.emit (Ui.ToastError "Please log in again")
      | Ui.Unreadable err => Ui.throw err
      | Ui.Null =>
          (* [ordered_by: user.id] in the row of the insert *)
          Ui.throw Ui.idOfNull
      | Ui.User user_id =>
          Ui.emit
            (Ui.Sent
               (Ui.InsertLabResult patientId (category formData)
                  (test_name formData) (result formData)
                  (orNull (unit formData))
                  (orNull (reference_range formData))
                  (status formData) (orNull (notes formData)) user_id)) >>
          match error env with
          | Some err => Ui.throw err
          | None => Ui.ret tt
          end >>
          Ui.emit (Ui.ToastSuccess "Lab result added successfully") >>
          Ui.emit Ui.OnClose
      end)
     (fun error =>
        Ui.emit (Ui.Console "Error adding lab result:" error) >>
        Ui.emit (Ui.ToastError "Failed to add lab result"))
     (Ui.setLoading false))%ui.

End AddLabResultForm.

(* ================================================================== *)
(** ** The patient page: tabs and the discharge form

    The part of [PatientDetails] that decides when the discharge form is
    on screen: the active tab, the [showDischargeForm] flag and the
    status of the loaded patient. *)

Module PatientDetails.

Inductive Tab : Type :=
| overview | vitals | medications | labs | procedures | discharge.

Record View : Type := mkView
  { status : string;
    activeTab : Tab;
    showDischargeForm : bool }.

(** The [useState] defaults, the patient being loaded. *)
Definition loaded (status : string) : View :=
  {| status := status; activeTab := overview; showDischargeForm := false |}.

Definition setActiveTab (t : Tab) (v : View) : View :=
  {| status := status v; activeTab := t;
     showDischargeForm := showDischargeForm v |}.

Definition setShowDischargeForm (b : bool) (v : View) : View :=
  {| status := status v; activeTab := activeTab v; showDischargeForm := b |}.

Definition handleDischarge (v : View) : View :=
  setActiveTab discharge (setShowDischargeForm true v).

(** It also navigates to the dashboard. *)
Definition handleDischargeComplete (v : View) : View :=
  setActiveTab overview (setShowDischargeForm false v).

(** The new status of [handleStatusChange]. *)
Inductive NewStatus : Type := Stable | Critical.

Definition newStatusLabel (n : NewStatus) : string :=
  match n with Stable => "Stable" | Critical => "Critical" end.

(** [setPatient(prev => ({ ...prev, status: newStatus }))], once the
    update has succeeded. *)
Definition statusChanged (n : NewStatus) (v : View) : View :=
  {| status := newStatusLabel n; activeTab := activeTab v;
     showDischargeForm := showDischargeForm v |}.

(** [patient.status !== 'Discharged' && <button onClick={handleDischarge}>] *)
Definition dischargeButtonShown (v : View) : bool :=
  negb (String.eqb (status v) "Discharged").

(** [activeTab === 'discharge' && showDischargeForm && <DischargeForm>] *)
Definition dischargeFormShown (v : View) : bool :=
  match activeTab v with
  | discharge => showDischargeForm v
  | _ => false
  end.

(** The five buttons of the tab bar. *)
Inductive TabButton : Type :=
| OverviewTab | VitalsTab | MedicationsTab | LabsTab | ProceduresTab.

Definition tabOf (b : TabButton) : Tab :=
  match b with
  | OverviewTab => overview
  | VitalsTab => vitals
  | MedicationsTab => medications
  | LabsTab => labs
  | ProceduresTab => procedures
  end.

(** What can happen on the page.  The discharge button can be used only
    while it is on screen; the form reports its completion through
    [onDischarge] whenever its submission ends well. *)
Inductive Action : Type :=
| ClickDischarge
| ClickTab (b : TabButton)
| FormCompleted
| StatusChanged (n : NewStatus).

Definition act (v : View) (a : Action) : View :=
  match a with
  | ClickDischarge => if dischargeButtonShown v then handleDischarge v else v
  | ClickTab b => setActiveTab (tabOf b) v
  | FormCompleted => handleDischargeComplete v
  | StatusChanged n => statusChanged n v
  end.

Definition after (status : string) (actions : list Action) : View :=
  fold_left act actions (loaded status).

Definition changesStatus (a : Action) : bool :=
  match a with StatusChanged _ => true | _ => false end.

End PatientDetails.

(* ================================================================== *)
(** ** Further vocabulary: orders, bounds and empty responses *)

Module Derived.

(** The distinct strings of [l] in the order of their first occurrence. *)
Fixpoint firstSeen (l : list string) : list string :=
  match l with
  | [] => []
  | k :: l' => k :: filter (fun x => negb (String.eqb x k)) (firstSeen l')
  end.

(** [k] is one of the keys. *)
Definition mem (k : string) (l : list string) : bool :=
  existsb (String.eqb k) l.

(** No key of the list is an array index. *)
Definition noArrayIndex (l : list string) : Prop :=
  forall k, In k l -> Obj.arrayIndex k = None.

(** None of the five fetches failed. *)
Definition noFetchFailed (r : Responses) : Prop :=
  forall e, ~ In (Some e) (Spec.errors r).

(** Every stamp that [fetchReportData] formats is a valid date. *)
Definition stampsValid (validDate : string -> bool) (r : Responses) : bool :=
  forallb validDate
    (map Patient.admission_date (dataOrEmpty (patientsResponse r)))
  && forallb validDate
       (map Discharge.discharge_date (dataOrEmpty (dischargesResponse r)))
  && forallb validDate
       (map LabResult.created_at (dataOrEmpty (labResultsResponse r)))
  && forallb validDate
       (map Medication.created_at (dataOrEmpty (medicationsResponse r))).

(** All five collections are empty: [data] is [null] or [[]]. *)
Definition allEmpty (r : Responses) : Prop :=
  dataOrEmpty (patientsResponse r) = []
  /\ dataOrEmpty (medicationsResponse r) = []
  /\ dataOrEmpty (labResultsResponse r) = []
  /\ dataOrEmpty (dischargesResponse r) = []
  /\ dataOrEmpty (vitalsResponse r) = [].

(** Every metric is zero. *)
Definition allZero (m : Metrics.t) : Prop :=
  Metrics.totalPatients m =js= JS.Finite 0
  /\ Metrics.criticalCases m =js= JS.Finite 0
  /\ Metrics.medicationsGiven m =js= JS.Finite 0
  /\ Metrics.labTests m =js= JS.Finite 0
  /\ Metrics.averageStayDuration m =js= JS.Finite 0
  /\ Metrics.bedOccupancyRate m =js= JS.Finite 0
  /\ Metrics.readmissionRate m =js= JS.Finite 0
  /\ Metrics.mortalityRate m =js= JS.Finite 0.

(** The activities of empty collections. *)
Definition zeroActivities : Activities.t :=
  {| Activities.patientStatusDistribution := [];
     Activities.dailyActivities :=
       [ NameValue.mk "Admissions" (JS.of_nat 0);
         NameValue.mk "Discharges" (JS.of_nat 0);
         NameValue.mk "Lab Tests" (JS.of_nat 0);
         NameValue.mk "Medications" (JS.of_nat 0) ];
     Activities.topProcedures :=
       [ NameCount.mk "Vital Signs" (JS.of_nat 0);
         NameCount.mk "Lab Tests" (JS.of_nat 0);
         NameCount.mk "Medication Administration" (JS.of_nat 0);
         NameCount.mk "Patient Assessment" (JS.of_nat 0);
         NameCount.mk "Discharge Planning" (JS.of_nat 0) ];
     Activities.commonDiagnoses := [] |}.

(** The message of the first check that fails, the checks being given
    in order, each with whether it passes. *)
Fixpoint firstFailing (checks : list (bool * string)) : option string :=
  match checks with
  | [] => None
  | (passes, msg) :: rest => if passes then firstFailing rest else Some msg
  end.

(** What the form with two conditions requires, in order: a date, and a
    diagnosis and a summary that are not blank. *)
Definition checksTwo (formData : DischargeSubmitTwo.FormData)
  : list (bool * string) :=
  [ (Str.truthy (DischargeFormFields.discharge_date formData),
     "Discharge date is required");
    (negb (Str.blank (DischargeFormFields.discharge_diagnosis formData)),
     "Discharge diagnosis is required");
    (negb (Str.blank (DischargeFormFields.discharge_summary formData)),
     "Discharge summary is required") ].

(** The form with two conditions is complete: a date, and a diagnosis
    and a summary that are not blank. *)
Definition validTwo (formData : DischargeSubmitTwo.FormData) : bool :=
  Str.truthy (DischargeFormFields.discharge_date formData)
  && negb (Str.blank (DischargeFormFields.discharge_diagnosis formData))
  && negb (Str.blank (DischargeFormFields.discharge_summary formData)).

(** The requests of a discharge through the form with two conditions,
    the clock being read from [t] on. *)
Definition requestsTwo (patient : Patient.t)
    (formData : DischargeSubmitTwo.FormData) (user_id : string)
    (clock : nat -> string) (t : nat) : list Ui.Request :=
  [ Ui.InsertDischarge
      (DischargeFormTwo.dischargeRow patient formData user_id (clock t));
    Ui.MarkDischarged (Patient.id patient) (clock (1 + t));
    Ui.CompleteMedications (Patient.id patient) (clock (2 + t))
      (clock (3 + t));
    Ui.InsertNotification "discharge"
      ("Patient " ++ Patient.name patient ++ " has been discharged ("
         ++ DischargeFormTwo.label
              (DischargeFormFields.discharge_condition formData)
         ++ ")")
      (DischargeSubmitTwo.severity
         (DischargeFormFields.discharge_condition formData))
      user_id (Patient.id patient) (Some (clock (4 + t))) ].

(** How many of them are sent: the first failing write is the last. *)
Definition sentTwo (env : DischargeSubmitTwo.Env) : nat :=
  match DischargeSubmitTwo.dischargeError env,
        DischargeSubmitTwo.updateError env with
  | Some _, _ => 1
  | None, Some _ => 2
  | None, None => 4
  end.

(** The requests of a discharge through the form with four conditions. *)
Definition requestsFour (patient : Patient.t)
    (formData : DischargeSubmitFour.FormData) (user_id : string)
    (clock : nat -> string) (t : nat) : list Ui.Request :=
  [ Ui.MarkDischarged (Patient.id patient) (clock t);
    Ui.InsertDischarge
      (DischargeFormFour.dischargeRow patient formData user_id
         (clock (1 + t)));
    Ui.InsertNotification "discharge"
      ("Patient " ++ Patient.name patient ++ " has been discharged")
      "info" user_id (Patient.id patient) None ].

Definition sentFour (env : DischargeSubmitFour.Env) : nat :=
  match DischargeSubmitFour.updateError env,
        DischargeSubmitFour.dischargeError env with
  | Some _, _ => 1
  | None, Some _ => 2
  | None, None => 3
  end.

(** The discharge succeeded in the eyes of the user. *)
Definition announced (added : list Ui.Event) : Prop :=
  In (Ui.ToastSuccess "Patient discharged successfully") added
  /\ In Ui.OnDischarge added
  /\ In (Ui.Navigate "/dashboard") added.

(** A filled form with two conditions and its environment. *)
Definition filledTwo : DischargeSubmitTwo.FormData :=
  {| DischargeFormFields.discharge_date := "2024-03-03";
     DischargeFormFields.discharge_diagnosis := "Sepsis";
     DischargeFormFields.discharge_summary := "Recovered";
     DischargeFormFields.discharge_medications := "";
     DischargeFormFields.follow_up_instructions := "";
     DischargeFormFields.discharge_condition := DischargeFormTwo.died |}.

Definition filledFour : DischargeSubmitFour.FormData :=
  {| DischargeFormFields.discharge_date := "2024-03-03";
     DischargeFormFields.discharge_diagnosis := "Sepsis";
     DischargeFormFields.discharge_summary := "Recovered";
     DischargeFormFields.discharge_medications := "";
     DischargeFormFields.follow_up_instructions := "";
     DischargeFormFields.discharge_condition := DischargeFormFour.Deceased |}.

Definition somePatient : Patient.t :=
  Patient.mk "p1" "Ada" "MRN-1" "Critical" "Sepsis" "2024-03-01".

Definition tick (n : nat) : string := Numeral.decimal (N.of_nat n).

(** The patient update fails after the discharge row was written. *)
Definition updateFailsTwo : DischargeSubmitTwo.Env :=
  {| DischargeSubmitTwo.stored := Ui.User "u1";
     DischargeSubmitTwo.clock := tick;
     DischargeSubmitTwo.dischargeError := None;
     DischargeSubmitTwo.updateError := Some (OtherValue "timeout");
     DischargeSubmitTwo.medicationError := None |}.

(** The discharge insert fails after the patient was marked. *)
Definition insertFailsFour : DischargeSubmitFour.Env :=
  {| DischargeSubmitFour.stored := Ui.User "u1";
     DischargeSubmitFour.clock := tick;
     DischargeSubmitFour.updateError := None;
     DischargeSubmitFour.dischargeError := Some (OtherValue "timeout") |}.

(** A discharge submitted through one of the two forms. *)
Inductive Submitted : Type :=
| ThroughTwo (patient : Patient.t) (formData : DischargeSubmitTwo.FormData)
    (user_id now : string)
| ThroughFour (patient : Patient.t) (formData : DischargeSubmitFour.FormData)
    (user_id now : string).

(** The row the form inserts for it. *)
Definition rowOf (w : Submitted) : Discharge.t :=
  match w with
  | ThroughTwo patient formData user_id now =>
      DischargeFormTwo.dischargeRow patient formData user_id now
  | ThroughFour patient formData user_id now =>
      DischargeFormFour.dischargeRow patient formData user_id now
  end.

(** The form recorded the death of the patient. *)
Definition recordsDeath (w : Submitted) : bool :=
  match w with
  | ThroughTwo _ formData _ _ =>
      match DischargeFormFields.discharge_condition formData with
      | DischargeFormTwo.died => true
      | DischargeFormTwo.Improved => false
      end
  | ThroughFour _ formData _ _ =>
      match DischargeFormFields.discharge_condition formData with
      | DischargeFormFour.Deceased => true
      | _ => false
      end
  end.

Definition throughFour (w : Submitted) : bool :=
  match w with
  | ThroughTwo _ _ _ _ => false
  | ThroughFour _ _ _ _ => true
  end.

(** For each table, how many [doc.addPage()] calls come before it.  On
    which page a table is drawn is not decided here: the table plugin
    breaks pages of its own accord when a table does not fit. *)
Fixpoint breaksBefore (breaks : nat) (ops : list Pdf.Op) : list nat :=
  match ops with
  | [] => []
  | Pdf.AddPage :: rest => breaksBefore (S breaks) rest
  | Pdf.AutoTable _ _ _ :: rest => breaks :: breaksBefore breaks rest
  | _ :: rest => breaksBefore breaks rest
  end.

(** The tables among the calls, in order, each with the text that was
    drawn last before it, its head and its body. *)
Fixpoint titled (title : option string) (ops : list Pdf.Op)
  : list (option string * list (list string) * list (list string)) :=
  match ops with
  | [] => []
  | Pdf.Text text _ _ :: rest => titled (Some text) rest
  | Pdf.AutoTable _ head body :: rest =>
      (title, head, body) :: titled title rest
  | _ :: rest => titled title rest
  end.

(** The tables of a document. *)
Definition tables (doc : Pdf.Doc)
  : list (option string * list (list string) * list (list string)) :=
  titled None (Pdf.ops doc).

(** The row shows the name and the decimal numeral of the count [x]. *)
Definition countRow (row : list string) (name : string) (x : JS.value)
  : Prop :=
  exists s n, row = [name; s] /\ x = JS.of_nat n /\ Spec.rendersCount s n.

(** Seven admissions with six diagnoses. *)
Definition ward : list Patient.t :=
  [ Patient.mk "1" "A" "MRN-1" "Stable" "Sepsis" "1";
    Patient.mk "2" "B" "MRN-2" "Critical" "Stroke" "1";
    Patient.mk "3" "C" "MRN-3" "Stable" "Asthma" "2";
    Patient.mk "4" "D" "MRN-4" "Discharged" "Stroke" "2";
    Patient.mk "5" "E" "MRN-5" "Stable" "Trauma" "3";
    Patient.mk "6" "F" "MRN-6" "Stable" "Burns" "3";
    Patient.mk "7" "G" "MRN-7" "Critical" "Angina" "3" ].

(** The admission form is complete: no required text is blank, a
    gender is chosen and the age is not refused. *)
Definition validAdmit (formData : AdmitPatientForm.FormData) : bool :=
  negb (Str.blank (AdmitPatientForm.mrn formData))
  && negb (Str.blank (AdmitPatientForm.name formData))
  && negb (AdmitPatientForm.ageRefused (AdmitPatientForm.age formData))
  && Str.truthy (AdmitPatientForm.gender formData)
  && negb (Str.blank (AdmitPatientForm.diagnosis formData))
  && negb (Str.blank (AdmitPatientForm.bed_number formData))
  && negb (Str.blank (AdmitPatientForm.history formData))
  && negb (Str.blank (AdmitPatientForm.examination formData)).

(** What the admission form requires, in order. *)
Definition checksAdmit (formData : AdmitPatientForm.FormData)
  : list (bool * string) :=
  [ (negb (Str.blank (AdmitPatientForm.mrn formData)), "MRN is required");
    (negb (Str.blank (AdmitPatientForm.name formData)),
     "Patient name is required");
    (negb (AdmitPatientForm.ageRefused (AdmitPatientForm.age formData)),
     "Please enter a valid age (0-150)");
    (Str.truthy (AdmitPatientForm.gender formData), "Gender is required");
    (negb (Str.blank (AdmitPatientForm.diagnosis formData)),
     "Diagnosis is required");
    (negb (Str.blank (AdmitPatientForm.bed_number formData)),
     "Bed number is required");
    (negb (Str.blank (AdmitPatientForm.history formData)),
     "Patient history is required");
    (negb (Str.blank (AdmitPatientForm.examination formData)),
     "Physical examination is required") ].

(** A lookup fails: it has an error whose code is not that of "no row". *)
Definition lookupFails (l : AdmitPatientForm.Lookup) : bool :=
  match AdmitPatientForm.error l with
  | Some (code, _) => negb (String.eqb code "PGRST116")
  | None => false
  end.

(** The requests of an admission, the clock being read from [t] on; the
    notification names the row that came back. *)
Definition requestsAdmit (formData : AdmitPatientForm.FormData)
    (env : AdmitPatientForm.Env) (user_id : string) (t : nat)
  : list Ui.Request :=
  [ Ui.LookupMrn (AdmitPatientForm.mrn formData);
    Ui.LookupBed (AdmitPatientForm.bed_number formData);
    Ui.InsertPatient (AdmitPatientForm.mrn formData)
      (AdmitPatientForm.name formData)
      (Num.parseInt (AdmitPatientForm.age formData))
      (AdmitPatientForm.gender formData)
      (AdmitPatientForm.diagnosis formData)
      (AdmitPatientForm.bed_number formData)
      (AdmitPatientForm.history formData)
      (AdmitPatientForm.examination formData)
      (AdmitPatientForm.notes formData)
      (AdmitPatientForm.status formData)
      (AdmitPatientForm.clock env t) user_id
      (AdmitPatientForm.clock env (1 + t))
      (AdmitPatientForm.clock env (2 + t)) ]
  ++ match AdmitPatientForm.newPatient env with
     | Some id =>
         [ Ui.InsertNotification "status"
             ("New patient admitted: " ++ AdmitPatientForm.name formData)
             "info" user_id id
             (Some (AdmitPatientForm.clock env (3 + t))) ]
     | None => []
     end.

(** How many of them are sent. *)
Definition sentAdmit (env : AdmitPatientForm.Env) : nat :=
  if lookupFails (AdmitPatientForm.existingPatient env)
     || AdmitPatientForm.found (AdmitPatientForm.existingPatient env)
  then 1
  else if lookupFails (AdmitPatientForm.existingBed env)
          || AdmitPatientForm.found (AdmitPatientForm.existingBed env)
  then 2
  else match AdmitPatientForm.insertError env,
             AdmitPatientForm.newPatient env with
       | None, Some _ => 4
       | _, _ => 3
       end.

(** The admission succeeded in the eyes of the user. *)
Definition admitted (added : list Ui.Event) : Prop :=
  In (Ui.ToastSuccess "Patient admitted successfully") added.

(** The toasts among the events. *)
Definition toasts (added : list Ui.Event) : list Ui.Event :=
  filter (fun e => match e with
                   | Ui.ToastError _ | Ui.ToastSuccess _ => true
                   | _ => false
                   end) added.

(** The ages of the patients inserted, in order. *)
Definition agesInserted (added : list Ui.Event) : list JS.number :=
  flat_map (fun e => match e with
                     | Ui.Sent (Ui.InsertPatient _ _ age _ _ _ _ _ _ _ _ _ _ _)
                         => [age]
                     | _ => []
                     end) added.

(** What may follow a decimal numeral without changing what [parseInt]
    reads: nothing, or a first character that is neither a decimal digit
    nor the [x] of a hexadecimal prefix. *)
Definition endsNumeral (tail : string) : bool :=
  match tail with
  | EmptyString => true
  | String c _ =>
      match Num.digitValue 10 c with
      | Some _ => false
      | None => negb (Ascii.eqb c "x" || Ascii.eqb c "X")
      end
  end.

(** A filled admission form, and a ward where its bed is taken. *)
Definition filledAdmit : AdmitPatientForm.FormData :=
  {| AdmitPatientForm.mrn := "MRN-8";
     AdmitPatientForm.name := "H";
     AdmitPatientForm.age := "45";
     AdmitPatientForm.gender := "female";
     AdmitPatientForm.diagnosis := "Sepsis";
     AdmitPatientForm.bed_number := "4";
     AdmitPatientForm.history := "none";
     AdmitPatientForm.examination := "normal";
     AdmitPatientForm.notes := EmptyString;
     AdmitPatientForm.status := "Stable" |}.

Definition noRow : AdmitPatientForm.Lookup :=
  {| AdmitPatientForm.found := false;
     AdmitPatientForm.error :=
       Some ("PGRST116", ErrorObject "no rows returned") |}.

Definition bedTaken : AdmitPatientForm.Env :=
  {| AdmitPatientForm.stored := Ui.User "u1";
     AdmitPatientForm.clock := tick;
     AdmitPatientForm.existingPatient := noRow;
     AdmitPatientForm.existingBed :=
       {| AdmitPatientForm.found := true; AdmitPatientForm.error := None |};
     AdmitPatientForm.insertError := None;
     AdmitPatientForm.newPatient := Some "8" |}.

(** The patients set into the page's state, in order. *)
Definition patientsSet (added : list Ui.Event) : list Patient.t :=
  flat_map (fun e => match e with Ui.SetPatient p => [p] | _ => [] end)
    added.

(** The pages navigated to, in order. *)
Definition navigations (added : list Ui.Event) : list string :=
  flat_map (fun e => match e with Ui.Navigate path => [path] | _ => [] end)
    added.

(** The statuses set on the page's patient, in order. *)
Definition statusesSet (added : list Ui.Event) : list string :=
  flat_map (fun e => match e with
                     | Ui.SetPatientStatus st => [st]
                     | _ => []
                     end) added.

(** The page can change the status: it has a patient and an id, and the
    update is accepted. *)
Definition statusUpdated (env : PatientPage.Env) : bool :=
  match PatientPage.patient env, PatientPage.idGiven env,
        PatientPage.updateError env with
  | Some _, Some _, None => true
  | _, _, _ => false
  end.

(** The page has a patient and an id, and the update is refused. *)
Definition updateRefused (env : PatientPage.Env) : bool :=
  match PatientPage.patient env, PatientPage.idGiven env,
        PatientPage.updateError env with
  | Some _, Some _, Some _ => true
  | _, _, _ => false
  end.

(** The stored item gives no user: it does not parse, or it parses to
    [null]. *)
Definition unreadable (st : Ui.Stored) : bool :=
  match st with Ui.Unreadable _ | Ui.Null => true | _ => false end.

Definition userStored (st : Ui.Stored) : bool :=
  match st with Ui.User _ => true | _ => false end.

(** The form was closed through [onClose]. *)
Definition closed (added : list Ui.Event) : bool :=
  existsb (fun e => match e with Ui.OnClose => true | _ => false end) added.

End Derived.

(* ================================================================== *)
(** ** Sample data *)

Module Sample.

(** A clock and a calendar for the samples: timestamps are day numbers
    written in decimal, a day has [86400000] milliseconds, and the
    calendar date of an instant is its day number. *)
Definition getTime (stamp : string) : Z :=
  match Obj.read_digits stamp 0 with
  | Some day => (Z.of_N day * 86400000)%Z
  | None => 0%Z
  end.

Definition format (time : Z) (pattern : string) : string :=
  Numeral.decimal (Z.to_N (time / 86400000)).

Definition toStringOther (q : Q) : string := "?".

(** The valid stamps of the samples are the decimal numerals. *)
Definition validDate (stamp : string) : bool :=
  match Obj.read_digits stamp 0 with
  | Some _ => negb (String.eqb stamp "")
  | None => false
  end.

Definition refused : Thrown := OtherValue "connection refused".

Definition ok {A : Type} (rows : list A) : Response.t A :=
  {| Response.data := Some rows; Response.error := None |}.

Definition failed {A : Type} (e : Thrown) : Response.t A :=
  {| Response.data := None; Response.error := Some e |}.

(** The patients fetch fails with a plain object. *)
Definition patientsFail : Responses :=
  {| patientsResponse := failed refused;
     medicationsResponse := ok [];
     labResultsResponse := ok [];
     dischargesResponse := ok [];
     vitalsResponse := ok [] |}.

Definition current : Metrics.t :=
  {| Metrics.totalPatients := JS.of_nat 10;
     Metrics.criticalCases := JS.of_nat 3;
     Metrics.medicationsGiven := JS.of_nat 42;
     Metrics.labTests := JS.of_nat 17;
     Metrics.averageStayDuration := JS.Finite (7 # 3);
     Metrics.bedOccupancyRate := JS.Finite (9 # 50);
     Metrics.readmissionRate := JS.Finite (1 # 10);
     Metrics.mortalityRate := JS.Finite (1 # 2) |}.

Definition previous : Metrics.t :=
  {| Metrics.totalPatients := JS.of_nat 12;
     Metrics.criticalCases := JS.of_nat 1;
     Metrics.medicationsGiven := JS.of_nat 40;
     Metrics.labTests := JS.of_nat 20;
     Metrics.averageStayDuration := JS.Finite (5 # 2);
     Metrics.bedOccupancyRate := JS.Finite (12 # 50);
     Metrics.readmissionRate := JS.Finite 0;
     Metrics.mortalityRate := JS.Finite (1 # 4) |}.

End Sample.

(* ================================================================== *)
(** * Properties *)

(** ** Numbers *)

Module JSFacts.

Lemma isZero_of_nat (n : nat) :
  JS.isZero (inject_Z (Z.of_nat n)) = Nat.eqb n 0.
Proof.
  destruct n as [|n]; [reflexivity|].
  unfold JS.isZero.
  destruct (Qeq_bool (inject_Z (Z.of_nat (S n))) 0) eqn:E; [|reflexivity].
  apply Qeq_bool_eq in E. unfold Qeq in E. simpl in E. lia.
Qed.

Lemma truthy_of_nat (n : nat) : JS.truthy (JS.of_nat n) = negb (Nat.eqb n 0).
Proof. unfold JS.of_nat, JS.of_Z. simpl. now rewrite isZero_of_nat. Qed.

(** [n || 1] on an array length is [max(n, 1)]. *)
Lemma or_one (n : nat) :
  JS.or (JS.of_nat n) (JS.of_nat 1) = JS.of_nat (Nat.max n 1).
Proof.
  unfold JS.or. rewrite truthy_of_nat.
  destruct n as [|n]; simpl; [reflexivity|].
  now rewrite Nat.max_l by lia.
Qed.

Lemma div_of_nat (a b : nat) :
  b <> 0 ->
  JS.div (JS.of_nat a) (JS.of_nat b)
  = JS.Finite (inject_Z (Z.of_nat a) / inject_Z (Z.of_nat b)).
Proof.
  intros Hb. unfold JS.of_nat, JS.of_Z. simpl.
  rewrite isZero_of_nat.
  destruct b; [contradiction|reflexivity].
Qed.

Lemma div_finite_of_nat (q : Q) (b : nat) :
  b <> 0 ->
  JS.div (JS.Finite q) (JS.of_nat b)
  = JS.Finite (q / inject_Z (Z.of_nat b)).
Proof.
  intros Hb. unfold JS.of_nat, JS.of_Z. simpl.
  rewrite isZero_of_nat.
  destruct b; [contradiction|reflexivity].
Qed.

Lemma eqv_refl (x : JS.number) : x =js= x.
Proof. destruct x; simpl; auto. reflexivity. Qed.

Lemma eqv_sym (x y : JS.number) : x =js= y -> y =js= x.
Proof. destruct x, y; simpl; auto. intros H; now symmetry. Qed.

Lemma eqv_trans (x y z : JS.number) : x =js= y -> y =js= z -> x =js= z.
Proof.
  destruct x, y, z; simpl; auto; try contradiction.
  - intros H1 H2. now rewrite H1.
  - congruence.
Qed.

Lemma ratio_of_counts (n d : nat) :
  JS.div (JS.of_nat n) (JS.or (JS.of_nat d) (JS.of_nat 1))
  = JS.Finite (Spec.ratio n d).
Proof.
  rewrite or_one. apply div_of_nat. lia.
Qed.

End JSFacts.

(** ** Counting with [filter] *)

Lemma length_filter_count_occ (l : list string) (k : string) :
  List.length (filter (fun s => String.eqb s k) l) = Spec.occurrences k l.
Proof.
  unfold Spec.occurrences.
  induction l as [|x l IH]; simpl; [reflexivity|].
  destruct (String.eqb_spec x k) as [E|E];
    destruct (string_dec x k) as [E'|E']; try contradiction; simpl; auto.
Qed.

Lemma length_filter_map {A B : Type} (f : A -> B) (p : B -> bool)
    (l : list A) :
  List.length (filter (fun a => p (f a)) l)
  = List.length (filter p (map f l)).
Proof.
  induction l as [|x l IH]; simpl; [reflexivity|].
  destruct (p (f x)); simpl; auto.
Qed.

Lemma occurrences_le_length (k : string) (l : list string) :
  Spec.occurrences k l <= List.length l.
Proof.
  unfold Spec.occurrences.
  induction l as [|x l IH]; simpl; [lia|].
  destruct (string_dec x k); lia.
Qed.

(** ** Mortality rate *)

Lemma deceasedDischarges_occurrences (discharges : list Discharge.t) :
  deceasedDischarges discharges
  = Spec.occurrences Spec.deceasedSentinel
      (map Discharge.discharge_condition discharges).
Proof.
  unfold deceasedDischarges.
  rewrite (length_filter_map Discharge.discharge_condition
             (fun s => String.eqb s "Deceased")).
  apply length_filter_count_occ.
Qed.

(** C2. For every collection of discharges, [mortalityRate] is a finite
    number, never [NaN]: the number of discharge records whose discharge
    condition is the deceased sentinel, divided by the maximum of the
    number of discharges and [1].  With no discharge it is [0]; with two
    discharges of which exactly one has the deceased sentinel it is
    [1/2]. *)
Theorem C2_mortalityRate (discharges : list Discharge.t) :
  let deceased :=
    Spec.occurrences Spec.deceasedSentinel
      (map Discharge.discharge_condition discharges) in
  mortalityRate discharges
    = JS.Finite (Spec.ratio deceased (List.length discharges))
  /\ JS.isNaN (mortalityRate discharges) = false
  /\ (discharges = [] -> mortalityRate discharges =js= JS.Finite 0)
  /\ (List.length discharges = 2 -> deceased = 1 ->
      mortalityRate discharges =js= JS.Finite (1 # 2)).
Proof.
  intros deceased.
  assert (E : mortalityRate discharges
              = JS.Finite (Spec.ratio deceased (List.length discharges))).
  { unfold mortalityRate. rewrite JSFacts.ratio_of_counts.
    now rewrite deceasedDischarges_occurrences. }
  repeat split.
  - exact E.
  - now rewrite E.
  - intros ->. reflexivity.
  - intros Hlen Hone. rewrite E, Hlen, Hone. reflexivity.
Qed.

(** The scenario of C2 on two concrete discharge records. *)
Lemma C2_mortalityRate_witness :
  mortalityRate
    [ Discharge.mk "p1" "2024-03-02" "" "" "" "" "Deceased" "u" "";
      Discharge.mk "p2" "2024-03-03" "" "" "" "" "Improved" "u" "" ]
  =js= JS.Finite (1 # 2).
Proof.
  apply (C2_mortalityRate
           [ Discharge.mk "p1" "2024-03-02" "" "" "" "" "Deceased" "u" "";
             Discharge.mk "p2" "2024-03-03" "" "" "" "" "Improved" "u" "" ]);
    reflexivity.
Defined.

(** ** Dictionaries *)

Lemma Permutation_filter {A : Type} (f : A -> bool) (l l' : list A) :
  Permutation l l' -> Permutation (filter f l) (filter f l').
Proof.
  induction 1 as [|x l l' _ IH|x y l|l l' l'' _ IH1 _ IH2]; simpl.
  - constructor.
  - destruct (f x); [now constructor|assumption].
  - destruct (f x), (f y); try reflexivity. apply perm_swap.
  - now transitivity (filter f l').
Qed.

Module ObjFacts.

Section Facts.
Context {V : Type}.
Implicit Types (o : Obj.t V) (k : string) (v : V).

Lemma get_Some_In o k v : Obj.get o k = Some v -> In (k, v) o.
Proof.
  induction o as [|[k' v'] o IH]; simpl; [discriminate|].
  destruct (String.eqb_spec k' k) as [->|N].
  - intros [= ->]. now left.
  - intros H. right. auto.
Qed.

Lemma get_None_notin o k : Obj.get o k = None -> ~ In k (map fst o).
Proof.
  induction o as [|[k' v'] o IH]; simpl; [tauto|].
  destruct (String.eqb_spec k' k) as [->|N]; [discriminate|].
  intros H [E|I]; [contradiction|now apply IH].
Qed.

Lemma In_get o k v : NoDup (map fst o) -> In (k, v) o -> Obj.get o k = Some v.
Proof.
  induction o as [|[k' v'] o IH]; simpl; [tauto|].
  intros ND [E|I].
  - injection E as -> ->. now rewrite String.eqb_refl.
  - inversion ND as [|? ? Hn ND']; subst.
    destruct (String.eqb_spec k' k) as [->|N]; [|auto].
    exfalso. apply Hn. now apply (in_map fst) in I.
Qed.

Lemma keys_set_in o k v :
  In k (map fst o) -> map fst (Obj.set o k v) = map fst o.
Proof.
  induction o as [|[k' v'] o IH]; simpl; [tauto|].
  destruct (String.eqb_spec k' k) as [->|N]; [reflexivity|].
  intros [E|I]; [contradiction|]. simpl. now rewrite IH.
Qed.

Lemma keys_set_notin o k v :
  ~ In k (map fst o) -> map fst (Obj.set o k v) = (map fst o ++ [k])%list.
Proof.
  induction o as [|[k' v'] o IH]; simpl; [reflexivity|].
  intros H. destruct (String.eqb_spec k' k) as [->|N]; [tauto|].
  simpl. rewrite IH; tauto.
Qed.

Lemma NoDup_keys_set o k v :
  NoDup (map fst o) -> NoDup (map fst (Obj.set o k v)).
Proof.
  intros ND. destruct (in_dec string_dec k (map fst o)) as [I|I].
  - now rewrite keys_set_in.
  - rewrite keys_set_notin by assumption.
    apply NoDup_app; [assumption|repeat constructor; simpl; tauto|].
    intros x Hx [<-|[]]. contradiction.
Qed.

Lemma In_set o k v k' v' :
  NoDup (map fst o) ->
  In (k', v') (Obj.set o k v)
  <-> (k' = k /\ v' = v) \/ (k' <> k /\ In (k', v') o).
Proof.
  induction o as [|[k0 v0] o IH]; simpl; intros ND.
  - split.
    + intros [[= <- <-]|[]]. now left.
    + intros [[-> ->]|[_ []]]. now left.
  - inversion ND as [|? ? Hn ND']; subst.
    destruct (String.eqb_spec k0 k) as [->|N]; simpl.
    + split.
      * intros [[= <- <-]|I]; [now left|].
        right. split; [|now right].
        intros ->. apply Hn. now apply (in_map fst) in I.
      * intros [[-> ->]|[Hk [[= <- <-]|I]]];
          [now left|contradiction|now right].
    + rewrite (IH ND'). split.
      * intros [[= <- <-]|[[-> ->]|[Hk I]]].
        -- right. split; [congruence|now left].
        -- now left.
        -- right. split; [assumption|now right].
      * intros [[-> ->]|[Hk [E|I]]].
        -- right. now left.
        -- now left.
        -- right. right. now split.
Qed.

Lemma insert_index_perm (e : N * (string * V)) l :
  Permutation (Obj.insert_index e l) (e :: l).
Proof.
  induction l as [|e' l IH]; simpl; [reflexivity|].
  destruct (fst e <=? fst e')%N; [reflexivity|].
  rewrite IH. apply perm_swap.
Qed.

Lemma sort_index_perm (l : list (N * (string * V))) :
  Permutation (fold_right Obj.insert_index [] l) l.
Proof.
  induction l as [|e l IH]; simpl; [reflexivity|].
  rewrite insert_index_perm. now constructor.
Qed.

Lemma indexed_filter o :
  map snd (Obj.indexed o)
  = filter (fun kv => match Obj.arrayIndex (fst kv) with
                      | Some _ => true
                      | None => false
                      end) o.
Proof.
  unfold Obj.indexed.
  induction o as [|kv o IH]; simpl; [reflexivity|].
  destruct (Obj.arrayIndex (fst kv)); simpl; now rewrite IH.
Qed.

Lemma filter_split_perm {A : Type} (p q : A -> bool) (l : list A) :
  (forall a, q a = negb (p a)) ->
  Permutation (filter p l ++ filter q l) l.
Proof.
  intros Hq. induction l as [|a l IH]; simpl; [reflexivity|].
  rewrite Hq. destruct (p a); simpl.
  - now constructor.
  - rewrite <- Permutation_middle. now constructor.
Qed.

(** [Object.entries] lists every own property exactly once. *)
Lemma entries_perm o : Permutation (Obj.entries o) o.
Proof.
  unfold Obj.entries.
  rewrite (Permutation_map snd (sort_index_perm (Obj.indexed o))).
  rewrite indexed_filter. unfold Obj.named.
  apply filter_split_perm.
  intros a. now destruct (Obj.arrayIndex (fst a)).
Qed.

Lemma values_perm o : Permutation (Obj.values o) (map snd o).
Proof. unfold Obj.values. apply Permutation_map, entries_perm. Qed.
End Facts.

End ObjFacts.

(** ** Tallies *)

Module TallyFacts.

Lemma occurrences_snoc (k k' : string) (l : list string) :
  Spec.occurrences k' (l ++ [k])
  = Spec.occurrences k' l + (if string_dec k k' then 1 else 0).
Proof.
  unfold Spec.occurrences. rewrite count_occ_app. simpl.
  destruct (string_dec k k'); reflexivity.
Qed.

Lemma occurrences_filter (p : string -> bool) (k : string)
    (l : list string) :
  p k = true -> Spec.occurrences k (filter p l) = Spec.occurrences k l.
Proof.
  intros H. unfold Spec.occurrences.
  induction l as [|x l IH]; simpl; [reflexivity|].
  destruct (p x) eqn:Px; simpl.
  - destruct (string_dec x k); now rewrite IH.
  - destruct (string_dec x k) as [->|N]; [congruence|exact IH].
Qed.

Lemma tallied_empty : Spec.tallied Obj.empty [].
Proof.
  split; [constructor|]. intros k v. simpl. split; [tauto|].
  intros [-> H]. unfold Spec.occurrences in H. simpl in H. lia.
Qed.

Lemma tallied_get (o : Obj.t nat) (seen : list string) (k : string) :
  Spec.tallied o seen -> JS.orZero (Obj.get o k) = Spec.occurrences k seen.
Proof.
  intros [ND H]. destruct (Obj.get o k) as [v|] eqn:G; simpl.
  - apply ObjFacts.get_Some_In, H in G. destruct G as [-> Hpos].
    destruct (Nat.eqb_spec (Spec.occurrences k seen) 0); [lia|reflexivity].
  - apply ObjFacts.get_None_notin in G.
    destruct (Spec.occurrences k seen) as [|n] eqn:E; [reflexivity|].
    exfalso. apply G.
    apply (in_map fst o (k, S n)). apply H. split; [now rewrite E|lia].
Qed.

Lemma tallied_step (o : Obj.t nat) (seen : list string) (k : string) :
  Spec.tallied o seen -> Spec.tallied (Spec.tallyOwn o k) (seen ++ [k]).
Proof.
  intros T. pose proof T as [ND H]. unfold Spec.tallyOwn.
  rewrite (tallied_get o seen k T).
  split; [now apply ObjFacts.NoDup_keys_set|].
  intros k' v'. rewrite ObjFacts.In_set by assumption.
  rewrite occurrences_snoc, H.
  destruct (string_dec k k') as [->|N]; split.
  - intros [[_ ->]|[N _]]; [lia|congruence].
  - intros [-> _]. left. split; [reflexivity|lia].
  - intros [[-> _]|[_ [-> Hp]]]; [congruence|lia].
  - intros [-> Hp]. right. split; [congruence|]. split; lia.
Qed.

Lemma tallied_fold (keys : list string) :
  forall o seen, Spec.tallied o seen ->
    Spec.tallied (fold_left Spec.tallyOwn keys o) (seen ++ keys).
Proof.
  induction keys as [|k keys IH]; simpl; intros o seen T.
  - now rewrite app_nil_r.
  - replace (seen ++ k :: keys)%list with ((seen ++ [k]) ++ keys)%list
      by now rewrite <- app_assoc.
    apply IH. now apply tallied_step.
Qed.

Lemma tallied_own (keys : list string) :
  Spec.tallied (Spec.talliesOwn keys) keys.
Proof. apply (tallied_fold keys Obj.empty [] tallied_empty). Qed.

Lemma fold_tally_map {A : Type} (key : A -> string) (l : list A) :
  forall o,
    fold_left (fun acc curr => tally acc (key curr)) l o
    = fold_left tally (map key l) o.
Proof. induction l as [|a l IH]; simpl; auto. Qed.

Lemma NoDup_groups (l : list string) : NoDup (map fst (Spec.groups l)).
Proof.
  unfold Spec.groups. rewrite map_map. simpl. rewrite map_id.
  apply NoDup_nodup.
Qed.

Lemma In_groups (l : list string) (k : string) (v : nat) :
  In (k, v) (Spec.groups l) <-> (v = Spec.occurrences k l /\ 0 < v).
Proof.
  unfold Spec.groups, Spec.distinct. rewrite in_map_iff. split.
  - intros [x [[= -> <-] I]]. split; [reflexivity|].
    apply nodup_In in I. unfold Spec.occurrences.
    now apply (count_occ_In string_dec) in I.
  - intros [-> Hp]. exists k. split; [reflexivity|].
    apply nodup_In. apply (count_occ_In string_dec). exact Hp.
Qed.

(** A tally holds exactly the groups of the keys it has seen. *)
Lemma tallied_groups (o : Obj.t nat) (seen : list string) :
  Spec.tallied o seen -> Permutation o (Spec.groups seen).
Proof.
  intros [ND H]. apply NoDup_Permutation.
  - now apply NoDup_map_inv in ND.
  - exact (NoDup_map_inv _ _ (NoDup_groups seen)).
  - intros [k v]. now rewrite H, In_groups.
Qed.

(** Each step adds one to the sum of the counts. *)
Lemma list_sum_set (o : Obj.t nat) (k : string) :
  list_sum (map snd (Spec.tallyOwn o k)) = S (list_sum (map snd o)).
Proof.
  unfold Spec.tallyOwn. induction o as [|[k' v'] o IH]; simpl; [reflexivity|].
  destruct (String.eqb_spec k' k) as [->|N]; simpl.
  - destruct (Nat.eqb_spec v' 0); lia.
  - rewrite IH. lia.
Qed.

Lemma list_sum_fold (keys : list string) :
  forall o,
    list_sum (map snd (fold_left Spec.tallyOwn keys o))
    = list_sum (map snd o) + List.length keys.
Proof.
  induction keys as [|k keys IH]; simpl; intros o; [lia|].
  rewrite IH, list_sum_set. lia.
Qed.

(** *** Keys that are not inherited: the reducer counts *)

Lemma get_counted (o : Obj.t nat) (k : string) :
  Obj.get (Spec.counted o) k = option_map Tally.Count (Obj.get o k).
Proof.
  induction o as [|[k' v'] o IH]; simpl; [reflexivity|].
  destruct (String.eqb k' k); [reflexivity|exact IH].
Qed.

Lemma set_counted (o : Obj.t nat) (k : string) (n : nat) :
  Obj.set (Spec.counted o) k (Tally.Count n) = Spec.counted (Obj.set o k n).
Proof.
  induction o as [|[k' v'] o IH]; simpl; [reflexivity|].
  destruct (String.eqb k' k); simpl; [reflexivity|now rewrite IH].
Qed.

Lemma tally_counted (o : Obj.t nat) (k : string) :
  Obj.inherited k = false ->
  tally (Spec.counted o) k = Spec.counted (Spec.tallyOwn o k).
Proof.
  intros H. unfold tally, Spec.tallyOwn. rewrite get_counted, H.
  destruct (Obj.get o k) as [n|]; cbn [option_map]; apply set_counted.
Qed.

Lemma fold_counted (keys : list string) :
  Spec.plainKeys keys = true ->
  forall o,
    fold_left tally keys (Spec.counted o)
    = Spec.counted (fold_left Spec.tallyOwn keys o).
Proof.
  unfold Spec.plainKeys.
  induction keys as [|k keys IH]; simpl; intros H o; [reflexivity|].
  apply andb_true_iff in H. destruct H as [Hk H].
  apply negb_true_iff in Hk.
  rewrite (tally_counted o k Hk). now apply IH.
Qed.

(** Over keys none of which is inherited, the reducers hold the counts
    of the keys. *)
Lemma tallies_plain {A : Type} (key : A -> string) (l : list A) :
  Spec.plainKeys (map key l) = true ->
  fold_left (fun acc curr => tally acc (key curr)) l Obj.empty
  = Spec.counted (Spec.talliesOwn (map key l)).
Proof.
  intros H. rewrite fold_tally_map.
  exact (fold_counted (map key l) H Obj.empty).
Qed.

Lemma filter_plain (l : list string) :
  Spec.plainKeys l = true ->
  filter (fun k => negb (Obj.inherited k)) l = l.
Proof.
  unfold Spec.plainKeys. induction l as [|k l IH]; simpl; [reflexivity|].
  intros H. apply andb_true_iff in H. destruct H as [-> H].
  now rewrite IH.
Qed.

(** *** Any keys: the counts among the entries *)

Lemma In_set_cases {V : Type} (o : Obj.t V) (k : string) (v : V)
    (k' : string) (v' : V) :
  In (k', v') (Obj.set o k v) -> (k' = k /\ v' = v) \/ In (k', v') o.
Proof.
  induction o as [|[k0 v0] o IH]; simpl.
  - intros [[= <- <-]|[]]. now left.
  - destruct (String.eqb_spec k0 k) as [->|N]; simpl.
    + intros [[= <- <-]|I]; [now left|right; now right].
    + intros [E|I]; [right; now left|].
      destruct (IH I) as [E|I']; [now left|right; now right].
Qed.

Lemma wellKeyed_set (o : Obj.t Tally.t) (k : string) (v : Tally.t) :
  Spec.wellKeyed o ->
  match v with
  | Tally.Count _ => Obj.inherited k = false
  | Tally.Text _ _ => Obj.inherited k = true
  end ->
  Spec.wellKeyed (Obj.set o k v).
Proof.
  intros W Hv k' v' I.
  destruct (In_set_cases o k v k' v' I) as [[-> ->]|I']; [exact Hv|].
  exact (W k' v' I').
Qed.

Lemma wellKeyed_tally (o : Obj.t Tally.t) (k : string) :
  Spec.wellKeyed o -> Spec.wellKeyed (tally o k).
Proof.
  intros W. unfold tally.
  destruct (Obj.get o k) as [[n|m j]|] eqn:G.
  - apply wellKeyed_set; [exact W|].
    exact (W k _ (ObjFacts.get_Some_In o k _ G)).
  - apply wellKeyed_set; [exact W|].
    exact (W k _ (ObjFacts.get_Some_In o k _ G)).
  - destruct (Obj.inherited k) eqn:H.
    + destruct (String.eqb k "__proto__"); [exact W|].
      now apply wellKeyed_set.
    + now apply wellKeyed_set.
Qed.

Lemma wellKeyed_tail (kv : string * Tally.t) (o : Obj.t Tally.t) :
  Spec.wellKeyed (kv :: o) -> Spec.wellKeyed o.
Proof. intros W k v I. apply W. now right. Qed.

Lemma get_counts (o : Obj.t Tally.t) (k : string) :
  Spec.wellKeyed o -> Obj.inherited k = false ->
  Obj.get o k = option_map Tally.Count (Obj.get (Spec.counts o) k).
Proof.
  intros W H. induction o as [|[k' v'] o IH]; simpl; [reflexivity|].
  pose proof (W k' v' (or_introl eq_refl)) as Hk'.
  specialize (IH (wellKeyed_tail _ _ W)).
  destruct v' as [n|m j]; simpl.
  - destruct (String.eqb k' k); [reflexivity|exact IH].
  - destruct (String.eqb_spec k' k) as [->|N]; [congruence|exact IH].
Qed.

Lemma get_text (o : Obj.t Tally.t) (k : string) (n : nat) :
  Spec.wellKeyed o -> Obj.inherited k = true ->
  Obj.get o k <> Some (Tally.Count n).
Proof.
  intros W H G. apply ObjFacts.get_Some_In in G.
  pose proof (W k _ G) as C. simpl in C. congruence.
Qed.

Lemma counts_set_count (o : Obj.t Tally.t) (k : string) (n : nat) :
  Spec.wellKeyed o -> Obj.inherited k = false ->
  Spec.counts (Obj.set o k (Tally.Count n))
  = Obj.set (Spec.counts o) k n.
Proof.
  intros W H. induction o as [|[k' v'] o IH]; simpl; [reflexivity|].
  pose proof (W k' v' (or_introl eq_refl)) as Hk'.
  specialize (IH (wellKeyed_tail _ _ W)).
  destruct (String.eqb_spec k' k) as [->|N].
  - destruct v' as [n'|m j]; simpl in *; [|congruence].
    now rewrite String.eqb_refl.
  - destruct v' as [n'|m j]; simpl.
    + destruct (String.eqb_spec k' k) as [E|_]; [contradiction|].
      now rewrite IH.
    + exact IH.
Qed.

Lemma counts_set_text (o : Obj.t Tally.t) (k member : string) (j : nat) :
  Spec.wellKeyed o -> Obj.inherited k = true ->
  Spec.counts (Obj.set o k (Tally.Text member j)) = Spec.counts o.
Proof.
  intros W H. induction o as [|[k' v'] o IH]; simpl; [reflexivity|].
  pose proof (W k' v' (or_introl eq_refl)) as Hk'.
  specialize (IH (wellKeyed_tail _ _ W)).
  destruct (String.eqb_spec k' k) as [->|N].
  - destruct v' as [n'|m' j']; simpl in *; [congruence|reflexivity].
  - destruct v' as [n'|m' j']; simpl; now rewrite IH.
Qed.

(** A step with an inherited key leaves the counts as they are; a step
    with another key counts it. *)
Lemma counts_tally (o : Obj.t Tally.t) (k : string) :
  Spec.wellKeyed o ->
  Spec.counts (tally o k)
  = if Obj.inherited k then Spec.counts o
    else Spec.tallyOwn (Spec.counts o) k.
Proof.
  intros W. unfold tally, Spec.tallyOwn.
  destruct (Obj.inherited k) eqn:H.
  - destruct (Obj.get o k) as [[n|m j]|] eqn:G.
    + exfalso. exact (get_text o k n W H G).
    + now apply counts_set_text.
    + destruct (String.eqb k "__proto__"); [reflexivity|].
      now apply counts_set_text.
  - rewrite (get_counts o k W H).
    destruct (Obj.get (Spec.counts o) k) as [n|]; cbn [option_map];
      now apply counts_set_count.
Qed.

Lemma counts_fold (keys : list string) :
  forall o, Spec.wellKeyed o ->
    Spec.wellKeyed (fold_left tally keys o)
    /\ Spec.counts (fold_left tally keys o)
       = fold_left Spec.tallyOwn
           (filter (fun k => negb (Obj.inherited k)) keys) (Spec.counts o).
Proof.
  induction keys as [|k keys IH]; simpl; intros o W; [now split|].
  destruct (IH (tally o k) (wellKeyed_tally o k W)) as [W' E].
  split; [exact W'|]. rewrite E, (counts_tally o k W).
  destruct (Obj.inherited k); reflexivity.
Qed.

(** The counts that the reducers hold are those of the keys that are
    not inherited. *)
Lemma counts_tallies {A : Type} (key : A -> string) (l : list A) :
  let o := fold_left (fun acc curr => tally acc (key curr)) l Obj.empty in
  Spec.wellKeyed o
  /\ Spec.counts o
     = Spec.talliesOwn
         (filter (fun k => negb (Obj.inherited k)) (map key l)).
Proof.
  cbv zeta. rewrite fold_tally_map.
  apply (counts_fold (map key l) Obj.empty). intros k v [].
Qed.

Lemma moreThanOne_counts (o : Obj.t Tally.t) :
  List.length (filter Tally.moreThanOne (map snd o))
  = List.length (filter (fun count => 1 <? count)
                   (map snd (Spec.counts o))).
Proof.
  induction o as [|[k [n|m j]] o IH]; simpl; [reflexivity| |exact IH].
  destruct (1 <? n); simpl; now rewrite IH.
Qed.

(** [Object.entries] and the sort go through a change of the values
    that keeps the keys and the order. *)
Lemma entries_map {V W : Type} (f : string * V -> string * W)
    (o : Obj.t V) :
  (forall kv, fst (f kv) = fst kv) ->
  Obj.entries (map f o) = map f (Obj.entries o).
Proof.
  intros Hf. unfold Obj.entries. rewrite map_app. f_equal.
  - assert (I : Obj.indexed (map f o)
                = map (fun e => (fst e, f (snd e))) (Obj.indexed o)).
    { unfold Obj.indexed. induction o as [|kv o IH]; simpl; [reflexivity|].
      rewrite Hf. destruct (Obj.arrayIndex (fst kv)); simpl; now rewrite IH. }
    rewrite I. generalize (Obj.indexed o). intros l.
    assert (S : fold_right Obj.insert_index []
                  (map (fun e => (fst e, f (snd e))) l)
                = map (fun e => (fst e, f (snd e)))
                    (fold_right Obj.insert_index [] l)).
    { induction l as [|e l IH]; simpl; [reflexivity|].
      rewrite IH. generalize (fold_right Obj.insert_index [] l). intros s.
      induction s as [|e' s IHs]; simpl; [reflexivity|].
      destruct (fst e <=? fst e')%N; simpl; [reflexivity|now rewrite IHs]. }
    rewrite S, !map_map. reflexivity.
  - unfold Obj.named. induction o as [|kv o IH]; simpl; [reflexivity|].
    rewrite Hf. destruct (Obj.arrayIndex (fst kv)); simpl; now rewrite IH.
Qed.

Lemma sort_map {A B : Type} (f : A -> B) (compareA : A -> A -> Z)
    (compareB : B -> B -> Z) (l : list A) :
  (forall x y, compareB (f x) (f y) = compareA x y) ->
  Array.sort compareB (map f l) = map f (Array.sort compareA l).
Proof.
  intros H. induction l as [|x l IH]; [reflexivity|].
  cbn [map Array.sort fold_right].
  fold (Array.sort compareB (map f l)). fold (Array.sort compareA l).
  rewrite IH. generalize (Array.sort compareA l). intros s.
  induction s as [|y s IHs]; simpl; [reflexivity|].
  rewrite H. destruct (compareA x y <=? 0)%Z; simpl; [reflexivity|].
  now rewrite IHs.
Qed.

End TallyFacts.

(** ** Sums of numbers *)

Lemma sum_finite (qs : list Q) :
  forall a : Q,
    fold_left JS.add (map JS.Finite qs) (JS.Finite a)
    =js= JS.Finite (a + Spec.total qs).
Proof.
  induction qs as [|q qs IH]; simpl; intros a.
  - ring.
  - eapply JSFacts.eqv_trans; [apply IH|]. simpl. ring.
Qed.

Lemma total_of_nat (ns : list nat) :
  Spec.total (map (fun n => inject_Z (Z.of_nat n)) ns)
  == inject_Z (Z.of_nat (list_sum ns)).
Proof.
  induction ns as [|n ns IH]; simpl; [reflexivity|].
  rewrite IH, Nat2Z.inj_add, inject_Z_plus. reflexivity.
Qed.

Lemma sum_of_nat (ns : list nat) :
  Array.sum (map JS.of_nat ns) =js= JS.of_nat (list_sum ns).
Proof.
  unfold Array.sum.
  replace (map JS.of_nat ns)
    with (map JS.Finite (map (fun n => inject_Z (Z.of_nat n)) ns))
    by (rewrite map_map; reflexivity).
  eapply JSFacts.eqv_trans; [apply sum_finite|].
  simpl. rewrite total_of_nat. ring.
Qed.

(** ** Patient status distribution *)

Section StatusDistribution.
Variable getTime : string -> Z.
Variable format : Z -> string -> string.

Lemma statusDistribution_plain (patients : list Patient.t) :
  Spec.plainKeys (map Patient.status patients) = true ->
  statusDistribution patients
  = Spec.counted (Spec.talliesOwn (map Patient.status patients)).
Proof. apply TallyFacts.tallies_plain. Qed.

(** Under the name [Critical] the reducer holds a count, whatever the
    other statuses are. *)
Lemma criticalCases_occurrences (patients : list Patient.t) :
  criticalCases patients
  = Spec.occurrences "Critical" (map Patient.status patients).
Proof.
  unfold criticalCases, statusDistribution.
  destruct (TallyFacts.counts_tallies Patient.status patients) as [W E].
  rewrite (TallyFacts.get_counts _ "Critical" W eq_refl), E.
  rewrite <- (TallyFacts.occurrences_filter
                (fun k => negb (Obj.inherited k)) "Critical"
                (map Patient.status patients) eq_refl).
  rewrite <- (TallyFacts.tallied_get _ _ "Critical"
                (TallyFacts.tallied_own _)).
  now destruct (Obj.get _ "Critical").
Qed.

Lemma buckets_plain (today : Z) (patients : list Patient.t)
    (medications : list Medication.t) (labResults : list LabResult.t)
    (discharges : list Discharge.t) (vitals : list Vital.t) :
  Spec.plainKeys (map Patient.status patients) = true ->
  Activities.patientStatusDistribution
    (computedActivities getTime format today patients medications
       labResults discharges vitals)
  = map (fun g => NameValue.mk (fst g) (JS.of_nat (snd g)))
      (Obj.entries (Spec.talliesOwn (map Patient.status patients))).
Proof.
  intros H.
  cbn [computedActivities activitiesOf Activities.patientStatusDistribution].
  rewrite (statusDistribution_plain patients H). unfold Spec.counted.
  rewrite TallyFacts.entries_map by reflexivity.
  rewrite map_map. apply map_ext. now intros [k v].
Qed.

(** When no status is the name of a property of [Object.prototype],
    the values of the entries of [patientStatusDistribution] are counts
    that sum to [totalPatients].
    Every admission is counted in exactly one bucket: the buckets have
    distinct names, each holds the number of admissions with its status,
    and every admission's status has a bucket.  [criticalCases] is the
    number of admissions whose status is Critical, and so is at most
    [totalPatients]. *)
Lemma status_buckets_plain (today : Z) (patients : list Patient.t)
    (medications : list Medication.t) (labResults : list LabResult.t)
    (discharges : list Discharge.t) (vitals : list Vital.t) :
  Spec.plainKeys (map Patient.status patients) = true ->
  let activities :=
    computedActivities getTime format today patients medications
      labResults discharges vitals in
  let metrics :=
    computedMetrics getTime patients medications labResults discharges in
  let buckets := Activities.patientStatusDistribution activities in
  let statuses := map Patient.status patients in
  (exists values : list nat,
     map NameValue.value buckets
     = map (fun n => JS.Num (JS.of_nat n)) values
     /\ Array.sum (map JS.of_nat values)
        =js= Metrics.totalPatients metrics)
  /\ NoDup (map NameValue.name buckets)
  /\ (forall b, In b buckets ->
        NameValue.value b
        = JS.of_nat (Spec.occurrences (NameValue.name b) statuses))
  /\ (forall p, In p patients ->
        exists b, In b buckets /\ NameValue.name b = Patient.status p)
  /\ Metrics.criticalCases metrics
     = JS.of_nat (Spec.occurrences "Critical" statuses)
  /\ Spec.occurrences "Critical" statuses <= List.length patients.
Proof.
  intros Plain activities metrics buckets statuses.
  set (own := Spec.talliesOwn statuses).
  pose proof (TallyFacts.tallied_own statuses) as T. fold own in T.
  pose proof (ObjFacts.entries_perm own) as P.
  destruct T as [ND H].
  assert (B : buckets
              = map (fun g => NameValue.mk (fst g) (JS.of_nat (snd g)))
                  (Obj.entries own)).
  { unfold buckets, activities. now apply buckets_plain. }
  assert (En : map NameValue.name buckets = map fst (Obj.entries own)).
  { rewrite B, map_map. reflexivity. }
  split; [|split; [|split; [|split; [|split]]]].
  - exists (map snd (Obj.entries own)). split.
    + rewrite B, !map_map. reflexivity.
    + eapply JSFacts.eqv_trans; [apply sum_of_nat|].
      rewrite (Permutation_list_sum (Permutation_map snd P)).
      unfold own, Spec.talliesOwn.
      rewrite TallyFacts.list_sum_fold. simpl list_sum.
      unfold statuses. rewrite length_map.
      apply JSFacts.eqv_refl.
  - rewrite En.
    apply (Permutation_NoDup (Permutation_sym (Permutation_map fst P))).
    exact ND.
  - intros b Hb. rewrite B in Hb.
    apply in_map_iff in Hb. destruct Hb as [[k v] [<- I]]. simpl.
    apply (Permutation_in _ P), H in I. now destruct I as [-> _].
  - intros p Hp.
    assert (I : In (Patient.status p,
                    Spec.occurrences (Patient.status p) statuses) own).
    { apply H. split; [reflexivity|].
      apply (count_occ_In string_dec). now apply in_map. }
    apply (Permutation_in _ (Permutation_sym P)) in I.
    exists (NameValue.mk (Patient.status p)
              (JS.of_nat (Spec.occurrences (Patient.status p) statuses))).
    split; [|reflexivity].
    rewrite B. apply in_map_iff. eexists. split; [|exact I]. reflexivity.
  - unfold metrics. simpl. now rewrite criticalCases_occurrences.
  - unfold statuses.
    rewrite <- (length_map Patient.status patients).
    apply occurrences_le_length.
Qed.

End StatusDistribution.

(** Three admissions with two statuses. *)
Lemma status_buckets_plain_sample :
  exists values : list nat,
    map NameValue.value
      (Activities.patientStatusDistribution
         (computedActivities Sample.getTime Sample.format 0
            [ Patient.mk "1" "A" "MRN-1" "Stable" "Sepsis" "1";
              Patient.mk "2" "B" "MRN-2" "Critical" "Stroke" "1";
              Patient.mk "3" "C" "MRN-3" "Stable" "Asthma" "2" ]
            [] [] [] []))
    = map (fun n => JS.Num (JS.of_nat n)) values
    /\ Array.sum (map JS.of_nat values) =js= JS.of_nat 3.
Proof.
  apply (status_buckets_plain Sample.getTime Sample.format 0%Z
           [ Patient.mk "1" "A" "MRN-1" "Stable" "Sepsis" "1";
             Patient.mk "2" "B" "MRN-2" "Critical" "Stroke" "1";
             Patient.mk "3" "C" "MRN-3" "Stable" "Asthma" "2" ]
           [] [] [] [] eq_refl).
Defined.


(** ** Readmission rate *)

(** The readmissions are counted among the MRNs that are not
    inherited names: under an inherited name the reducer holds a
    [Text], which is never more than one. *)
Lemma readmissions_counts (patients : list Patient.t) :
  readmissions patients
  = List.length
      (filter (fun count => 1 <? count)
         (map snd
            (Spec.talliesOwn
               (filter (fun k => negb (Obj.inherited k))
                  (map Patient.mrn patients))))).
Proof.
  unfold readmissions, patientAdmissions.
  destruct (TallyFacts.counts_tallies Patient.mrn patients) as [W E].
  rewrite (Permutation_length
             (Permutation_filter _ _ _ (ObjFacts.values_perm _))).
  change (fun count => Tally.moreThanOne count) with Tally.moreThanOne.
  now rewrite TallyFacts.moreThanOne_counts, E.
Qed.

Lemma readmissions_repeated (patients : list Patient.t) :
  let mrns :=
    filter (fun k => negb (Obj.inherited k)) (map Patient.mrn patients) in
  readmissions patients
  = List.length (filter (fun m => 1 <? Spec.occurrences m mrns)
                   (Spec.distinct mrns)).
Proof.
  intros mrns. rewrite readmissions_counts. fold mrns.
  pose proof (TallyFacts.tallied_groups _ _ (TallyFacts.tallied_own mrns))
    as P.
  rewrite (Permutation_length
             (Permutation_filter _ _ _ (Permutation_map snd P))).
  unfold Spec.groups. rewrite map_map. simpl.
  symmetry.
  apply (length_filter_map (fun m => Spec.occurrences m mrns)
           (fun count => 1 <? count)).
Qed.

Lemma single_repeated (l : list string) (m : string) :
  Spec.occurrences m l = 2 ->
  (forall m', m' <> m -> Spec.occurrences m' l <= 1) ->
  filter (fun k => 1 <? Spec.occurrences k l) (Spec.distinct l) = [m].
Proof.
  intros Hm Hother.
  assert (ND : NoDup (filter (fun k => 1 <? Spec.occurrences k l)
                        (Spec.distinct l)))
    by apply NoDup_filter, NoDup_nodup.
  assert (Hin : forall k,
             In k (filter (fun k => 1 <? Spec.occurrences k l)
                     (Spec.distinct l)) <-> k = m).
  { intros k. rewrite filter_In. unfold Spec.distinct.
    rewrite nodup_In. split.
    - intros [_ Hk]. apply Nat.ltb_lt in Hk.
      destruct (string_dec k m) as [->|N]; [reflexivity|].
      specialize (Hother k N). lia.
    - intros ->. split.
      + apply (count_occ_In string_dec). unfold Spec.occurrences in Hm. lia.
      + apply Nat.ltb_lt. lia. }
  destruct (filter (fun k => 1 <? Spec.occurrences k l) (Spec.distinct l))
    as [|x [|y rest]].
  - exfalso. apply (proj2 (Hin m) eq_refl).
  - f_equal. apply Hin. now left.
  - exfalso. inversion ND as [|? ? Hx _]; subst. apply Hx.
    assert (x = m) by (apply Hin; now left).
    assert (y = m) by (apply Hin; right; now left).
    subst. now left.
Qed.

Lemma occurrences_others (l : list string) (m : string) :
  NoDup (filter (fun k => negb (String.eqb k m)) l) ->
  forall m', m' <> m -> Spec.occurrences m' l <= 1.
Proof.
  intros ND m' N.
  assert (E : Spec.occurrences m' l
              = Spec.occurrences m'
                  (filter (fun k => negb (String.eqb k m)) l)).
  { unfold Spec.occurrences. clear ND.
    induction l as [|x l IH]; simpl; [reflexivity|].
    destruct (String.eqb_spec x m) as [->|Nx]; simpl.
    - destruct (string_dec m m'); [congruence|assumption].
    - destruct (string_dec x m'); now rewrite IH. }
  rewrite E. unfold Spec.occurrences.
  now apply (NoDup_count_occ string_dec).
Qed.

(** When no MRN is the name of a property of [Object.prototype],
    [readmissionRate] is the number of distinct MRN values that occur in
    more than one admission record, divided by the maximum of the number
    of admissions and [1].  With ten admissions in which one MRN occurs
    twice and every other MRN once, it is [1/10]. *)
Lemma readmissionRate_plain (patients : list Patient.t) :
  Spec.plainKeys (map Patient.mrn patients) = true ->
  let mrns := map Patient.mrn patients in
  let repeated :=
    filter (fun m => 1 <? Spec.occurrences m mrns) (Spec.distinct mrns) in
  readmissionRate patients
    = JS.Finite (Spec.ratio (List.length repeated) (List.length patients))
  /\ (List.length patients = 10 ->
      (exists m, Spec.occurrences m mrns = 2
                 /\ forall m', m' <> m -> Spec.occurrences m' mrns <= 1) ->
      readmissionRate patients =js= JS.Finite (1 # 10)).
Proof.
  intros Plain mrns repeated.
  assert (E : readmissionRate patients
              = JS.Finite (Spec.ratio (List.length repeated)
                             (List.length patients))).
  { unfold readmissionRate. rewrite JSFacts.ratio_of_counts.
    rewrite readmissions_repeated. cbv zeta.
    now rewrite (TallyFacts.filter_plain _ Plain). }
  split; [exact E|].
  intros Hlen [m [Hm Hother]]. rewrite E, Hlen.
  unfold repeated. rewrite (single_repeated mrns m Hm Hother).
  reflexivity.
Qed.

(** Ten admissions, one MRN twice. *)
Lemma readmissionRate_plain_scenario :
  readmissionRate
    [ Patient.mk "1" "A" "MRN-1" "Stable" "Sepsis" "2024-03-01";
      Patient.mk "2" "B" "MRN-2" "Stable" "Sepsis" "2024-03-01";
      Patient.mk "3" "C" "MRN-3" "Critical" "Stroke" "2024-03-02";
      Patient.mk "4" "A" "MRN-1" "Stable" "Sepsis" "2024-03-09";
      Patient.mk "5" "D" "MRN-4" "Stable" "Asthma" "2024-03-03";
      Patient.mk "6" "E" "MRN-5" "Stable" "Asthma" "2024-03-03";
      Patient.mk "7" "F" "MRN-6" "Discharged" "Stroke" "2024-03-04";
      Patient.mk "8" "G" "MRN-7" "Stable" "Sepsis" "2024-03-05";
      Patient.mk "9" "H" "MRN-8" "Critical" "Trauma" "2024-03-06";
      Patient.mk "10" "I" "MRN-9" "Stable" "Trauma" "2024-03-07" ]
  =js= JS.Finite (1 # 10).
Proof.
  apply readmissionRate_plain; [reflexivity|reflexivity|].
  exists "MRN-1". split; [reflexivity|].
  apply occurrences_others. simpl.
  repeat constructor; simpl; intuition discriminate.
Defined.

(** C4, at the failing input.  Two admissions under the MRN
    [constructor].  One distinct MRN occurs in more than one admission,
    so that the rate of the claim is [1/2].  The reducer reads the
    inherited member under that name and keeps a string, which is never
    more than one: no readmission is counted and the rate is [0]. *)
Theorem C4_inherited_mrn_not_counted
    (id1 name1 status1 diagnosis1 date1 : string)
    (id2 name2 status2 diagnosis2 date2 : string) :
  let patients :=
    [ Patient.mk id1 name1 "constructor" status1 diagnosis1 date1;
      Patient.mk id2 name2 "constructor" status2 diagnosis2 date2 ] in
  let mrns := map Patient.mrn patients in
  filter (fun m => 1 <? Spec.occurrences m mrns) (Spec.distinct mrns)
  = ["constructor"]
  /\ patientAdmissions patients
     = [("constructor", Tally.Text "constructor" 2)]
  /\ Tally.toValue (Tally.Text "constructor" 2)
     = JS.Str "function Object() { [native code] }11"
  /\ readmissions patients = 0
  /\ readmissionRate patients = JS.Finite (Spec.ratio 0 2)
  /\ ~ readmissionRate patients =js= JS.Finite (Spec.ratio 1 2).
Proof.
  repeat split. intros H. vm_compute in H. discriminate.
Qed.

(** ** Sorting *)

Module SortFacts.

Section Facts.
Context {A : Type}.
Variable compareFn : A -> A -> Z.
Variable before : A -> A -> Prop.
Hypothesis before_trans :
  forall x y z, before x y -> before y z -> before x z.
Hypothesis compare_le :
  forall x y, (compareFn x y <= 0)%Z -> before x y.
Hypothesis compare_gt :
  forall x y, (0 < compareFn x y)%Z -> before y x.

Lemma insert_perm (x : A) (l : list A) :
  Permutation (Array.insert compareFn x l) (x :: l).
Proof.
  induction l as [|y l IH]; simpl; [reflexivity|].
  destruct (compareFn x y <=? 0)%Z; [reflexivity|].
  rewrite IH. apply perm_swap.
Qed.

Lemma sort_perm (l : list A) : Permutation (Array.sort compareFn l) l.
Proof.
  induction l as [|x l IH]; simpl; [reflexivity|].
  rewrite insert_perm. now constructor.
Qed.

Lemma insert_sorted (x : A) (l : list A) :
  StronglySorted before l ->
  StronglySorted before (Array.insert compareFn x l).
Proof.
  induction 1 as [|y l S IH F]; simpl.
  - repeat constructor.
  - destruct (Z.leb_spec (compareFn x y) 0) as [L|G].
    + constructor; [now constructor|].
      constructor; [now apply compare_le|].
      eapply Forall_impl; [|exact F].
      intros z Hz. eapply before_trans; [|exact Hz]. now apply compare_le.
    + constructor; [assumption|].
      apply (Permutation_Forall (Permutation_sym (insert_perm x l))).
      constructor; [now apply compare_gt|assumption].
Qed.

Lemma sort_sorted (l : list A) :
  StronglySorted before (Array.sort compareFn l).
Proof.
  induction l as [|x l IH]; simpl; [constructor|].
  now apply insert_sorted.
Qed.
End Facts.

Lemma firstn_sorted {A : Type} (R : A -> A -> Prop) (n : nat) (l : list A) :
  StronglySorted R l -> StronglySorted R (firstn n l).
Proof.
  intros S. revert n.
  induction S as [|x l S IH F]; intros [|n]; simpl; try constructor.
  - apply IH.
  - rewrite Forall_forall in *. intros y Hy.
    apply F. rewrite <- (firstn_skipn n l). apply in_or_app. now left.
Qed.

Lemma map_sorted {A B : Type} (f : A -> B) (R : B -> B -> Prop)
    (l : list A) :
  StronglySorted (fun x y => R (f x) (f y)) l ->
  StronglySorted R (map f l).
Proof.
  induction 1 as [|x l S IH F]; simpl; constructor; [assumption|].
  rewrite Forall_forall in *. intros y Hy.
  apply in_map_iff in Hy. destruct Hy as [z [<- Hz]]. now apply F.
Qed.

End SortFacts.

(** ** Common diagnoses *)

(** Over diagnoses none of which is an inherited name, the ranking is
    the one of the counts. *)
Lemma sortedDiagnoses_plain (patients : list Patient.t) :
  Spec.plainKeys (map Patient.diagnosis patients) = true ->
  sortedDiagnoses patients
  = map (fun g => NameCount.mk (fst g) (JS.of_nat (snd g)))
      (firstn 5
         (Array.sort Spec.byCountOwn
            (Obj.entries
               (Spec.talliesOwn (map Patient.diagnosis patients))))).
Proof.
  intros H. unfold sortedDiagnoses, diagnosesCount, Array.slice0.
  rewrite (TallyFacts.tallies_plain Patient.diagnosis patients H).
  unfold Spec.counted.
  rewrite TallyFacts.entries_map by reflexivity.
  rewrite (TallyFacts.sort_map _ Spec.byCountOwn byCountDesc)
    by reflexivity.
  rewrite firstn_map, map_map. apply map_ext. now intros [k v].
Qed.

Lemma ranked_sorted (l : list (string * nat)) :
  StronglySorted (fun x y => snd y <= snd x)
    (Array.sort Spec.byCountOwn l).
Proof.
  apply SortFacts.sort_sorted.
  - intros x y z Hxy Hyz. lia.
  - unfold Spec.byCountOwn. intros x y Hc. lia.
  - unfold Spec.byCountOwn. intros x y Hc. lia.
Qed.

Lemma ranked_groups (keys : list string) :
  Permutation
    (Array.sort Spec.byCountOwn (Obj.entries (Spec.talliesOwn keys)))
    (Spec.groups keys).
Proof.
  rewrite SortFacts.sort_perm, ObjFacts.entries_perm.
  apply TallyFacts.tallied_groups, TallyFacts.tallied_own.
Qed.

(** When no diagnosis is the name of a property of
    [Object.prototype], [commonDiagnoses] is made of the first five of
    the groups of the admissions by exact diagnosis string, each with
    its number of admissions, ranked by descending count.  Its length is
    the minimum of [5] and the number of distinct diagnosis strings, and
    its counts are in non-increasing order. *)
Lemma commonDiagnoses_plain (patients : list Patient.t) :
  Spec.plainKeys (map Patient.diagnosis patients) = true ->
  let diagnoses := map Patient.diagnosis patients in
  exists ranked : list (string * nat),
    Permutation ranked (Spec.groups diagnoses)
    /\ StronglySorted (fun x y => snd y <= snd x) ranked
    /\ sortedDiagnoses patients
       = map (fun g => NameCount.mk (fst g) (JS.of_nat (snd g)))
           (firstn 5 ranked)
    /\ List.length (sortedDiagnoses patients)
       = Nat.min 5 (List.length (Spec.distinct diagnoses))
    /\ exists counts,
         map NameCount.count (sortedDiagnoses patients)
         = map (fun n => JS.Num (JS.of_nat n)) counts
         /\ Spec.nonIncreasing counts.
Proof.
  intros Plain diagnoses.
  set (ranked := Array.sort Spec.byCountOwn
                   (Obj.entries (Spec.talliesOwn diagnoses))).
  pose proof (ranked_groups diagnoses) as P. fold ranked in P.
  pose proof (ranked_sorted (Obj.entries (Spec.talliesOwn diagnoses))) as S.
  fold ranked in S.
  pose proof (sortedDiagnoses_plain patients Plain) as E.
  fold diagnoses in E. fold ranked in E.
  exists ranked.
  split; [exact P|]. split; [exact S|]. split; [exact E|]. split.
  - rewrite E, length_map, length_firstn.
    rewrite (Permutation_length P). unfold Spec.groups.
    now rewrite length_map.
  - exists (map snd (firstn 5 ranked)). split.
    + rewrite E, !map_map. reflexivity.
    + apply SortFacts.map_sorted, SortFacts.firstn_sorted. exact S.
Qed.

(** The sample ward: six diagnoses, five listed. *)
Lemma commonDiagnoses_plain_ward :
  List.length (sortedDiagnoses Derived.ward) = 5.
Proof.
  destruct (commonDiagnoses_plain Derived.ward eq_refl)
    as [ranked [_ [_ [_ [L _]]]]].
  exact L.
Defined.

(** C6, at the failing inputs.  One admission with the diagnosis
    [__proto__]: there is one distinct diagnosis, the reducer creates no
    property, and [commonDiagnoses] is empty, of length 0 and not
    [min(5, 1)].  One admission with the diagnosis [constructor]: the
    one entry listed has a string for its count. *)
Theorem C6_inherited_diagnosis_not_counted
    (id1 name1 mrn1 status1 date1 : string) :
  let unlisted := [ Patient.mk id1 name1 mrn1 status1 "__proto__" date1 ] in
  let uncounted :=
    [ Patient.mk id1 name1 mrn1 status1 "constructor" date1 ] in
  Spec.distinct (map Patient.diagnosis unlisted) = ["__proto__"]
  /\ diagnosesCount unlisted = Obj.empty
  /\ sortedDiagnoses unlisted = []
  /\ List.length (sortedDiagnoses unlisted)
     <> Nat.min 5
          (List.length (Spec.distinct (map Patient.diagnosis unlisted)))
  /\ sortedDiagnoses uncounted
     = [ NameCount.mk "constructor"
           (JS.Str "function Object() { [native code] }1") ].
Proof. repeat split. discriminate. Qed.

(** ** Average stay duration *)

Lemma find_first {A : Type} (p : A -> bool) (l : list A) (a : A) :
  List.find p l = Some a ->
  exists before after,
    l = (before ++ a :: after)%list /\ p a = true
    /\ forall x, In x before -> p x = false.
Proof.
  induction l as [|x l IH]; simpl; [discriminate|].
  destruct (p x) eqn:Px.
  - intros [= ->]. exists [], l. repeat split; [assumption|]. intros ? [].
  - intros F. destruct (IH F) as [before [after [-> [Pa Hb]]]].
    exists (x :: before), after. repeat split; [assumption|].
    intros y [<-|Hy]; auto.
Qed.

Lemma sum_finite_exact (qs : list Q) :
  forall a : Q,
    fold_left JS.add (map JS.Finite qs) (JS.Finite a)
    = JS.Finite (fold_left Qplus qs a).
Proof. induction qs as [|q qs IH]; simpl; intros a; [reflexivity|apply IH]. Qed.

Lemma fold_Qplus_total (qs : list Q) :
  forall a : Q, fold_left Qplus qs a == a + Spec.total qs.
Proof.
  induction qs as [|q qs IH]; simpl; intros a; [ring|].
  rewrite IH. ring.
Qed.

Lemma total_ext {A : Type} (f g : A -> Q) (l : list A) :
  (forall a, f a == g a) -> Spec.total (map f l) == Spec.total (map g l).
Proof.
  intros H. induction l as [|a l IH]; simpl; [reflexivity|].
  now rewrite IH, H.
Qed.

Lemma mean_nonempty (l : list Q) :
  List.length l <> 0 ->
  Spec.mean l = (Spec.total l / inject_Z (Z.of_nat (List.length l)))%Q.
Proof. destruct l; [contradiction|reflexivity]. Qed.

Section AverageStay.
Variable getTime : string -> Z.

Lemma stayDurations_computed (patients : list Patient.t)
    (discharges : list Discharge.t) :
  stayDurations getTime patients discharges
  = map JS.Finite (map (Spec.computedStay getTime patients) discharges).
Proof.
  unfold stayDurations. rewrite map_map. apply map_ext. intros d.
  unfold Spec.computedStay.
  destruct (Array.find _ patients); reflexivity.
Qed.

Lemma computed_specified (patients : list Patient.t) (d : Discharge.t) :
  Spec.computedStay getTime patients d
  == Spec.specifiedStay getTime patients d.
Proof.
  unfold Spec.computedStay, Spec.specifiedStay.
  destruct (Array.find _ patients); [|reflexivity].
  unfold Spec.days, Z.sub. rewrite inject_Z_plus, inject_Z_opp.
  reflexivity.
Qed.

Lemma specified_contributes (patients : list Patient.t) (d : Discharge.t) :
  Spec.contributes getTime patients d
    (Spec.specifiedStay getTime patients d).
Proof.
  unfold Spec.specifiedStay, Array.find.
  destruct (List.find _ patients) as [a|] eqn:F.
  - destruct (find_first _ _ _ F) as [before [after [E [Pa Hb]]]].
    apply (Spec.contributes_matched getTime patients d before after a E).
    + now apply String.eqb_eq.
    + intros p Hp. apply String.eqb_neq. now apply Hb.
  - apply Spec.contributes_unmatched. intros p Hp.
    apply String.eqb_neq. exact (find_none _ _ F p Hp).
Qed.

(** The value computed for the average. *)
Lemma averageStayDuration_value (patients : list Patient.t)
    (discharges : list Discharge.t) :
  averageStayDuration getTime patients discharges
  = JS.Finite
      (match discharges with
       | [] => inject_Z 0
       | _ :: _ =>
           fold_left Qplus
             (map (Spec.computedStay getTime patients) discharges)
             (inject_Z 0)
           / inject_Z (Z.of_nat (List.length discharges))
       end).
Proof.
  unfold averageStayDuration. cbv zeta.
  rewrite stayDurations_computed, !length_map, JSFacts.truthy_of_nat.
  destruct discharges as [|d ds]; [reflexivity|].
  remember (d :: ds) as l eqn:El.
  assert (Hn : List.length l <> 0) by (subst l; discriminate).
  destruct (Nat.eqb_spec (List.length l) 0) as [|_]; [contradiction|].
  cbn [negb]. unfold Array.sum, JS.of_nat at 1, JS.of_Z.
  now rewrite sum_finite_exact, JSFacts.div_finite_of_nat by assumption.
Qed.

(** When admission ids are unique, the matching admission is any one
    whose [id] is the discharge's [patient_id]. *)
Lemma contributes_any_match (patients : list Patient.t) (d : Discharge.t)
    (a : Patient.t) :
  NoDup (map Patient.id patients) ->
  In a patients ->
  Patient.id a = Discharge.patient_id d ->
  Spec.contributes getTime patients d
    (Spec.days (getTime (Discharge.discharge_date d)
                - getTime (Patient.admission_date a))).
Proof.
  intros ND Ha Hid.
  destruct (in_split _ _ Ha) as [before [after ->]].
  apply (Spec.contributes_matched getTime _ d before after a eq_refl Hid).
  intros p Hp Hpid.
  rewrite map_app in ND. simpl in ND.
  apply NoDup_remove_2 in ND. apply ND.
  apply in_or_app. left. rewrite Hid, <- Hpid. now apply in_map.
Qed.

(** C1. [averageStayDuration] is the arithmetic mean, over all discharge
    records, of the duration each contributes: the days from the
    admission timestamp of the admission whose [id] is the discharge's
    [patient_id] to the discharge timestamp, or [0] when no fetched
    admission matches; an unmatched discharge stays in the denominator.
    With no discharge the average is [0]. *)
Theorem C1_averageStayDuration (patients : list Patient.t)
    (discharges : list Discharge.t) :
  exists durations : list Q,
    Forall2 (Spec.contributes getTime patients) discharges durations
    /\ averageStayDuration getTime patients discharges
       =js= JS.Finite (Spec.mean durations).
Proof.
  exists (map (Spec.specifiedStay getTime patients) discharges). split.
  - induction discharges as [|d ds IH]; simpl; constructor;
      [apply specified_contributes|exact IH].
  - rewrite averageStayDuration_value.
    destruct discharges as [|d ds]; [reflexivity|].
    remember (d :: ds) as l eqn:El.
    rewrite mean_nonempty by (rewrite length_map; subst l; discriminate).
    cbn [JS.eqv]. rewrite length_map, fold_Qplus_total.
    rewrite (total_ext (Spec.computedStay getTime patients)
               (Spec.specifiedStay getTime patients)
               l (computed_specified patients)).
    change (inject_Z 0) with 0%Q. now rewrite Qplus_0_l.
Qed.

End AverageStay.

(** A discharge whose patient is not in the fetched admissions adds a
    zero to the mean: one matched stay of two days and one unmatched
    discharge average to one day. *)
Example averageStayDuration_unmatched :
  averageStayDuration
    (fun s => if String.eqb s "2024-03-01" then 0 else 172800000)%Z
    [ Patient.mk "p1" "A" "MRN-1" "Discharged" "Sepsis" "2024-03-01" ]
    [ Discharge.mk "p1" "2024-03-03" "" "" "" "" "Improved" "u" "";
      Discharge.mk "p9" "2024-03-03" "" "" "" "" "Improved" "u" "" ]
  =js= JS.Finite 1.
Proof. reflexivity. Qed.

(** ** Daily activities *)

Section DailyActivities.
Variable getTime : string -> Z.
Variable format : Z -> string -> string.



End DailyActivities.

(** ** Fetch failures *)

Section FetchFailure.
Variable getTime : string -> Z.
Variable format : Z -> string -> string.
Variable validDate : string -> bool.

Lemma firstFailure_some (r : Responses) :
  Spec.anyFetchFailed r -> exists cause, Spec.firstFailure r = Some cause.
Proof.
  intros [e He]. unfold Spec.firstFailure.
  destruct (List.find _ (Spec.errors r)) as [[c|]|] eqn:F.
  - now exists c.
  - apply find_some in F. destruct F as [_ F]. discriminate.
  - pose proof (find_none _ _ F _ He) as N. discriminate.
Qed.

Lemma firstFailure_In (r : Responses) (cause : Thrown) :
  Spec.firstFailure r = Some cause -> In (Some cause) (Spec.errors r).
Proof.
  unfold Spec.firstFailure.
  destruct (List.find _ (Spec.errors r)) as [e|] eqn:F; [|discriminate].
  intros ->. now apply find_some in F.
Qed.

(** What a run does when the check of the responses throws [cause]. *)
Lemma fetch_throws (today : Z) (r : Responses) (s : Hook.t)
    (cause : Thrown) :
  Spec.firstFailure r = Some cause ->
  fetchReportData getTime format validDate today r s
  = (Normal tt,
     {| Hook.metrics := Hook.metrics s;
        Hook.activities := Hook.activities s;
        Hook.loading := false;
        Hook.error :=
          Some (if instanceofError cause then cause
                else ErrorObject "Failed to fetch report data");
        Hook.effects :=
          (Hook.effects s
           ++ [ ConsoleError "Error fetching report data:" cause;
                ToastError "Failed to load report data" ])%list |}).
Proof.
  destruct r as [[pd pe] [md me] [ld le] [dd de] [vd ve]].
  unfold Spec.firstFailure, Spec.errors. simpl.
  unfold fetchReportData, tryCatchFinally, bind, throwIfError. simpl.
  destruct pe as [e|]; simpl; [intros [= ->]|];
  [|destruct me as [e|]; simpl; [intros [= ->]|];
    [|destruct le as [e|]; simpl; [intros [= ->]|];
      [|destruct de as [e|]; simpl; [intros [= ->]|];
        [|destruct ve as [e|]; simpl; [intros [= ->]|discriminate]]]]];
  unfold emit, setError, setLoading; simpl;
    now rewrite <- app_assoc.
Qed.

(** C5, as the code has it.  If one of the five fetches fails, the run
    ends without an exception; metrics and activities are the previous
    ones, loading is cleared, and one failure is surfaced: the first
    error in the order of the checks when it is an instance of [Error],
    and otherwise a fresh [Error] with the fixed message, the cause
    being written to the console only. *)
Theorem C5_fetch_failure (today : Z) (r : Responses) (s : Hook.t) :
  Spec.anyFetchFailed r ->
  exists cause,
    Spec.firstFailure r = Some cause
    /\ In (Some cause) (Spec.errors r)
    /\ fst (fetchReportData getTime format validDate today r s) = Normal tt
    /\ let s' := runFetch getTime format validDate today r s in
       Hook.metrics s' = Hook.metrics s
       /\ Hook.activities s' = Hook.activities s
       /\ Hook.loading s' = false
       /\ Hook.error s'
          = Some (if instanceofError cause then cause
                  else ErrorObject "Failed to fetch report data")
       /\ (instanceofError cause = true -> Spec.carries (Hook.error s') cause)
       /\ Hook.effects s'
          = (Hook.effects s
             ++ [ ConsoleError "Error fetching report data:" cause;
                  ToastError "Failed to load report data" ])%list.
Proof.
  intros Hfail.
  destruct (firstFailure_some r Hfail) as [cause Hc].
  exists cause. split; [exact Hc|].
  split; [now apply firstFailure_In|].
  unfold runFetch. rewrite (fetch_throws today r s cause Hc). simpl.
  repeat split.
  intros ->. exists cause. split; [reflexivity|now left].
Qed.

End FetchFailure.

(** A run of C5 in which the patients fetch fails with a plain object:
    the state keeps the initial metrics and activities, loading is
    cleared and the generic error is surfaced. *)
Lemma C5_fetch_failure_witness :
  let s' :=
    runFetch Sample.getTime Sample.format Sample.validDate 0 Sample.patientsFail Hook.initial in
  Hook.metrics s' = Hook.metrics Hook.initial
  /\ Hook.activities s' = Hook.activities Hook.initial
  /\ Hook.loading s' = false
  /\ Hook.error s' = Some (ErrorObject "Failed to fetch report data").
Proof.
  destruct (C5_fetch_failure Sample.getTime Sample.format Sample.validDate 0
              Sample.patientsFail Hook.initial)
    as [cause [F [_ [_ [M [A [L [E _]]]]]]]].
  - exists Sample.refused. simpl. now left.
  - injection F as <-. repeat split; assumption.
Defined.

(** The sentence on fetch failures does not hold as worded: when the
    failing response reports a plain object, the surfaced failure is a
    fresh [Error] that is neither the cause nor has its message. *)
Lemma C5_cause_not_carried : ~ Spec.fetchFailureAsStated.
Proof.
  intros H.
  destruct (H Sample.getTime Sample.format Sample.validDate 0%Z
              Sample.patientsFail
              Hook.initial)
    as [_ [_ [_ [cause [I C]]]]].
  - exists Sample.refused. simpl. now left.
  - simpl in I.
    destruct I as [I|[I|[I|[I|[I|[]]]]]]; try discriminate.
    injection I as <-. destruct C as [e [E [C|C]]];
      injection E as <-; discriminate C.
Qed.

(** ** The deceased sentinel and the discharge forms *)

(** The form with four conditions writes the value the report counts. *)
Lemma four_conditions_counted (patient : Patient.t)
    (formData : DischargeFormFields.t DischargeFormFour.Condition)
    (user_id now : string) :
  deceasedDischarges
    [ DischargeFormFour.dischargeRow patient
        (DischargeFormFields.selectCondition formData
           DischargeFormFour.terminal)
        user_id now ]
  = 1.
Proof. reflexivity. Qed.

(** C3, at the failing input.  A discharge written by the form with two
    conditions, with the condition that records a death selected, has
    the condition [died]; the report does not count it: the mortality
    numerator is [0] and so is the rate. *)
Theorem C3_died_not_counted (patient : Patient.t)
    (formData : DischargeFormFields.t DischargeFormTwo.Condition)
    (user_id now : string) :
  let row :=
    DischargeFormTwo.dischargeRow patient
      (DischargeFormFields.selectCondition formData DischargeFormTwo.terminal)
      user_id now in
  Discharge.discharge_condition row = "died"
  /\ deceasedDischarges [row] = 0
  /\ mortalityRate [row] = JS.Finite (Spec.ratio 0 1).
Proof. repeat split. Qed.

(** ** Period comparison *)

Lemma difference_sub (x y : JS.number) :
  JS.isFinite x = true -> JS.isFinite y = true ->
  Spec.difference x y (JS.sub x y).
Proof.
  destruct x, y; try discriminate. intros _ _. simpl. reflexivity.
Qed.

(** C8.  For two fully populated metrics, each of the six fields of
    [changes] is the exact difference of the current and the previous
    value, whatever its sign; [changes] has these six fields and no
    other, so none for medicationsGiven or labTests. *)
Theorem C8_changes (currentPeriod previousPeriod : Metrics.t) :
  Spec.populated currentPeriod = true ->
  Spec.populated previousPeriod = true ->
  let comparison := comparePeriods currentPeriod previousPeriod in
  let changes := ComparisonData.changes comparison in
  ComparisonData.previousPeriod comparison = previousPeriod
  /\ Spec.difference (Metrics.totalPatients currentPeriod)
       (Metrics.totalPatients previousPeriod) (Changes.totalPatients changes)
  /\ Spec.difference (Metrics.criticalCases currentPeriod)
       (Metrics.criticalCases previousPeriod) (Changes.criticalCases changes)
  /\ Spec.difference (Metrics.averageStayDuration currentPeriod)
       (Metrics.averageStayDuration previousPeriod)
       (Changes.averageStayDuration changes)
  /\ Spec.difference (Metrics.bedOccupancyRate currentPeriod)
       (Metrics.bedOccupancyRate previousPeriod)
       (Changes.bedOccupancyRate changes)
  /\ Spec.difference (Metrics.readmissionRate currentPeriod)
       (Metrics.readmissionRate previousPeriod)
       (Changes.readmissionRate changes)
  /\ Spec.difference (Metrics.mortalityRate currentPeriod)
       (Metrics.mortalityRate previousPeriod) (Changes.mortalityRate changes)
  /\ map fst (Changes.entries changes)
     = [ "totalPatients"; "criticalCases"; "averageStayDuration";
         "bedOccupancyRate"; "readmissionRate"; "mortalityRate" ].
Proof.
  unfold Spec.populated. rewrite !andb_true_iff.
  intros [[[[[[[C1 C2] C3] C4] C5] C6] C7] C8]
         [[[[[[[P1 P2] P3] P4] P5] P6] P7] P8].
  cbn [comparePeriods ComparisonData.changes ComparisonData.previousPeriod
       Changes.totalPatients Changes.criticalCases
       Changes.averageStayDuration Changes.bedOccupancyRate
       Changes.readmissionRate Changes.mortalityRate Changes.entries
       map fst].
  repeat split; now apply difference_sub.
Qed.

(** C8 on sample metrics: the patients delta is negative. *)
Lemma C8_changes_witness :
  Spec.difference (JS.of_nat 10) (JS.of_nat 12)
    (Changes.totalPatients
       (ComparisonData.changes (comparePeriods Sample.current Sample.previous)))
  /\ Changes.totalPatients
       (ComparisonData.changes (comparePeriods Sample.current Sample.previous))
     =js= JS.Finite (-2).
Proof.
  split.
  - apply (C8_changes Sample.current Sample.previous); reflexivity.
  - reflexivity.
Defined.

(** ** Strings and decimal numerals *)

Module StringFacts.

Lemma append_assoc (a b c : string) : (a ++ b) ++ c = a ++ (b ++ c).
Proof. induction a as [|x a IH]; simpl; [reflexivity|now rewrite IH]. Qed.

Lemma length_append (a b : string) :
  String.length (a ++ b) = String.length a + String.length b.
Proof. induction a as [|x a IH]; simpl; [reflexivity|now rewrite IH]. Qed.

Lemma substring_all (a : string) : substring 0 (String.length a) a = a.
Proof. induction a as [|x a IH]; simpl; [reflexivity|now rewrite IH]. Qed.

Lemma substring_prefix (a b : string) :
  substring 0 (String.length a) (a ++ b) = a.
Proof.
  induction a as [|x a IH]; simpl.
  - now destruct b.
  - now rewrite IH.
Qed.

Lemma substring_suffix (a b : string) :
  substring (String.length a) (String.length b) (a ++ b) = b.
Proof.
  induction a as [|x a IH]; simpl; [apply substring_all|exact IH].
Qed.

End StringFacts.

Module NumeralFacts.

Import Numeral.

Lemma N_of_digit_char (d : N) :
  (d < 10)%N -> N_of_ascii (digit_char d) = (48 + d)%N.
Proof. intros H. unfold digit_char. apply N_ascii_embedding. lia. Qed.

Lemma digit_of_char (d : N) :
  (d < 10)%N -> Obj.digit_of (digit_char d) = Some d.
Proof.
  intros H. unfold Obj.digit_of. cbv zeta.
  rewrite N_of_digit_char by assumption.
  replace (48 <=? 48 + d)%N with true by (symmetry; apply N.leb_le; lia).
  replace (48 + d <=? 57)%N with true by (symmetry; apply N.leb_le; lia).
  cbn [andb]. f_equal. lia.
Qed.

Lemma digit_char_neq (d : N) (c : ascii) :
  (d < 10)%N -> (N_of_ascii c < 48)%N -> Ascii.eqb (digit_char d) c = false.
Proof.
  intros H Hc. apply Ascii.eqb_neq. intros E.
  apply (f_equal N_of_ascii) in E. rewrite N_of_digit_char in E by assumption.
  lia.
Qed.

Lemma digit_char_zero (d : N) :
  (d < 10)%N -> Ascii.eqb (digit_char d) "0" = (d =? 0)%N.
Proof.
  intros H. destruct (N.eqb_spec d 0) as [->|N0]; [reflexivity|].
  apply Ascii.eqb_neq. intros E.
  apply (f_equal N_of_ascii) in E. rewrite N_of_digit_char in E by assumption.
  change (N_of_ascii "0") with 48%N in E. lia.
Qed.

Lemma digits_fuel_acc (fuel : nat) :
  forall n acc, digits_fuel fuel n acc = digits_fuel fuel n "" ++ acc.
Proof.
  induction fuel as [|fuel IH]; intros n acc; simpl; [reflexivity|].
  destruct (n / 10 =? 0)%N; [reflexivity|].
  rewrite IH, (IH _ (String _ "")), StringFacts.append_assoc. reflexivity.
Qed.

Lemma digits_fuel_step (fuel : nat) (n : N) :
  digits_fuel (S fuel) n ""
  = if (n <? 10)%N then String (digit_char n) ""
    else digits_fuel fuel (n / 10) "" ++ String (digit_char (n mod 10)) "".
Proof.
  simpl. destruct (N.ltb_spec n 10) as [L|G].
  - rewrite N.div_small, N.mod_small by assumption. reflexivity.
  - destruct (N.eqb_spec (n / 10) 0) as [E|_].
    + exfalso. apply N.div_small_iff in E; lia.
    + apply digits_fuel_acc.
Qed.

Lemma div10_bound (n p : N) : (n < 2 * p)%N -> (n / 10 < p)%N.
Proof. intros H. apply N.Div0.div_lt_upper_bound; lia. Qed.

Lemma digits_fuel_indep (f1 : nat) :
  forall f2 n,
    (n < 2 ^ N.of_nat f1)%N -> (n < 2 ^ N.of_nat f2)%N ->
    0 < f1 -> 0 < f2 ->
    digits_fuel f1 n "" = digits_fuel f2 n "".
Proof.
  induction f1 as [|f1 IH]; intros f2 n H1 H2 P1 P2; [lia|].
  destruct f2 as [|f2]; [lia|].
  rewrite !digits_fuel_step.
  destruct (N.ltb_spec n 10) as [L|G]; [reflexivity|].
  f_equal.
  rewrite Nat2N.inj_succ, N.pow_succ_r' in H1, H2.
  assert (B1 := div10_bound _ _ H1). assert (B2 := div10_bound _ _ H2).
  apply IH; try assumption.
  - destruct f1; [simpl in H1; lia|lia].
  - destruct f2; [simpl in H2; lia|lia].
Qed.

Lemma log2_fuel (n : N) : (n < 2 ^ N.of_nat (S (N.to_nat (N.log2 n))))%N.
Proof.
  rewrite Nat2N.inj_succ, N2Nat.id.
  destruct (N.eq_dec n 0) as [->|N0]; [reflexivity|].
  apply N.log2_spec. lia.
Qed.

(** The digits of [n] are those of [n / 10] followed by the last one. *)
Lemma decimal_unfold (n : N) :
  decimal n
  = if (n <? 10)%N then String (digit_char n) ""
    else decimal (n / 10) ++ String (digit_char (n mod 10)) "".
Proof.
  unfold decimal at 1. rewrite digits_fuel_step.
  destruct (N.ltb_spec n 10) as [L|G]; [reflexivity|].
  f_equal. unfold decimal.
  assert (B := log2_fuel n).
  rewrite Nat2N.inj_succ, N.pow_succ_r' in B.
  apply digits_fuel_indep.
  - now apply div10_bound.
  - apply log2_fuel.
  - assert (3 <= N.log2 n)%N by (apply (N.log2_le_mono 10 n); lia). lia.
  - lia.
Qed.

Lemma read_digits_app (a b : string) :
  forall acc,
    Obj.read_digits (a ++ b) acc
    = match Obj.read_digits a acc with
      | Some x => Obj.read_digits b x
      | None => None
      end.
Proof.
  induction a as [|c a IH]; intros acc; simpl; [reflexivity|].
  destruct (Obj.digit_of c); [apply IH|reflexivity].
Qed.

Lemma read_decimal (n : N) : Obj.read_digits (decimal n) 0 = Some n.
Proof.
  induction n as [n IH] using (well_founded_induction N.lt_wf_0).
  rewrite decimal_unfold. destruct (N.ltb_spec n 10) as [L|G].
  - cbn [Obj.read_digits]. rewrite digit_of_char by assumption.
    f_equal; lia.
  - rewrite read_digits_app, IH by (apply N.div_lt; lia).
    cbn [Obj.read_digits]. rewrite digit_of_char by (apply N.mod_lt; lia).
    f_equal. rewrite (N.div_mod n 10) at 3 by lia. lia.
Qed.

Lemma allDigits_app (a b : string) :
  Spec.allDigits a -> Spec.allDigits b -> Spec.allDigits (a ++ b).
Proof.
  induction a as [|c a IH]; simpl; [auto|]. intros [Hc Ha] Hb. auto.
Qed.

Lemma allDigits_decimal (n : N) : Spec.allDigits (decimal n).
Proof.
  induction n as [n IH] using (well_founded_induction N.lt_wf_0).
  rewrite decimal_unfold. destruct (N.ltb_spec n 10) as [L|G].
  - simpl. split; [|exact I]. now exists n.
  - apply allDigits_app; [apply IH, N.div_lt; lia|].
    simpl. split; [|exact I]. exists (n mod 10)%N.
    split; [apply N.mod_lt; lia|reflexivity].
Qed.

Lemma decimal_nonempty (n : N) : 1 <= String.length (decimal n).
Proof.
  rewrite decimal_unfold. destruct (n <? 10)%N; simpl; [lia|].
  rewrite StringFacts.length_append. simpl. lia.
Qed.

(** A decimal numeral starts with a digit, and with a zero only when it
    is the numeral of zero. *)
Lemma decimal_head (n : N) :
  exists d rest,
    decimal n = String (digit_char d) rest /\ (d < 10)%N
    /\ (d = 0%N -> n = 0%N /\ rest = "").
Proof.
  induction n as [n IH] using (well_founded_induction N.lt_wf_0).
  rewrite decimal_unfold. destruct (N.ltb_spec n 10) as [L|G].
  - exists n, "". split; [reflexivity|]. split; [assumption|]. now intros ->.
  - destruct (IH (n / 10)%N) as [d [rest [E [Hd Hz]]]];
      [apply N.div_lt; lia|].
    rewrite E. cbn [append].
    exists d, (rest ++ String (digit_char (n mod 10)) "").
    split; [reflexivity|]. split; [assumption|].
    intros Z. destruct (Hz Z) as [Z' _]. exfalso.
    assert (1 <= n / 10)%N by (apply N.div_le_lower_bound; lia). lia.
Qed.

(** A decimal numeral has no leading zero, so it reads back as a
    count. *)
Lemma readCount_decimal (n : N) : Spec.readCount (decimal n) = Some n.
Proof.
  unfold Spec.readCount. pose proof (read_decimal n) as R.
  destruct (decimal_head n) as [d [rest [E [Hd Hz]]]].
  rewrite E in *. rewrite digit_char_zero by assumption.
  destruct (N.eqb_spec d 0) as [Z|N0]; [|exact R].
  destruct (Hz Z) as [_ ->]. exact R.
Qed.

End NumeralFacts.

(** ** The Key Metrics table *)

Section MetricsTable.
Variable toStringOther : Q -> string.
Variable format : Z -> string -> string.
Variable tableEnd :
  Pdf.Doc -> JS.number -> list (list string) -> list (list string)
  -> JS.number.

Import Numeral.
Local Open Scope Q_scope.

Lemma isNeg_lt (q : Q) : JS.isNeg q = true <-> q < 0.
Proof.
  unfold JS.isNeg. rewrite Qlt_alt.
  destruct (q ?= 0); split; congruence.
Qed.

Lemma below_tenTo21 (q : Q) :
  Qabs q < inject_Z (10 ^ 21) -> Qle_bool tenTo21 (Qabs q) = false.
Proof.
  intros H. destruct (Qle_bool tenTo21 (Qabs q)) eqn:E; [|reflexivity].
  apply Qle_bool_imp_le in E. unfold tenTo21 in E.
  exfalso. apply (Qlt_not_le _ _ H E).
Qed.

(** A count prints as its decimal numeral. *)
Lemma toString_count (x : JS.number) (n : nat) :
  Spec.isCount x n ->
  Number_toString toStringOther x = decimal (N.of_nat n).
Proof.
  intros [E B]. destruct x as [q| |]; try contradiction.
  simpl in E. unfold Number_toString.
  assert (F : Qfloor q = Z.of_nat n) by (rewrite E; apply Qfloor_Z).
  assert (I : isInteger q = true).
  { unfold isInteger. apply Qeq_bool_iff. now rewrite F. }
  assert (A : Qabs q == inject_Z (Z.of_nat n)).
  { rewrite E. apply Qabs_pos. unfold Qle. simpl. lia. }
  assert (L : Qle_bool twoTo53 (Qabs q) = false).
  { destruct (Qle_bool twoTo53 (Qabs q)) eqn:T; [|reflexivity].
    apply Qle_bool_imp_le in T. unfold twoTo53 in T.
    rewrite A, <- Zle_Qle in T. lia. }
  assert (S : JS.isNeg q = false).
  { destruct (JS.isNeg q) eqn:Neg; [|reflexivity].
    apply isNeg_lt in Neg. rewrite E in Neg.
    change 0%Q with (inject_Z 0) in Neg. rewrite <- Zlt_Qlt in Neg. lia. }
  rewrite I, L, S, F. cbn [andb negb append].
  f_equal. lia.
Qed.

(** The digits of [toFixed(1)]: the integer part, the point, and the
    last digit of the rounded tenths. *)
Lemma fixed_split (n : N) :
  (let m := decimal n in
   let k := String.length m in
   let m := if (k <=? 1)%nat then zeros (1 + 1 - k) ++ m else m in
   let k := String.length m in
   substring 0 (k - 1) m ++ "." ++ substring (k - 1) 1 m)
  = decimal (n / 10) ++ "." ++ String (digit_char (n mod 10)) "".
Proof.
  cbv zeta. rewrite (NumeralFacts.decimal_unfold n).
  destruct (N.ltb_spec n 10) as [L|G].
  - rewrite N.div_small, N.mod_small by assumption. reflexivity.
  - pose proof (NumeralFacts.decimal_nonempty (n / 10)) as P.
    set (a := decimal (n / 10)) in *.
    set (c := digit_char (n mod 10)).
    rewrite StringFacts.length_append. cbn [String.length].
    destruct (Nat.leb_spec (String.length a + 1)%nat 1%nat) as [H|_]; [lia|].
    rewrite StringFacts.length_append. cbn [String.length].
    replace (String.length a + 1 - 1)%nat with (String.length a) by lia.
    rewrite StringFacts.substring_prefix.
    pose proof (StringFacts.substring_suffix a (String c "")) as Hs.
    cbn [String.length] in Hs. now rewrite Hs.
Qed.

Lemma toFixed_one (q : Q) :
  Qabs q < inject_Z (10 ^ 21) ->
  Number_toFixed toStringOther (JS.Finite q) 1
  = (if JS.isNeg q then "-" else "")
      ++ decimal (Spec.tenths q / 10) ++ "."
      ++ String (digit_char (Spec.tenths q mod 10)) "".
Proof.
  intros B. unfold Number_toFixed. cbv zeta.
  rewrite (below_tenTo21 q B). cbn [Nat.eqb].
  f_equal. apply (fixed_split (Spec.tenths q)).
Qed.

Lemma splitAtPoint_digits (a b : string) :
  Spec.allDigits a -> Spec.splitAtPoint (a ++ String "." b) = Some (a, b).
Proof.
  induction a as [|c a IH]; simpl; [reflexivity|].
  intros [[d [Hd ->]] Ha].
  rewrite NumeralFacts.digit_char_neq by (assumption || reflexivity).
  now rewrite IH.
Qed.

Lemma readOneDecimal_fixed (negative : bool) (n : N) :
  Spec.readOneDecimal
    ((if negative then "-" else "")
       ++ decimal (n / 10) ++ "." ++ String (digit_char (n mod 10)) "")
  = Some (if negative then - (Z.of_N n # 10) else Z.of_N n # 10).
Proof.
  assert (Hd : (n mod 10 < 10)%N) by (apply N.mod_lt; lia).
  assert (Body :
    match Spec.splitAtPoint
            (decimal (n / 10) ++ "." ++ String (digit_char (n mod 10)) "")
    with
    | Some (a, String b EmptyString) =>
        match Spec.readCount a, Obj.digit_of b with
        | Some i, Some d =>
            let v := Z.of_N (10 * i + d) # 10 in
            Some (if negative then - v else v)
        | _, _ => None
        end
    | _ => None
    end = Some (if negative then - (Z.of_N n # 10) else Z.of_N n # 10)).
  { change ("." ++ String (digit_char (n mod 10)) "")
      with (String "." (String (digit_char (n mod 10)) "")).
    rewrite splitAtPoint_digits by apply NumeralFacts.allDigits_decimal.
    rewrite NumeralFacts.readCount_decimal, NumeralFacts.digit_of_char
      by assumption.
    cbv zeta. rewrite <- (N.div_mod n 10) by lia. reflexivity. }
  unfold Spec.readOneDecimal. destruct negative.
  - cbn [append]. change (Ascii.eqb "-" "-") with true. cbv iota.
    exact Body.
  - cbn [append].
    destruct (NumeralFacts.decimal_head (n / 10)) as [d [rest [E [Dd _]]]].
    rewrite E in *. cbn [append] in *.
    rewrite NumeralFacts.digit_char_neq by (assumption || reflexivity).
    exact Body.
Qed.

(** The rounded tenths are nearest to the value. *)
Lemma tenths_nearest (q : Q) :
  Qabs ((if JS.isNeg q then - (Z.of_N (Spec.tenths q) # 10)
         else Z.of_N (Spec.tenths q) # 10) - q) <= 1 # 20.
Proof.
  unfold Spec.tenths. change (10 ^ Z.of_nat 1)%Z with 10%Z.
  set (x := Qabs q * inject_Z 10 + (1 # 2)).
  assert (X0 : 0 <= x).
  { unfold x. pose proof (Qabs_nonneg q) as P.
    change (inject_Z 10) with 10. lra. }
  assert (Z0 : (0 <= Qfloor x)%Z).
  { change 0%Z with (Qfloor 0). now apply Qfloor_resp_le. }
  rewrite Z2N.id by assumption.
  pose proof (Qfloor_le x) as Lo. pose proof (Qlt_floor x) as Hi.
  rewrite inject_Z_plus in Hi. change (inject_Z 1) with 1 in Hi.
  assert (W : Qfloor x # 10 == inject_Z (Qfloor x) * (1 # 10))
    by (rewrite Qmake_Qdiv; reflexivity).
  set (w := inject_Z (Qfloor x)) in *.
  unfold x in Lo, Hi. change (inject_Z 10) with 10 in Lo, Hi.
  destruct (JS.isNeg q) eqn:Neg; apply Qabs_Qle_condition; rewrite W.
  - apply isNeg_lt in Neg.
    assert (A : Qabs q == - q) by (apply Qabs_neg; lra).
    rewrite A in Lo, Hi. split; lra.
  - assert (P : 0 <= q).
    { destruct (Qlt_le_dec q 0) as [N|N]; [|exact N].
      apply isNeg_lt in N. congruence. }
    assert (A : Qabs q == q) by now apply Qabs_pos.
    rewrite A in Lo, Hi. split; lra.
Qed.

Lemma toFixed_renders (q : Q) (unit : string) :
  Qabs q < inject_Z (10 ^ 21) ->
  Spec.rendersOneDecimal
    (Number_toFixed toStringOther (JS.Finite q) 1 ++ unit) q unit.
Proof.
  intros B.
  exists (Number_toFixed toStringOther (JS.Finite q) 1).
  exists (if JS.isNeg q then - (Z.of_N (Spec.tenths q) # 10)
          else Z.of_N (Spec.tenths q) # 10).
  split; [reflexivity|]. split; [|apply tenths_nearest].
  rewrite (toFixed_one q B). apply readOneDecimal_fixed.
Qed.




End MetricsTable.

(** ** The table of a computed report *)

Lemma ratio_range (n d : nat) : n <= d -> (0 <= Spec.ratio n d <= 1)%Q.
Proof.
  intros H. unfold Spec.ratio.
  assert (M : n <= Nat.max d 1 /\ 1 <= Nat.max d 1) by lia.
  destruct M as [M1 M2]. set (m := Nat.max d 1) in *.
  assert (P : (0 < inject_Z (Z.of_nat m))%Q).
  { change 0%Q with (inject_Z 0). rewrite <- Zlt_Qlt. lia. }
  split.
  - apply Qle_shift_div_l; [exact P|]. rewrite Qmult_0_l.
    change 0%Q with (inject_Z 0). rewrite <- Zle_Qle. lia.
  - apply Qle_shift_div_r; [exact P|]. rewrite Qmult_1_l.
    rewrite <- Zle_Qle. lia.
Qed.

Lemma mortalityRate_ratio (discharges : list Discharge.t) :
  mortalityRate discharges
  = JS.Finite (Spec.ratio (deceasedDischarges discharges)
                 (List.length discharges)).
Proof. unfold mortalityRate. apply JSFacts.ratio_of_counts. Qed.

Lemma readmissionRate_ratio (patients : list Patient.t) :
  readmissionRate patients
  = JS.Finite (Spec.ratio (readmissions patients) (List.length patients)).
Proof. unfold readmissionRate. apply JSFacts.ratio_of_counts. Qed.

Lemma readmissions_le (patients : list Patient.t) :
  readmissions patients <= List.length patients.
Proof.
  rewrite readmissions_repeated. cbv zeta.
  etransitivity; [apply filter_length_le|].
  rewrite <- (length_map Patient.mrn patients).
  apply NoDup_incl_length; [apply NoDup_nodup|].
  intros m Hm. apply nodup_In, filter_In in Hm. tauto.
Qed.

Lemma total_range (l : list Q) (D : Q) :
  Forall (fun q => - D <= q <= D)%Q l ->
  (- (D * inject_Z (Z.of_nat (List.length l))) <= Spec.total l
   <= D * inject_Z (Z.of_nat (List.length l)))%Q.
Proof.
  induction 1 as [|q l [Lo Hi] _ [ILo IHi]]; cbn [Spec.total List.length].
  - change (inject_Z (Z.of_nat 0)) with 0%Q. lra.
  - rewrite Nat2Z.inj_succ, <- Z.add_1_r, inject_Z_plus.
    change (inject_Z 1) with 1%Q.
    set (n := inject_Z (Z.of_nat (List.length l))) in *. lra.
Qed.

Section ComputedReport.
Variable getTime : string -> Z.
Variable toStringOther : Q -> string.

Local Open Scope Q_scope.

(** Time values lie within the range of a [Date]. *)
Hypothesis getTime_range :
  forall stamp, (Z.abs (getTime stamp) <= 8640000000000000)%Z.

Lemma computedStay_range (patients : list Patient.t) (d : Discharge.t) :
  - inject_Z 200000000 <= Spec.computedStay getTime patients d
  <= inject_Z 200000000.
Proof.
  unfold Spec.computedStay.
  destruct (Array.find _ patients) as [a|]; [|split; discriminate].
  pose proof (getTime_range (Discharge.discharge_date d)) as R1.
  pose proof (getTime_range (Patient.admission_date a)) as R2.
  rewrite <- (inject_Z_opp (getTime (Patient.admission_date a))).
  rewrite <- inject_Z_plus.
  set (t := (getTime (Discharge.discharge_date d)
             + - getTime (Patient.admission_date a))%Z) in *.
  assert (T : (- 17280000000000000 <= t <= 17280000000000000)%Z)
    by (unfold t; lia).
  assert (P : 0 < inject_Z msPerDay) by reflexivity.
  split.
  - apply Qle_shift_div_l; [exact P|].
    rewrite <- inject_Z_opp, <- inject_Z_mult, <- Zle_Qle.
    unfold msPerDay. lia.
  - apply Qle_shift_div_r; [exact P|].
    rewrite <- inject_Z_mult, <- Zle_Qle. unfold msPerDay. lia.
Qed.

Lemma averageStayDuration_range (patients : list Patient.t)
    (discharges : list Discharge.t) :
  exists q,
    averageStayDuration getTime patients discharges = JS.Finite q
    /\ Qabs q <= inject_Z 200000000.
Proof.
  rewrite (averageStayDuration_value getTime). eexists.
  split; [reflexivity|].
  destruct discharges as [|d ds]; [discriminate|].
  remember (d :: ds) as l eqn:El.
  assert (P : 0 < inject_Z (Z.of_nat (List.length l)))
    by (subst l; reflexivity).
  rewrite fold_Qplus_total.
  change (inject_Z 0) with 0. rewrite Qplus_0_l.
  pose proof (total_range (map (Spec.computedStay getTime patients) l)
                (inject_Z 200000000)) as T.
  rewrite length_map in T.
  destruct T as [Lo Hi].
  { apply Forall_forall. intros q Hq. apply in_map_iff in Hq.
    destruct Hq as [x [<- _]]. apply computedStay_range. }
  apply Qabs_Qle_condition. split.
  - apply Qle_shift_div_l; [exact P|]. lra.
  - apply Qle_shift_div_r; [exact P|]. lra.
Qed.

(** The Key Metrics table of a report computed from collections of
    fewer than [2^32] records: the hypotheses of the rendering rules
    hold for every computed report. *)
Lemma computed_report_table (patients : list Patient.t)
    (medications : list Medication.t) (labResults : list LabResult.t)
    (discharges : list Discharge.t) :
  (List.length patients < 2 ^ 32)%nat ->
  (List.length medications < 2 ^ 32)%nat ->
  (List.length labResults < 2 ^ 32)%nat ->
  let metrics :=
    computedMetrics getTime patients medications labResults discharges in
  exists stay occupancy readmission mortality,
    Metrics.averageStayDuration metrics = JS.Finite stay
    /\ Metrics.bedOccupancyRate metrics = JS.Finite occupancy
    /\ Metrics.readmissionRate metrics = JS.Finite readmission
    /\ Metrics.mortalityRate metrics = JS.Finite mortality
    /\ 0 <= readmission <= 1 /\ 0 <= mortality <= 1
    /\ exists v1 v2 v3 v4 v5 v6 v7 v8 : string,
         metricsData toStringOther metrics
         = [ ["Total Patients"; v1];
             ["Critical Cases"; v2];
             ["Medications Given"; v3];
             ["Lab Tests"; v4];
             ["Average Stay Duration"; v5];
             ["Bed Occupancy Rate"; v6];
             ["Readmission Rate"; v7];
             ["Mortality Rate"; v8] ]%list
         /\ Spec.rendersCount v1 (List.length patients)
         /\ Spec.rendersCount v2 (criticalCases patients)
         /\ Spec.rendersCount v3 (List.length medications)
         /\ Spec.rendersCount v4 (List.length labResults)
         /\ Spec.rendersOneDecimal v5 stay " days"
         /\ Spec.rendersOneDecimal v6 (occupancy * 100) "%"
         /\ Spec.rendersOneDecimal v7 (readmission * 100) "%"
         /\ Spec.rendersOneDecimal v8 (mortality * 100) "%".
Proof.
  intros Bp Bm Bl metrics.
  assert (Pow : (Z.of_nat (2 ^ 32) = 4294967296)%Z).
  { rewrite Nat2Z.inj_pow. reflexivity. }
  assert (Count : forall n, (n < 2 ^ 32)%nat -> Spec.isCount (JS.of_nat n) n).
  { intros n Hn. split; [apply JSFacts.eqv_refl|]. lia. }
  destruct (averageStayDuration_range patients discharges)
    as [stay [Es Bs]].
  pose proof (ratio_range _ _ (readmissions_le patients)) as Rr.
  pose proof (ratio_range (deceasedDischarges discharges)
                (List.length discharges)
                (filter_length_le _ discharges)) as Rm.
  pose proof (filter_length_le
                (fun p => negb (String.eqb (Patient.status p) "Discharged"))
                patients) as Occ.
  fold (occupiedBeds patients) in Occ.
  exists stay,
    (inject_Z (Z.of_nat (occupiedBeds patients))
     / inject_Z (Z.of_nat totalBeds)),
    (Spec.ratio (readmissions patients) (List.length patients)),
    (Spec.ratio (deceasedDischarges discharges) (List.length discharges)).
  split; [exact Es|].
  split; [apply JSFacts.div_of_nat; discriminate|].
  split; [apply readmissionRate_ratio|].
  split; [apply mortalityRate_ratio|].
  split; [exact Rr|]. split; [exact Rm|].
  do 8 eexists. split; [reflexivity|].
  unfold Spec.rendersCount, metrics, computedMetrics.
  cbn [Metrics.totalPatients Metrics.criticalCases Metrics.medicationsGiven
       Metrics.labTests Metrics.averageStayDuration Metrics.bedOccupancyRate
       Metrics.readmissionRate Metrics.mortalityRate].
  assert (Cc : (criticalCases patients < 2 ^ 32)%nat).
  { rewrite criticalCases_occurrences.
    pose proof (occurrences_le_length "Critical"
                  (map Patient.status patients)) as L.
    rewrite length_map in L. lia. }
  rewrite (toString_count toStringOther _ _ (Count _ Bp)),
          (toString_count toStringOther _ _ (Count _ Cc)),
          (toString_count toStringOther _ _ (Count _ Bm)),
          (toString_count toStringOther _ _ (Count _ Bl)).
  rewrite !NumeralFacts.readCount_decimal, Es.
  rewrite readmissionRate_ratio, mortalityRate_ratio.
  unfold bedOccupancyRate. rewrite JSFacts.div_of_nat by discriminate.
  assert (Big : inject_Z 200000000 < inject_Z (10 ^ 21)) by reflexivity.
  assert (Hundred : 100 < inject_Z (10 ^ 21)) by reflexivity.
  repeat split.
  - apply toFixed_renders. lra.
  - apply (toFixed_renders toStringOther (_ * 100) "%").
    apply Qabs_Qlt_condition.
    assert (O : 0 <= inject_Z (Z.of_nat (occupiedBeds patients))
                     / inject_Z (Z.of_nat totalBeds)
                <= inject_Z 4294967296).
    { split.
      - apply Qle_shift_div_l; [reflexivity|].
        unfold Qle, Qmult. simpl. lia.
      - apply Qle_shift_div_r; [reflexivity|].
        rewrite <- inject_Z_mult, <- Zle_Qle. unfold totalBeds. lia. }
    assert (B32 : inject_Z 4294967296 * 100 < inject_Z (10 ^ 21))
      by reflexivity.
    lra.
  - apply (toFixed_renders toStringOther (_ * 100) "%").
    apply Qabs_Qlt_condition. lra.
  - apply (toFixed_renders toStringOther (_ * 100) "%").
    apply Qabs_Qlt_condition. lra.
Qed.

End ComputedReport.


(** The table of the sample metrics, as text. *)
Example metricsData_sample :
  metricsData Sample.toStringOther Sample.current
  = [ ["Total Patients"; "10"];
      ["Critical Cases"; "3"];
      ["Medications Given"; "42"];
      ["Lab Tests"; "17"];
      ["Average Stay Duration"; "2.3 days"];
      ["Bed Occupancy Rate"; "18.0%"];
      ["Readmission Rate"; "10.0%"];
      ["Mortality Rate"; "50.0%"] ].
Proof. reflexivity. Qed.

(* ================================================================== *)
(** * Further properties of the report *)

(** ** Runs of [fetchReportData] *)

Section Runs.
Variable getTime : string -> Z.
Variable format : Z -> string -> string.
Variable validDate : string -> bool.

Lemma firstFailure_none (r : Responses) :
  Derived.noFetchFailed r -> Spec.firstFailure r = None.
Proof.
  intros H. unfold Spec.firstFailure.
  destruct (List.find _ (Spec.errors r)) as [[e|]|] eqn:F; try reflexivity.
  apply find_some in F. destruct F as [F _]. now apply H in F.
Qed.

Lemma firstFailure_none_inv (r : Responses) :
  Spec.firstFailure r = None -> Derived.noFetchFailed r.
Proof.
  intros H e He.
  destruct (firstFailure_some r (ex_intro _ e He)) as [c Hc]. congruence.
Qed.

Lemma no_errors (r : Responses) :
  Derived.noFetchFailed r ->
  Response.error (patientsResponse r) = None
  /\ Response.error (medicationsResponse r) = None
  /\ Response.error (labResultsResponse r) = None
  /\ Response.error (dischargesResponse r) = None
  /\ Response.error (vitalsResponse r) = None.
Proof.
  intros H. unfold Derived.noFetchFailed, Spec.errors in H.
  repeat split;
    match goal with
    | |- ?x = None =>
        destruct x as [e|] eqn:E;
        [exfalso; apply (H e); rewrite <- E; simpl; auto 10|reflexivity]
    end.
Qed.

(** When every stamp is a valid date, the count is the one of the
    filter. *)
Lemma countToday_valid {A : Type} (stamp : A -> string) (today : Z)
    (rows : list A) (s : Hook.t) :
  forallb validDate (map stamp rows) = true ->
  countToday getTime format validDate stamp today rows s
  = (Normal
       (List.length
          (filter (fun row => isToday getTime format today (stamp row))
             rows)),
     s).
Proof.
  induction rows as [|row rows IH]; intros V; [reflexivity|].
  cbn [map forallb] in V. apply andb_true_iff in V. destruct V as [Vr V].
  cbn [countToday filter]. unfold bind, formatStamp. rewrite Vr.
  unfold ret at 1. rewrite (IH V). unfold ret, isToday.
  now destruct (String.eqb _ _).
Qed.

(** The first stamp that is not a valid date makes [format] throw. *)
Lemma countToday_invalid {A : Type} (stamp : A -> string) (today : Z)
    (rows : list A) (s : Hook.t) :
  forallb validDate (map stamp rows) = false ->
  countToday getTime format validDate stamp today rows s
  = (Throw (ErrorObject "Invalid time value"), s).
Proof.
  induction rows as [|row rows IH]; intros V; [discriminate|].
  cbn [map forallb] in V. cbn [countToday]. unfold bind, formatStamp.
  destruct (validDate (stamp row)); [|reflexivity].
  unfold ret at 1. now rewrite (IH V).
Qed.

(** What a run does when no fetch failed. *)
Lemma fetch_runs (today : Z) (r : Responses) (s : Hook.t) :
  Derived.noFetchFailed r ->
  fetchReportData getTime format validDate today r s
  = if Derived.stampsValid validDate r
    then
      (Normal tt,
       {| Hook.metrics :=
            computedMetrics getTime
              (dataOrEmpty (patientsResponse r))
              (dataOrEmpty (medicationsResponse r))
              (dataOrEmpty (labResultsResponse r))
              (dataOrEmpty (dischargesResponse r));
          Hook.activities :=
            computedActivities getTime format today
              (dataOrEmpty (patientsResponse r))
              (dataOrEmpty (medicationsResponse r))
              (dataOrEmpty (labResultsResponse r))
              (dataOrEmpty (dischargesResponse r))
              (dataOrEmpty (vitalsResponse r));
          Hook.loading := false;
          Hook.error := None;
          Hook.effects := Hook.effects s |})
    else
      (Normal tt,
       {| Hook.metrics := Hook.metrics s;
          Hook.activities := Hook.activities s;
          Hook.loading := false;
          Hook.error := Some (ErrorObject "Invalid time value");
          Hook.effects :=
            (Hook.effects s
             ++ [ ConsoleError "Error fetching report data:"
                    (ErrorObject "Invalid time value");
                  ToastError "Failed to load report data" ])%list |}).
Proof.
  intros H. destruct (no_errors r H) as [E1 [E2 [E3 [E4 E5]]]].
  unfold fetchReportData, tryCatchFinally, bind, throwIfError,
    Derived.stampsValid.
  rewrite E1, E2, E3, E4, E5.
  unfold setLoading at 1, setError at 1, ret at 1 2 3 4 5.
  cbn [Hook.metrics Hook.activities Hook.loading Hook.error Hook.effects].
  destruct (forallb validDate
              (map Patient.admission_date
                 (dataOrEmpty (patientsResponse r)))) eqn:V1;
    [rewrite (countToday_valid _ _ _ _ V1)
    |rewrite (countToday_invalid _ _ _ _ V1);
     unfold emit, setError, setLoading; cbn;
     now rewrite <- app_assoc].
  destruct (forallb validDate
              (map Discharge.discharge_date
                 (dataOrEmpty (dischargesResponse r)))) eqn:V2;
    [rewrite (countToday_valid _ _ _ _ V2)
    |rewrite (countToday_invalid _ _ _ _ V2);
     unfold emit, setError, setLoading; cbn;
     now rewrite <- app_assoc].
  destruct (forallb validDate
              (map LabResult.created_at
                 (dataOrEmpty (labResultsResponse r)))) eqn:V3;
    [rewrite (countToday_valid _ _ _ _ V3)
    |rewrite (countToday_invalid _ _ _ _ V3);
     unfold emit, setError, setLoading; cbn;
     now rewrite <- app_assoc].
  destruct (forallb validDate
              (map Medication.created_at
                 (dataOrEmpty (medicationsResponse r)))) eqn:V4;
    [rewrite (countToday_valid _ _ _ _ V4)
    |rewrite (countToday_invalid _ _ _ _ V4);
     unfold emit, setError, setLoading; cbn;
     now rewrite <- app_assoc].
  reflexivity.
Qed.

(** A run in which no fetch failed and every stamp is a valid date ends
    normally.  It stores the metrics and activities computed from the
    five collections, a [null] data being read as empty; it clears
    loading and any earlier error, and writes nothing to the console or
    to a toast. *)
Theorem fetch_success (today : Z) (r : Responses) (s : Hook.t) :
  Derived.noFetchFailed r ->
  Derived.stampsValid validDate r = true ->
  fetchReportData getTime format validDate today r s
  = (Normal tt,
     {| Hook.metrics :=
          computedMetrics getTime
            (dataOrEmpty (patientsResponse r))
            (dataOrEmpty (medicationsResponse r))
            (dataOrEmpty (labResultsResponse r))
            (dataOrEmpty (dischargesResponse r));
        Hook.activities :=
          computedActivities getTime format today
            (dataOrEmpty (patientsResponse r))
            (dataOrEmpty (medicationsResponse r))
            (dataOrEmpty (labResultsResponse r))
            (dataOrEmpty (dischargesResponse r))
            (dataOrEmpty (vitalsResponse r));
        Hook.loading := false;
        Hook.error := None;
        Hook.effects := Hook.effects s |}).
Proof.
  intros H V. now rewrite (fetch_runs today r s H), V.
Qed.

(** A run never lets an exception escape and never leaves loading set.
    After it, no error is surfaced exactly when no fetch failed and
    every stamp that is formatted is a valid date.  When no fetch failed
    and a stamp is not a valid date, the [RangeError] of [format] is
    surfaced, and metrics and activities are the previous ones. *)
Theorem fetch_settles (today : Z) (r : Responses) (s : Hook.t) :
  fst (fetchReportData getTime format validDate today r s) = Normal tt
  /\ Hook.loading (runFetch getTime format validDate today r s) = false
  /\ (Hook.error (runFetch getTime format validDate today r s) = None
      <-> Derived.noFetchFailed r
          /\ Derived.stampsValid validDate r = true)
  /\ (Derived.noFetchFailed r ->
      Derived.stampsValid validDate r = false ->
      Hook.error (runFetch getTime format validDate today r s)
      = Some (ErrorObject "Invalid time value")
      /\ Hook.metrics (runFetch getTime format validDate today r s)
         = Hook.metrics s
      /\ Hook.activities (runFetch getTime format validDate today r s)
         = Hook.activities s).
Proof.
  unfold runFetch.
  destruct (Spec.firstFailure r) as [cause|] eqn:F.
  - rewrite (fetch_throws getTime format validDate today r s cause F).
    simpl.
    assert (N : ~ Derived.noFetchFailed r).
    { intros NF. apply firstFailure_none in NF. congruence. }
    split; [reflexivity|]. split; [reflexivity|]. split.
    + split; [discriminate|]. intros [NF _]. contradiction.
    + intros NF. contradiction.
  - pose proof (firstFailure_none_inv r F) as NF.
    rewrite (fetch_runs today r s NF).
    destruct (Derived.stampsValid validDate r); simpl.
    + split; [reflexivity|]. split; [reflexivity|]. split.
      * split; [now split|reflexivity].
      * intros _ V. discriminate.
    + split; [reflexivity|]. split; [reflexivity|]. split.
      * split; [discriminate|]. intros [_ V]. discriminate.
      * intros _ _. now repeat split.
Qed.

(** A run over empty collections, each [null] or [[]], stores the zero
    report: every metric is zero, the status distribution and the common
    diagnoses are empty, and the daily activities and top procedures
    keep their fixed labels with zero counts. *)
Theorem fetch_empty (today : Z) (r : Responses) (s : Hook.t) :
  Derived.noFetchFailed r ->
  Derived.allEmpty r ->
  Derived.allZero (Hook.metrics (runFetch getTime format validDate today r s))
  /\ Hook.activities (runFetch getTime format validDate today r s)
     = Derived.zeroActivities.
Proof.
  intros H [Ep [Em [El [Ed Ev]]]].
  unfold runFetch. rewrite (fetch_runs today r s H).
  unfold Derived.stampsValid.
  rewrite Ep, Em, El, Ed, Ev.
  cbn [map forallb andb snd Hook.metrics Hook.activities].
  split; [|reflexivity].
  unfold Derived.allZero. simpl. repeat split; reflexivity.
Qed.

End Runs.

(** A successful run over an earlier failure: the stale error is
    cleared. *)
Lemma fetch_success_witness :
  Hook.error
    (runFetch Sample.getTime Sample.format Sample.validDate 0
       {| patientsResponse :=
            Sample.ok [ Patient.mk "1" "A" "MRN-1" "Stable" "Sepsis" "3" ];
          medicationsResponse := Sample.ok [];
          labResultsResponse := Sample.ok [];
          dischargesResponse := Sample.ok [];
          vitalsResponse := Sample.ok [] |}
       (runFetch Sample.getTime Sample.format Sample.validDate 0
          Sample.patientsFail Hook.initial))
  = None.
Proof.
  unfold runFetch at 1.
  rewrite (fetch_success Sample.getTime Sample.format Sample.validDate);
    [reflexivity| |reflexivity].
  intros e He. simpl in He. intuition discriminate.
Defined.

(** The zero report from [null] data. *)
Lemma fetch_empty_witness :
  Derived.allZero
    (Hook.metrics
       (runFetch Sample.getTime Sample.format Sample.validDate 0
          {| patientsResponse := Response.mk None None;
             medicationsResponse := Sample.ok [];
             labResultsResponse := Response.mk None None;
             dischargesResponse := Sample.ok [];
             vitalsResponse := Response.mk None None |}
          Hook.initial)).
Proof.
  apply (fetch_empty Sample.getTime Sample.format Sample.validDate).
  - intros e He. simpl in He. intuition discriminate.
  - repeat split.
Defined.

(** ** Ranges of the rates *)

Section Rates.
Local Open Scope Q_scope.

(** The mortality rate is a fraction: it lies between [0] and [1], and
    it is [0] exactly when no discharge has the deceased sentinel. *)
Theorem mortalityRate_fraction (discharges : list Discharge.t) :
  exists q,
    mortalityRate discharges = JS.Finite q
    /\ 0 <= q <= 1
    /\ (q == 0 <-> deceasedDischarges discharges = 0%nat).
Proof.
  exists (Spec.ratio (deceasedDischarges discharges)
            (List.length discharges)).
  split; [apply mortalityRate_ratio|].
  split; [apply ratio_range, filter_length_le|].
  unfold Spec.ratio.
  set (n := deceasedDischarges discharges).
  set (m := Nat.max (List.length discharges) 1).
  assert (P : ~ inject_Z (Z.of_nat m) == 0).
  { unfold Qeq. simpl. unfold m. lia. }
  split.
  - intros E.
    assert (Z : inject_Z (Z.of_nat n) == 0).
    { rewrite <- (Qmult_div_r (inject_Z (Z.of_nat n)) _ P), E. ring. }
    unfold Qeq in Z. simpl in Z. lia.
  - intros ->. reflexivity.
Qed.

Lemma filter_none {A : Type} (p : A -> bool) (l : list A) :
  (forall x, In x l -> p x = false) -> filter p l = [].
Proof.
  induction l as [|x l IH]; simpl; intros H; [reflexivity|].
  rewrite (H x) by now left. apply IH. intros y Hy. apply H. now right.
Qed.

Lemma repeated_twice (l : list nat) :
  (2 * List.length (filter (fun count => 1 <? count) l) <= list_sum l)%nat.
Proof.
  induction l as [|c l IH]; simpl; [lia|].
  destruct (Nat.ltb_spec 1 c); simpl; lia.
Qed.

Lemma readmissions_half (patients : list Patient.t) :
  (2 * readmissions patients <= List.length patients)%nat.
Proof.
  rewrite readmissions_counts.
  etransitivity; [apply repeated_twice|].
  unfold Spec.talliesOwn. rewrite TallyFacts.list_sum_fold. simpl.
  etransitivity; [apply filter_length_le|]. now rewrite length_map.
Qed.

(** Every counted MRN stands for at least two admissions, so the
    readmission rate lies between [0] and [1/2]. *)
Theorem readmissionRate_at_most_half (patients : list Patient.t) :
  exists q,
    readmissionRate patients = JS.Finite q /\ 0 <= q <= 1 # 2.
Proof.
  exists (Spec.ratio (readmissions patients) (List.length patients)).
  split; [apply readmissionRate_ratio|].
  pose proof (readmissions_half patients) as H.
  pose proof (ratio_range _ _ (readmissions_le patients)) as [Lo _].
  split; [exact Lo|].
  unfold Spec.ratio.
  set (n := readmissions patients) in *.
  set (m := Nat.max (List.length patients) 1).
  assert (M : (2 * n <= m)%nat) by (unfold m; lia).
  apply Qle_shift_div_r.
  - change 0 with (inject_Z 0). rewrite <- Zlt_Qlt. unfold m. lia.
  - assert (Mz : (2 * Z.of_nat n <= Z.of_nat m)%Z) by lia.
    rewrite (Zle_Qle (2 * Z.of_nat n) (Z.of_nat m)) in Mz.
    rewrite inject_Z_mult in Mz. change (inject_Z 2) with 2 in Mz. lra.
Qed.

(** When no two admissions share an MRN, the readmission rate is [0]. *)
Theorem readmissionRate_distinct_mrns (patients : list Patient.t) :
  NoDup (map Patient.mrn patients) ->
  readmissionRate patients =js= JS.Finite 0.
Proof.
  intros ND. rewrite readmissionRate_ratio.
  assert (Z : readmissions patients = 0%nat).
  { rewrite readmissions_repeated. cbv zeta.
    rewrite filter_none; [reflexivity|]. intros m Hm.
    apply Nat.ltb_ge. unfold Spec.occurrences.
    apply (NoDup_count_occ string_dec). now apply NoDup_filter. }
  rewrite Z. reflexivity.
Qed.

(** The bed occupancy is the number of admissions whose status is not
    Discharged over the fifty beds: never negative, not capped, and
    above [1] exactly when more than fifty such admissions were
    fetched. *)
Theorem bedOccupancyRate_uncapped (patients : list Patient.t) :
  let discharged :=
    Spec.occurrences "Discharged" (map Patient.status patients) in
  let occupied := (List.length patients - discharged)%nat in
  bedOccupancyRate patients
    = JS.Finite (inject_Z (Z.of_nat occupied) / inject_Z 50)
  /\ 0 <= inject_Z (Z.of_nat occupied) / inject_Z 50
  /\ (1 < inject_Z (Z.of_nat occupied) / inject_Z 50 <-> (50 < occupied)%nat).
Proof.
  intros discharged occupied.
  assert (E : occupiedBeds patients = occupied).
  { unfold occupiedBeds, occupied, discharged.
    pose proof (filter_length
                  (fun p => String.eqb (Patient.status p) "Discharged")
                  patients) as L.
    rewrite (length_filter_map Patient.status
               (fun s => String.eqb s "Discharged")) in L.
    rewrite length_filter_count_occ in L. lia. }
  split.
  - unfold bedOccupancyRate. rewrite E.
    apply JSFacts.div_of_nat. discriminate.
  - set (n := Z.of_nat occupied).
    assert (N : (0 <= n)%Z) by (unfold n; lia).
    assert (D : inject_Z n / inject_Z 50 == inject_Z n * (1 # 50))
      by reflexivity.
    rewrite D.
    assert (B : (50 < occupied)%nat <-> (50 < n)%Z) by (unfold n; lia).
    rewrite B, (Zlt_Qlt 50 n), (Zle_Qle 0 n) in *.
    change (inject_Z 50) with 50. change (inject_Z 0) with 0 in N.
    split; [lra|]. split; intros H; lra.
Qed.

End Rates.

(** Admissions with distinct MRNs. *)
Lemma readmissionRate_distinct_mrns_witness :
  readmissionRate
    [ Patient.mk "1" "A" "MRN-1" "Stable" "Sepsis" "2024-03-01";
      Patient.mk "2" "B" "MRN-2" "Discharged" "Sepsis" "2024-03-01";
      Patient.mk "3" "C" "MRN-3" "Critical" "Stroke" "2024-03-02" ]
  =js= JS.Finite 0.
Proof.
  apply readmissionRate_distinct_mrns. simpl.
  repeat constructor; simpl; intuition discriminate.
Defined.

(** ** Today's counts against the totals *)

Section Today.
Variable getTime : string -> Z.
Variable format : Z -> string -> string.

(** Each of today's counts is at most the total of its collection, the
    total that the metrics and the top procedures show. *)
Theorem dailyActivities_within_totals (today : Z)
    (patients : list Patient.t) (medications : list Medication.t)
    (labResults : list LabResult.t) (discharges : list Discharge.t)
    (vitals : list Vital.t) :
  exists a d l m : nat,
    Activities.dailyActivities
      (computedActivities getTime format today patients medications
         labResults discharges vitals)
    = [ NameValue.mk "Admissions" (JS.of_nat a);
        NameValue.mk "Discharges" (JS.of_nat d);
        NameValue.mk "Lab Tests" (JS.of_nat l);
        NameValue.mk "Medications" (JS.of_nat m) ]
    /\ a <= List.length patients
    /\ d <= List.length discharges
    /\ l <= List.length labResults
    /\ m <= List.length medications
    /\ Metrics.totalPatients
         (computedMetrics getTime patients medications labResults discharges)
       = JS.of_nat (List.length patients)
    /\ Metrics.labTests
         (computedMetrics getTime patients medications labResults discharges)
       = JS.of_nat (List.length labResults)
    /\ Metrics.medicationsGiven
         (computedMetrics getTime patients medications labResults discharges)
       = JS.of_nat (List.length medications).
Proof.
  exists (admissionsToday getTime format today patients),
         (dischargesToday getTime format today discharges),
         (labTestsToday getTime format today labResults),
         (medicationsToday getTime format today medications).
  split; [reflexivity|].
  repeat split; apply filter_length_le.
Qed.

End Today.

(** ** Orders: first seen, ties and the top five *)

Module OrderFacts.

Import Derived.

Lemma mem_In (k : string) (l : list string) : mem k l = true <-> In k l.
Proof.
  unfold mem. rewrite existsb_exists. split.
  - intros [x [Hx E]]. apply String.eqb_eq in E. now subst.
  - intros H. exists k. split; [assumption|apply String.eqb_refl].
Qed.

Lemma mem_app (k : string) (l l' : list string) :
  mem k (l ++ l') = mem k l || mem k l'.
Proof. unfold mem. apply existsb_app. Qed.

Lemma filter_filter {A : Type} (p q : A -> bool) (l : list A) :
  filter p (filter q l) = filter (fun x => p x && q x) l.
Proof.
  induction l as [|x l IH]; simpl; [reflexivity|].
  destruct (q x); simpl; [destruct (p x)|rewrite andb_false_r];
    now rewrite IH.
Qed.

Lemma filter_all {A : Type} (p : A -> bool) (l : list A) :
  (forall x, p x = true) -> filter p l = l.
Proof.
  intros H. induction l as [|x l IH]; simpl; [reflexivity|].
  now rewrite H, IH.
Qed.

Lemma keys_tally (o : Obj.t nat) (k : string) :
  map fst (Spec.tallyOwn o k)
  = if mem k (map fst o) then map fst o else (map fst o ++ [k])%list.
Proof.
  unfold Spec.tallyOwn. destruct (mem k (map fst o)) eqn:M.
  - apply ObjFacts.keys_set_in. now apply mem_In.
  - apply ObjFacts.keys_set_notin. intros I. apply mem_In in I. congruence.
Qed.

(** A tally creates its keys in the order in which they are first
    seen. *)
Lemma keys_fold (keys : list string) :
  forall o : Obj.t nat,
    map fst (fold_left Spec.tallyOwn keys o)
    = (map fst o
       ++ filter (fun k => negb (mem k (map fst o)))
            (Derived.firstSeen keys))%list.
Proof.
  induction keys as [|k keys IH]; intros o; simpl.
  - now rewrite app_nil_r.
  - rewrite IH, keys_tally. destruct (mem k (map fst o)) eqn:M; simpl.
    + f_equal. rewrite filter_filter. apply filter_ext. intros x.
      destruct (mem x (map fst o)) eqn:Mx; [reflexivity|]. simpl.
      destruct (String.eqb_spec x k) as [->|N]; [congruence|reflexivity].
    + rewrite <- app_assoc. simpl. do 2 f_equal.
      rewrite filter_filter. apply filter_ext. intros x.
      rewrite mem_app. unfold mem at 2. simpl. rewrite orb_false_r.
      now rewrite negb_orb.
Qed.

Lemma keys_first_seen (keys : list string) :
  map fst (Spec.talliesOwn keys) = Derived.firstSeen keys.
Proof.
  unfold Spec.talliesOwn. rewrite keys_fold. simpl.
  now apply filter_all.
Qed.

(** Without array-index keys, [Object.entries] keeps the creation
    order. *)
Lemma entries_creation_order {V : Type} (o : Obj.t V) :
  Derived.noArrayIndex (map fst o) -> Obj.entries o = o.
Proof.
  intros H.
  assert (K : forall kv, In kv o -> Obj.arrayIndex (fst kv) = None).
  { intros kv I. apply H. now apply in_map. }
  clear H.
  assert (I0 : Obj.indexed o = []).
  { unfold Obj.indexed. induction o as [|kv o IH]; simpl; [reflexivity|].
    rewrite (K kv) by now left. simpl. apply IH.
    intros x Hx. apply K. now right. }
  assert (N0 : Obj.named o = o).
  { unfold Obj.named. induction o as [|kv o IH]; simpl; [reflexivity|].
    rewrite (K kv) by now left. f_equal. apply IH.
    - intros x Hx. apply K. now right.
    - unfold Obj.indexed in I0. simpl in I0.
      rewrite (K kv) in I0 by now left. exact I0. }
  unfold Obj.entries. now rewrite I0, N0.
Qed.

Lemma In_first_seen (l : list string) (k : string) :
  In k (Derived.firstSeen l) <-> In k l.
Proof.
  induction l as [|x l IH]; simpl; [tauto|].
  rewrite filter_In, IH. split.
  - intros [E|[I _]]; auto.
  - intros [E|I]; [now left|].
    destruct (String.eqb_spec k x) as [->|N]; [now left|].
    right. split; [assumption|reflexivity].
Qed.

(** The sort keeps, among the entries of one count, their order. *)
Lemma insert_same_count (c : nat) (x : string * nat)
    (l : list (string * nat)) :
  filter (fun g => snd g =? c) (Array.insert Spec.byCountOwn x l)
  = filter (fun g => snd g =? c) (x :: l).
Proof.
  induction l as [|y l IH]; [reflexivity|]. cbn [Array.insert].
  destruct (Z.leb_spec (Spec.byCountOwn x y) 0) as [L|G]; [reflexivity|].
  unfold Spec.byCountOwn in G.
  cbn [filter] in *. rewrite IH.
  destruct (Nat.eqb_spec (snd x) c) as [Ex|Nx]; [|reflexivity].
  destruct (Nat.eqb_spec (snd y) c) as [Ey|Ny]; [lia|reflexivity].
Qed.

Lemma sort_same_count (c : nat) (l : list (string * nat)) :
  filter (fun g => snd g =? c) (Array.sort Spec.byCountOwn l)
  = filter (fun g => snd g =? c) l.
Proof.
  induction l as [|x l IH]; [reflexivity|].
  cbn [Array.sort fold_right]. rewrite insert_same_count.
  cbn [filter]. fold (Array.sort Spec.byCountOwn l). now rewrite IH.
Qed.

Lemma tallied_values (o : Obj.t nat) (seen : list string) :
  Spec.tallied o seen ->
  o = map (fun k => (k, Spec.occurrences k seen)) (map fst o).
Proof.
  intros [_ H]. rewrite map_map.
  rewrite <- (map_id o) at 1. apply map_ext_in.
  intros [k v] I. apply H in I. destruct I as [-> _]. reflexivity.
Qed.

Lemma sorted_app {A : Type} (R : A -> A -> Prop) (l1 l2 : list A) :
  StronglySorted R (l1 ++ l2) ->
  forall x y, In x l1 -> In y l2 -> R x y.
Proof.
  induction l1 as [|a l1 IH]; simpl; intros S x y Hx Hy; [contradiction|].
  inversion S as [|? ? S' F]; subst. destruct Hx as [<-|Hx].
  - rewrite Forall_forall in F. apply F. apply in_or_app. now right.
  - now apply IH.
Qed.

End OrderFacts.

Section Orders.
Variable getTime : string -> Z.
Variable format : Z -> string -> string.

(** When no status is an array index or the name of a property of
    [Object.prototype], the status distribution lists the statuses in
    the order in which the admissions first show them, and no bucket is
    empty. *)
Theorem patientStatusDistribution_first_seen (today : Z)
    (patients : list Patient.t) (medications : list Medication.t)
    (labResults : list LabResult.t) (discharges : list Discharge.t)
    (vitals : list Vital.t) :
  Derived.noArrayIndex (map Patient.status patients) ->
  Spec.plainKeys (map Patient.status patients) = true ->
  let buckets :=
    Activities.patientStatusDistribution
      (computedActivities getTime format today patients medications
         labResults discharges vitals) in
  map NameValue.name buckets
    = Derived.firstSeen (map Patient.status patients)
  /\ forall b, In b buckets ->
       exists n, NameValue.value b = JS.of_nat n /\ 1 <= n.
Proof.
  intros H Plain buckets.
  set (own := Spec.talliesOwn (map Patient.status patients)).
  pose proof (TallyFacts.tallied_own (map Patient.status patients)) as T.
  fold own in T.
  assert (K : map fst own
              = Derived.firstSeen (map Patient.status patients))
    by apply OrderFacts.keys_first_seen.
  assert (E : Obj.entries own = own).
  { apply OrderFacts.entries_creation_order. rewrite K.
    intros k Hk. apply H. now apply OrderFacts.In_first_seen. }
  unfold buckets.
  rewrite (buckets_plain getTime format today patients medications
             labResults discharges vitals Plain).
  fold own. rewrite E. split.
  - rewrite map_map, <- K. apply map_ext. now intros [k v].
  - intros b Hb. apply in_map_iff in Hb. destruct Hb as [[k v] [<- I]].
    apply T in I. destruct I as [_ Hv]. exists v. split; [reflexivity|lia].
Qed.

End Orders.

(** The ranking behind [commonDiagnoses] is determined: counts descend,
    and among the diagnoses of one count the order is the one in which
    the admissions first show them (no diagnosis being an array index
    or the name of a property of [Object.prototype]). *)
Theorem commonDiagnoses_ties_first_seen (patients : list Patient.t) :
  Derived.noArrayIndex (map Patient.diagnosis patients) ->
  Spec.plainKeys (map Patient.diagnosis patients) = true ->
  let diagnoses := map Patient.diagnosis patients in
  exists ranked : list (string * nat),
    sortedDiagnoses patients
    = map (fun g => NameCount.mk (fst g) (JS.of_nat (snd g)))
        (firstn 5 ranked)
    /\ StronglySorted (fun x y => snd y <= snd x) ranked
    /\ forall c,
         map fst (filter (fun g => snd g =? c) ranked)
         = filter (fun k => Spec.occurrences k diagnoses =? c)
             (Derived.firstSeen diagnoses).
Proof.
  intros H Plain diagnoses.
  set (own := Spec.talliesOwn diagnoses).
  pose proof (TallyFacts.tallied_own diagnoses) as T. fold own in T.
  assert (K : map fst own = Derived.firstSeen diagnoses)
    by apply OrderFacts.keys_first_seen.
  assert (E : Obj.entries own = own).
  { apply OrderFacts.entries_creation_order. rewrite K.
    intros k Hk. apply H. now apply OrderFacts.In_first_seen. }
  exists (Array.sort Spec.byCountOwn own).
  split; [|split].
  - rewrite (sortedDiagnoses_plain patients Plain).
    fold diagnoses. fold own. now rewrite E.
  - apply ranked_sorted.
  - intros c. rewrite OrderFacts.sort_same_count.
    rewrite (OrderFacts.tallied_values _ _ T) at 1.
    rewrite K. clear.
    induction (Derived.firstSeen diagnoses) as [|k l IH]; [reflexivity|].
    cbn [map filter snd].
    destruct (Spec.occurrences k diagnoses =? c); cbn [map fst];
      now rewrite IH.
Qed.

(** The five listed diagnoses are the most frequent: when no diagnosis
    is the name of a property of [Object.prototype], a diagnosis that is
    left out occurs no more often than any listed one. *)
Theorem commonDiagnoses_dominate (patients : list Patient.t) (k : string)
    (e : NameCount.t) :
  Spec.plainKeys (map Patient.diagnosis patients) = true ->
  In k (map Patient.diagnosis patients) ->
  ~ In k (map NameCount.name (sortedDiagnoses patients)) ->
  In e (sortedDiagnoses patients) ->
  exists c,
    NameCount.count e = JS.of_nat c
    /\ Spec.occurrences k (map Patient.diagnosis patients) <= c.
Proof.
  intros Plain Hk Hout He.
  set (diagnoses := map Patient.diagnosis patients) in *.
  set (ranked := Array.sort Spec.byCountOwn
                   (Obj.entries (Spec.talliesOwn diagnoses))).
  pose proof (ranked_groups diagnoses) as P. fold ranked in P.
  pose proof (ranked_sorted (Obj.entries (Spec.talliesOwn diagnoses))) as S.
  fold ranked in S.
  pose proof (sortedDiagnoses_plain patients Plain) as E.
  fold diagnoses in E. fold ranked in E.
  rewrite E in He, Hout. apply in_map_iff in He.
  destruct He as [[name c] [<- Hg]]. exists c. split; [reflexivity|].
  assert (G : In (k, Spec.occurrences k diagnoses) ranked).
  { apply (Permutation_in _ (Permutation_sym P)).
    apply TallyFacts.In_groups. split; [reflexivity|].
    now apply (count_occ_In string_dec). }
  rewrite <- (firstn_skipn 5 ranked) in G, S.
  apply in_app_or in G. destruct G as [G|G].
  - exfalso. apply Hout. rewrite map_map. cbn [NameCount.name].
    apply (in_map fst) in G. exact G.
  - exact (OrderFacts.sorted_app _ _ _ S _ _ Hg G).
Qed.

(** In the sample ward, Angina is left out and occurs no more often
    than Stroke, which is listed. *)
Lemma commonDiagnoses_dominate_witness :
  exists c,
    NameCount.count (NameCount.mk "Stroke" (JS.of_nat 2)) = JS.of_nat c
    /\ Spec.occurrences "Angina" (map Patient.diagnosis Derived.ward) <= c.
Proof.
  apply (commonDiagnoses_dominate Derived.ward "Angina"
           (NameCount.mk "Stroke" (JS.of_nat 2))).
  - reflexivity.
  - simpl. tauto.
  - simpl. intuition discriminate.
  - simpl. tauto.
Defined.

(** The statuses of the sample ward, in first-seen order. *)
Lemma patientStatusDistribution_first_seen_witness :
  map NameValue.name
    (Activities.patientStatusDistribution
       (computedActivities Sample.getTime Sample.format 0 Derived.ward
          [] [] [] []))
  = [ "Stable"; "Critical"; "Discharged" ].
Proof.
  apply (patientStatusDistribution_first_seen Sample.getTime Sample.format
           0%Z Derived.ward [] [] [] []); [|reflexivity].
  intros k Hk. simpl in Hk.
  repeat (destruct Hk as [<-|Hk]; [reflexivity|]). contradiction.
Defined.

(** The diagnoses of the sample ward: Stroke first, then the single
    ones in first-seen order, Angina being left out. *)
Lemma commonDiagnoses_ties_first_seen_witness :
  exists ranked : list (string * nat),
    sortedDiagnoses Derived.ward
    = map (fun g => NameCount.mk (fst g) (JS.of_nat (snd g)))
        (firstn 5 ranked)
    /\ StronglySorted (fun x y => snd y <= snd x) ranked
    /\ forall c,
         map fst (filter (fun g => snd g =? c) ranked)
         = filter (fun k => Spec.occurrences k
                              (map Patient.diagnosis Derived.ward) =? c)
             (Derived.firstSeen (map Patient.diagnosis Derived.ward)).
Proof.
  apply (commonDiagnoses_ties_first_seen Derived.ward); [|reflexivity].
  intros k Hk. simpl in Hk.
  repeat (destruct Hk as [<-|Hk]; [reflexivity|]). contradiction.
Defined.

Example commonDiagnoses_ward :
  map NameCount.name (sortedDiagnoses Derived.ward)
  = [ "Stroke"; "Sepsis"; "Asthma"; "Trauma"; "Burns" ].
Proof. reflexivity. Qed.

(** ** The reducers on ordinary keys *)

(** Admissions none of whose statuses, diagnoses and MRNs is the name
    of a property of [Object.prototype].  The values of the status
    buckets are counts that sum to [totalPatients], each the number of
    admissions with the status of its bucket.  [readmissionRate] is the
    number of distinct MRNs that occur in more than one admission over
    the maximum of the number of admissions and [1].  [commonDiagnoses]
    has as many entries as there are distinct diagnoses, five at most;
    each holds the number of admissions with its diagnosis, and the
    counts are in non-increasing order. *)
Theorem reducers_on_plain_keys (getTime : string -> Z)
    (format : Z -> string -> string) (today : Z)
    (patients : list Patient.t)
    (medications : list Medication.t) (labResults : list LabResult.t)
    (discharges : list Discharge.t) (vitals : list Vital.t) :
  Spec.plainKeys (map Patient.status patients) = true ->
  Spec.plainKeys (map Patient.diagnosis patients) = true ->
  Spec.plainKeys (map Patient.mrn patients) = true ->
  let buckets :=
    Activities.patientStatusDistribution
      (computedActivities getTime format today patients medications
         labResults discharges vitals) in
  let statuses := map Patient.status patients in
  let diagnoses := map Patient.diagnosis patients in
  let mrns := map Patient.mrn patients in
  (exists values : list nat,
     map NameValue.value buckets
     = map (fun n => JS.Num (JS.of_nat n)) values
     /\ list_sum values = List.length patients)
  /\ (forall b, In b buckets ->
        NameValue.value b
        = JS.of_nat (Spec.occurrences (NameValue.name b) statuses))
  /\ readmissionRate patients
     = JS.Finite
         (Spec.ratio
            (List.length
               (filter (fun m => 1 <? Spec.occurrences m mrns)
                  (Spec.distinct mrns)))
            (List.length patients))
  /\ List.length (sortedDiagnoses patients)
     = Nat.min 5 (List.length (Spec.distinct diagnoses))
  /\ (forall e, In e (sortedDiagnoses patients) ->
        NameCount.count e
        = JS.of_nat (Spec.occurrences (NameCount.name e) diagnoses))
  /\ exists counts,
       map NameCount.count (sortedDiagnoses patients)
       = map (fun n => JS.Num (JS.of_nat n)) counts
       /\ Spec.nonIncreasing counts.
Proof.
  intros PS PD PM buckets statuses diagnoses mrns.
  destruct (status_buckets_plain getTime format today patients medications
              labResults discharges vitals PS)
    as [_ [_ [B _]]].
  destruct (readmissionRate_plain patients PM) as [R _].
  destruct (commonDiagnoses_plain patients PD)
    as [ranked [P [_ [E [L C]]]]].
  split; [|split; [exact B|split; [exact R|split; [exact L|split]]]].
  - set (own := Spec.talliesOwn statuses).
    exists (map snd (Obj.entries own)). split.
    + unfold buckets. rewrite buckets_plain by exact PS.
      rewrite !map_map. reflexivity.
    + rewrite (Permutation_list_sum
                 (Permutation_map snd (ObjFacts.entries_perm own))).
      unfold own, Spec.talliesOwn.
      rewrite TallyFacts.list_sum_fold. simpl list_sum.
      unfold statuses. now rewrite length_map.
  - intros e He. rewrite E in He. apply in_map_iff in He.
    destruct He as [[k c] [<- I]].
    cbn [NameCount.count NameCount.name fst snd].
    assert (G : In (k, c) ranked).
    { rewrite <- (firstn_skipn 5 ranked). apply in_or_app. now left. }
    apply (Permutation_in _ P), TallyFacts.In_groups in G.
    now destruct G as [-> _].
  - exact C.
Qed.

(** The sample ward has seven admissions in three buckets and no
    repeated MRN. *)
Lemma reducers_on_plain_keys_witness :
  readmissionRate Derived.ward = JS.Finite (Spec.ratio 0 7).
Proof.
  exact (proj1 (proj2 (proj2
           (reducers_on_plain_keys Sample.getTime Sample.format 0%Z
              Derived.ward [] [] [] [] eq_refl eq_refl eq_refl)))).
Defined.

(* ================================================================== *)
(** * The exported document *)

Lemma count_below (n : nat) : n < 2 ^ 32 -> Spec.isCount (JS.of_nat n) n.
Proof.
  intros H. split; [apply JSFacts.eqv_refl|].
  assert (Pow : (Z.of_nat (2 ^ 32) = 4294967296)%Z)
    by (rewrite Nat2Z.inj_pow; reflexivity).
  lia.
Qed.

Section ExportedReport.
Variable getTime : string -> Z.
Variable format : Z -> string -> string.
Variable toStringOther : Q -> string.
Variable tableEnd :
  Pdf.Doc -> JS.number -> list (list string) -> list (list string)
  -> JS.number.

Lemma value_rows (entries : list NameValue.t) :
  (forall e, In e entries ->
     exists n, NameValue.value e = JS.of_nat n /\ n < 2 ^ 32) ->
  Forall2
    (fun row e =>
       Derived.countRow row (NameValue.name e) (NameValue.value e))
    (map (fun e => [ NameValue.name e;
                     Value_toString toStringOther (NameValue.value e) ])
       entries)
    entries.
Proof.
  induction entries as [|e entries IH]; intros H; simpl; constructor.
  - destruct (H e (or_introl eq_refl)) as [n [E B]].
    exists (Value_toString toStringOther (NameValue.value e)), n.
    split; [reflexivity|]. split; [exact E|].
    unfold Spec.rendersCount. rewrite E. cbn [Value_toString].
    rewrite (toString_count toStringOther _ _ (count_below n B)).
    apply NumeralFacts.readCount_decimal.
  - apply IH. intros x Hx. apply H. now right.
Qed.

Lemma count_rows (entries : list NameCount.t) :
  (forall e, In e entries ->
     exists n, NameCount.count e = JS.of_nat n /\ n < 2 ^ 32) ->
  Forall2
    (fun row e =>
       Derived.countRow row (NameCount.name e) (NameCount.count e))
    (map (fun e => [ NameCount.name e;
                     Value_toString toStringOther (NameCount.count e) ])
       entries)
    entries.
Proof.
  induction entries as [|e entries IH]; intros H; simpl; constructor.
  - destruct (H e (or_introl eq_refl)) as [n [E B]].
    exists (Value_toString toStringOther (NameCount.count e)), n.
    split; [reflexivity|]. split; [exact E|].
    unfold Spec.rendersCount. rewrite E. cbn [Value_toString].
    rewrite (toString_count toStringOther _ _ (count_below n B)).
    apply NumeralFacts.readCount_decimal.
  - apply IH. intros x Hx. apply H. now right.
Qed.

Lemma status_values (keys : list string) (e : string * nat) :
  In e (Obj.entries (Spec.talliesOwn keys)) ->
  snd e <= List.length keys.
Proof.
  intros I.
  apply (Permutation_in _ (ObjFacts.entries_perm _)) in I.
  destruct e as [k v].
  apply (TallyFacts.tallied_own keys) in I. destruct I as [-> _].
  apply occurrences_le_length.
Qed.

Lemma diagnosis_values (keys : list string) (e : string * nat) :
  In e (firstn 5
          (Array.sort Spec.byCountOwn (Obj.entries (Spec.talliesOwn keys)))) ->
  snd e <= List.length keys.
Proof.
  intros I.
  assert (I' : In e (Array.sort Spec.byCountOwn
                       (Obj.entries (Spec.talliesOwn keys)))).
  { rewrite <- (firstn_skipn 5 (Array.sort _ _)).
    apply in_or_app. now left. }
  apply (Permutation_in _ (SortFacts.sort_perm _ _)) in I'.
  now apply status_values.
Qed.

(** The document of a report computed from collections of fewer than
    [2^32] records, no status and no diagnosis being the name of a
    property of [Object.prototype].  It holds five tables under their
    titles, and [generatePDF] itself breaks the page once, between the
    third and the fourth: the Key Metrics table, then one row per
    status, four rows of daily activities, five rows of procedures and
    at most five rows of diagnoses.  Every row of the last four shows
    the name of its entry and the decimal numeral of its count, which
    reads back as the count. *)
Theorem exported_tables (today now : Z) (range : Pdf.DateRange)
    (patients : list Patient.t) (medications : list Medication.t)
    (labResults : list LabResult.t) (discharges : list Discharge.t)
    (vitals : list Vital.t) :
  List.length patients < 2 ^ 32 ->
  List.length medications < 2 ^ 32 ->
  List.length labResults < 2 ^ 32 ->
  List.length discharges < 2 ^ 32 ->
  List.length vitals < 2 ^ 32 ->
  Spec.plainKeys (map Patient.status patients) = true ->
  Spec.plainKeys (map Patient.diagnosis patients) = true ->
  let report :=
    computedActivities getTime format today patients medications
      labResults discharges vitals in
  let data :=
    {| Pdf.metrics :=
         computedMetrics getTime patients medications labResults discharges;
       Pdf.activities := report;
       Pdf.dateRange := range |} in
  let doc := generatePDF toStringOther format tableEnd data now in
  exists statusRows activityRows procedureRows diagnosisRows,
    Derived.tables doc
    = [ (Some "Key Metrics", [["Metric"; "Value"]],
         metricsData toStringOther (Pdf.metrics data));
        (Some "Patient Status Distribution", [["Status"; "Count"]],
         statusRows);
        (Some "Daily Activities", [["Activity"; "Count"]], activityRows);
        (Some "Top Procedures", [["Procedure"; "Count"]], procedureRows);
        (Some "Common Diagnoses", [["Diagnosis"; "Count"]],
         diagnosisRows) ]
    /\ Derived.breaksBefore 0 (Pdf.ops doc) = [0; 0; 0; 1; 1]
    /\ Forall2
         (fun row e =>
            Derived.countRow row (NameValue.name e) (NameValue.value e))
         statusRows (Activities.patientStatusDistribution report)
    /\ List.length statusRows
       = List.length (Spec.distinct (map Patient.status patients))
    /\ Forall2
         (fun row e =>
            Derived.countRow row (NameValue.name e) (NameValue.value e))
         activityRows (Activities.dailyActivities report)
    /\ List.length activityRows = 4
    /\ Forall2
         (fun row e =>
            Derived.countRow row (NameCount.name e) (NameCount.count e))
         procedureRows (Activities.topProcedures report)
    /\ List.length procedureRows = 5
    /\ Forall2
         (fun row e =>
            Derived.countRow row (NameCount.name e) (NameCount.count e))
         diagnosisRows (Activities.commonDiagnoses report)
    /\ List.length diagnosisRows <= 5.
Proof.
  intros Bp Bm Bl Bd Bv Ps Pd report data doc.
  exists (statusData toStringOther data), (activitiesData toStringOther data),
         (proceduresData toStringOther data),
         (diagnosesData toStringOther data).
  split; [reflexivity|]. split; [reflexivity|].
  assert (Le : forall n m, n <= m -> m < 2 ^ 32 -> n < 2 ^ 32)
    by (intros n m H1 H2; exact (Nat.le_lt_trans _ _ _ H1 H2)).
  pose proof (buckets_plain getTime format today patients medications
                labResults discharges vitals Ps) as Eb.
  fold report in Eb.
  pose proof (sortedDiagnoses_plain patients Pd) as Ed.
  split; [|split; [|split; [|split; [|split; [|split; [|split]]]]]].
  - apply value_rows. intros e He. rewrite Eb in He.
    apply in_map_iff in He. destruct He as [[k v] [<- I]].
    exists v. split; [reflexivity|].
    apply status_values in I. rewrite length_map in I.
    exact (Le _ _ I Bp).
  - unfold statusData. rewrite length_map.
    change (Activities.patientStatusDistribution (Pdf.activities data))
      with (Activities.patientStatusDistribution report).
    rewrite Eb, length_map.
    rewrite (Permutation_length (ObjFacts.entries_perm _)).
    rewrite (Permutation_length
               (TallyFacts.tallied_groups _ _ (TallyFacts.tallied_own _))).
    unfold Spec.groups. now rewrite length_map.
  - apply value_rows. intros e He. unfold report in He.
    cbn [computedActivities activitiesOf Activities.dailyActivities] in He.
    destruct He as [<-|[<-|[<-|[<-|[]]]]]; eexists;
      (split; [reflexivity|]);
      (eapply Le; [apply filter_length_le|]); assumption.
  - reflexivity.
  - apply count_rows. intros e He. unfold report in He.
    cbn [computedActivities activitiesOf Activities.topProcedures] in He.
    destruct He as [<-|[<-|[<-|[<-|[<-|[]]]]]]; eexists;
      (split; [reflexivity|]); assumption.
  - reflexivity.
  - apply count_rows. intros e He. unfold report in He.
    cbn [computedActivities activitiesOf Activities.commonDiagnoses] in He.
    rewrite Ed in He.
    apply in_map_iff in He. destruct He as [[k v] [<- I]].
    exists v. split; [reflexivity|].
    apply diagnosis_values in I. rewrite length_map in I.
    exact (Le _ _ I Bp).
  - unfold diagnosesData. rewrite length_map. unfold data, report.
    cbn [Pdf.activities computedActivities activitiesOf
         Activities.commonDiagnoses].
    unfold sortedDiagnoses, Array.slice0. rewrite length_map.
    apply firstn_le_length.
Qed.

End ExportedReport.

(** The document of the sample ward: [generatePDF] breaks the page once,
    after the third of its five tables. *)
Lemma exported_tables_witness :
  Derived.breaksBefore 0
    (Pdf.ops
       (generatePDF Sample.toStringOther Sample.format
          (fun _ y _ _ => y)
          {| Pdf.metrics :=
               computedMetrics Sample.getTime Derived.ward [] [] [];
             Pdf.activities :=
               computedActivities Sample.getTime Sample.format 0
                 Derived.ward [] [] [] [];
             Pdf.dateRange := Pdf.mkRange 0 0 |}
          0))
  = [0; 0; 0; 1; 1].
Proof.
  assert (Small : forall n : nat, n <= 7 -> n < 2 ^ 32).
  { intros n H. apply (Nat.le_lt_trans _ _ _ H).
    apply (Nat.lt_le_trans _ (2 ^ 3)); [simpl; lia|].
    apply Nat.pow_le_mono_r; lia. }
  destruct (exported_tables Sample.getTime Sample.format
              Sample.toStringOther (fun _ y _ _ => y) 0%Z 0%Z
              (Pdf.mkRange 0 0) Derived.ward [] [] [] []
              (Small 7 (le_n 7)) (Small 0 (Nat.le_0_l 7))
              (Small 0 (Nat.le_0_l 7)) (Small 0 (Nat.le_0_l 7))
              (Small 0 (Nat.le_0_l 7)) eq_refl eq_refl)
    as [r1 [r2 [r3 [r4 [_ [P _]]]]]].
  exact P.
Defined.

(* ================================================================== *)
(** * The discharge forms *)

Module StrFacts.

Lemma trimStart_blank (s : string) :
  Str.blank s = true -> Str.trimStart s = "".
Proof.
  induction s as [|c s IH]; simpl; [reflexivity|].
  destruct (Str.isWhiteSpace c); [exact IH|discriminate].
Qed.

Lemma trimEnd_empty (s : string) :
  Str.trimEnd s = "" <-> Str.blank s = true.
Proof.
  induction s as [|c s IH]; simpl; [tauto|].
  destruct (Str.trimEnd s) eqn:E.
  - destruct (Str.isWhiteSpace c); simpl.
    + split; intros _; [now apply IH|reflexivity].
    + split; discriminate.
  - split; [discriminate|].
    intros H. apply andb_true_iff in H. destruct H as [_ H].
    apply IH in H. discriminate.
Qed.

Lemma trimStart_head (s : string) :
  Str.blank s = false ->
  exists c rest,
    Str.trimStart s = String c rest /\ Str.isWhiteSpace c = false.
Proof.
  induction s as [|c s IH]; simpl; [discriminate|].
  destruct (Str.isWhiteSpace c) eqn:W; simpl; [exact IH|].
  intros _. now exists c, s.
Qed.

(** A string trims to nothing exactly when it is blank. *)
Lemma trim_empty (s : string) : Str.trim s = "" <-> Str.blank s = true.
Proof.
  unfold Str.trim. destruct (Str.blank s) eqn:B.
  - rewrite (trimStart_blank s B). simpl. tauto.
  - split; [|discriminate]. intros E.
    destruct (trimStart_head s B) as [c [rest [Es W]]].
    rewrite Es in E. apply trimEnd_empty in E. simpl in E.
    rewrite W in E. discriminate.
Qed.

Lemma truthy_trim (s : string) :
  Str.truthy (Str.trim s) = negb (Str.blank s).
Proof.
  unfold Str.truthy. destruct (Str.blank s) eqn:B.
  - apply trim_empty in B. now rewrite B.
  - destruct (String.eqb_spec (Str.trim s) "") as [E|_]; [|reflexivity].
    apply trim_empty in E. congruence.
Qed.

End StrFacts.

Module TwoFacts.

Import DischargeSubmitTwo.

Lemma validateForm_valid (formData : FormData) (s : Ui.State) :
  Derived.validTwo formData = true ->
  validateForm formData s = (Normal true, s).
Proof.
  unfold Derived.validTwo, validateForm.
  rewrite !andb_true_iff, <- !StrFacts.truthy_trim.
  intros [[-> ->] ->]. reflexivity.
Qed.

Lemma validateForm_invalid (formData : FormData) (s : Ui.State) :
  Derived.validTwo formData = false ->
  exists msg,
    validateForm formData s
    = (Normal false,
       {| Ui.loading := Ui.loading s;
          Ui.events := (Ui.events s ++ [Ui.ToastError msg])%list;
          Ui.ticks := Ui.ticks s |})
    /\ Derived.firstFailing (Derived.checksTwo formData) = Some msg.
Proof.
  unfold Derived.validTwo, validateForm, Derived.checksTwo.
  cbn [Derived.firstFailing].
  rewrite <- !StrFacts.truthy_trim. intros H.
  destruct (Str.truthy (DischargeFormFields.discharge_date formData)).
  - destruct (Str.truthy
                (Str.trim (DischargeFormFields.discharge_diagnosis formData))).
    + destruct (Str.truthy
                  (Str.trim (DischargeFormFields.discharge_summary formData)));
        [discriminate|].
      eexists. split; reflexivity.
    + eexists. split; reflexivity.
  - eexists. split; reflexivity.
Qed.

End TwoFacts.

(** An incomplete form with two conditions is stopped at the door: one
    error toast with the message of the first check that fails (date,
    diagnosis, summary, in this order), no request is sent and loading
    is not touched. *)
Theorem two_incomplete_form_stops (patient : Patient.t)
    (formData : DischargeSubmitTwo.FormData) (env : DischargeSubmitTwo.Env)
    (s : Ui.State) :
  Derived.validTwo formData = false ->
  exists msg,
    DischargeSubmitTwo.handleSubmit patient formData env s
    = (Normal tt,
       {| Ui.loading := Ui.loading s;
          Ui.events := (Ui.events s ++ [Ui.ToastError msg])%list;
          Ui.ticks := Ui.ticks s |})
    /\ Derived.firstFailing (Derived.checksTwo formData) = Some msg.
Proof.
  intros H.
  destruct (TwoFacts.validateForm_invalid formData s H) as [msg [E I]].
  exists msg. split; [|exact I].
  unfold DischargeSubmitTwo.handleSubmit, Ui.bind at 1. now rewrite E.
Qed.

(** A complete form with a stored user, two conditions.  The writes go
    out in the order discharge row, patient status, medications,
    notification, and stop after the first of the first two that fails;
    a failure of the medications update stops nothing.  Nothing is taken
    back: when the status update fails, the discharge row has been sent
    and stays.  The success is announced exactly when the first two
    writes succeed.  The handler ends normally with loading cleared. *)
Theorem two_writes_in_order (patient : Patient.t)
    (formData : DischargeSubmitTwo.FormData) (env : DischargeSubmitTwo.Env)
    (user_id : string) (s : Ui.State) :
  Derived.validTwo formData = true ->
  DischargeSubmitTwo.stored env = Ui.User user_id ->
  exists added ticks,
    DischargeSubmitTwo.handleSubmit patient formData env s
    = (Normal tt,
       {| Ui.loading := false;
          Ui.events := (Ui.events s ++ added)%list;
          Ui.ticks := ticks |})
    /\ Ui.requests added
       = firstn (Derived.sentTwo env)
           (Derived.requestsTwo patient formData user_id
              (DischargeSubmitTwo.clock env) (Ui.ticks s))
    /\ (Derived.announced added <-> Derived.sentTwo env = 4)
    /\ (Derived.sentTwo env <> 4 ->
        In (Ui.ToastError "Failed to discharge patient. Please try again.")
           added).
Proof.
  intros V U.
  unfold DischargeSubmitTwo.handleSubmit, Ui.bind at 1.
  rewrite (TwoFacts.validateForm_valid formData s V). cbn [negb].
  destruct env as [st clock de ue me]. cbn in U. subst st.
  unfold Derived.sentTwo, Derived.requestsTwo, Derived.announced.
  cbn [DischargeSubmitTwo.dischargeError DischargeSubmitTwo.updateError
       DischargeSubmitTwo.clock].
  destruct de as [e1|]; [|destruct ue as [e2|]; [|destruct me as [e3|]]];
    eexists; eexists;
    (split;
     [unfold Ui.bind, Ui.tryCatchFinally, Ui.setLoading, Ui.emit, Ui.nowISO,
        Ui.throw, Ui.ret;
      cbn; rewrite <- ?app_assoc; cbn [app]; reflexivity|]);
    (split; [reflexivity|]);
    (split; [|cbn; intuition congruence]);
    cbn; intuition (try discriminate; try congruence).
Qed.

(** The form with four conditions writes in the other order: the
    patient is marked Discharged first, then the discharge row is
    inserted, then the notification.  The writes stop after the first
    that fails and nothing is taken back: when the insert fails, the
    patient has been marked and no discharge row exists.  The success is
    announced exactly when both writes succeed; the handler ends
    normally with loading cleared. *)
Theorem four_writes_in_order (patient : Patient.t)
    (formData : DischargeSubmitFour.FormData)
    (env : DischargeSubmitFour.Env) (user_id : string) (s : Ui.State) :
  DischargeSubmitFour.stored env = Ui.User user_id ->
  exists added ticks,
    DischargeSubmitFour.handleSubmit patient formData env s
    = (Normal tt,
       {| Ui.loading := false;
          Ui.events := (Ui.events s ++ added)%list;
          Ui.ticks := ticks |})
    /\ Ui.requests added
       = firstn (Derived.sentFour env)
           (Derived.requestsFour patient formData user_id
              (DischargeSubmitFour.clock env) (Ui.ticks s))
    /\ (Derived.announced added <-> Derived.sentFour env = 3)
    /\ (Derived.sentFour env <> 3 ->
        In (Ui.ToastError "Failed to discharge patient") added).
Proof.
  intros U.
  unfold DischargeSubmitFour.handleSubmit.
  destruct env as [st clock ue de]. cbn in U. subst st.
  unfold Derived.sentFour, Derived.requestsFour, Derived.announced.
  cbn [DischargeSubmitFour.dischargeError DischargeSubmitFour.updateError
       DischargeSubmitFour.clock].
  destruct ue as [e1|]; [|destruct de as [e2|]];
    eexists; eexists;
    (split;
     [unfold Ui.bind, Ui.tryCatchFinally, Ui.setLoading, Ui.emit, Ui.nowISO,
        Ui.throw, Ui.ret;
      cbn; rewrite <- ?app_assoc; cbn [app]; reflexivity|]);
    (split; [reflexivity|]);
    (split; [|cbn; intuition congruence]);
    cbn; intuition (try discriminate; try congruence).
Qed.

(** Without a stored user object the form with two conditions sends no
    request.  The form with four conditions sends none when there is no
    item or when the item does not parse; but when the item parses to
    [null], it has marked the patient Discharged before [user.id]
    fails: that update is its one request, no discharge row is
    written, and the failure toast is shown.  Both forms end normally
    with loading cleared; with no item they ask to log in again and go
    to the login page. *)
Theorem requests_without_user (patient : Patient.t)
    (two : DischargeSubmitTwo.FormData) (four : DischargeSubmitFour.FormData)
    (envTwo : DischargeSubmitTwo.Env) (envFour : DischargeSubmitFour.Env)
    (s : Ui.State) :
  Derived.validTwo two = true ->
  (forall user_id, DischargeSubmitTwo.stored envTwo <> Ui.User user_id) ->
  (forall user_id, DischargeSubmitFour.stored envFour <> Ui.User user_id) ->
  exists added2 added4 ticks4,
    DischargeSubmitTwo.handleSubmit patient two envTwo s
    = (Normal tt,
       {| Ui.loading := false;
          Ui.events := (Ui.events s ++ added2)%list;
          Ui.ticks := Ui.ticks s |})
    /\ DischargeSubmitFour.handleSubmit patient four envFour s
       = (Normal tt,
          {| Ui.loading := false;
             Ui.events := (Ui.events s ++ added4)%list;
             Ui.ticks := ticks4 |})
    /\ Ui.requests added2 = []
    /\ Ui.requests added4
       = match DischargeSubmitFour.stored envFour with
         | Ui.Null =>
             [ Ui.MarkDischarged (Patient.id patient)
                 (DischargeSubmitFour.clock envFour (Ui.ticks s)) ]
         | _ => []
         end
    /\ (DischargeSubmitFour.stored envFour = Ui.Null ->
        Derived.toasts added4
        = [Ui.ToastError "Failed to discharge patient"])
    /\ (DischargeSubmitTwo.stored envTwo = Ui.NoItem ->
        added2 = [ Ui.ToastError "Please log in again";
                   Ui.Navigate "/login" ])
    /\ (DischargeSubmitFour.stored envFour = Ui.NoItem ->
        added4 = [ Ui.ToastError "Please log in again";
                   Ui.Navigate "/login" ]).
Proof.
  intros V N2 N4.
  unfold DischargeSubmitTwo.handleSubmit, Ui.bind at 1.
  rewrite (TwoFacts.validateForm_valid two s V). cbn [negb].
  unfold DischargeSubmitFour.handleSubmit.
  destruct envTwo as [st2 c2 a2 b2 m2], envFour as [st4 c4 a4 b4].
  cbn in N2, N4 |- *.
  destruct st2 as [|err2| |u2]; [| | |now destruct (N2 u2)];
    (destruct st4 as [|err4| |u4];
     [| |destruct a4 as [e4|]|now destruct (N4 u4)]);
    eexists; eexists; eexists;
    (split; [run_handler|]); (split; [run_handler|]);
    (split; [reflexivity|]); (split; [reflexivity|]);
    (split; [intros; try discriminate; reflexivity|]);
    split; intros; (reflexivity || discriminate).
Qed.

(** A discharge whose status update fails, two conditions: the discharge
    row and the status update were sent, nothing else. *)
Lemma two_writes_in_order_witness :
  Ui.requests
    (Ui.events
       (snd (DischargeSubmitTwo.handleSubmit Derived.somePatient
               Derived.filledTwo Derived.updateFailsTwo Ui.idle)))
  = [ Ui.InsertDischarge
        (DischargeFormTwo.dischargeRow Derived.somePatient Derived.filledTwo
           "u1" "0");
      Ui.MarkDischarged "p1" "1" ].
Proof.
  destruct (two_writes_in_order Derived.somePatient Derived.filledTwo
              Derived.updateFailsTwo "u1" Ui.idle eq_refl eq_refl)
    as [added [ticks [E [R _]]]].
  rewrite E. exact R.
Defined.

(** A discharge whose insert fails, four conditions: the patient was
    marked, the row was sent and refused, no notification. *)
Lemma four_writes_in_order_witness :
  Ui.requests
    (Ui.events
       (snd (DischargeSubmitFour.handleSubmit Derived.somePatient
               Derived.filledFour Derived.insertFailsFour Ui.idle)))
  = [ Ui.MarkDischarged "p1" "0";
      Ui.InsertDischarge
        (DischargeFormFour.dischargeRow Derived.somePatient
           Derived.filledFour "u1" "1") ].
Proof.
  destruct (four_writes_in_order Derived.somePatient Derived.filledFour
              Derived.insertFailsFour "u1" Ui.idle eq_refl)
    as [added [ticks [E [R _]]]].
  rewrite E. exact R.
Defined.

(** A form without a summary. *)
Lemma two_incomplete_form_stops_witness :
  Ui.events
    (snd (DischargeSubmitTwo.handleSubmit Derived.somePatient
            (DischargeFormFields.mk "2024-03-03" "Sepsis" "  " "" ""
               DischargeFormTwo.Improved)
            Derived.updateFailsTwo Ui.idle))
  = [ Ui.ToastError "Discharge summary is required" ].
Proof.
  destruct (two_incomplete_form_stops Derived.somePatient
              (DischargeFormFields.mk "2024-03-03" "Sepsis" "  " "" ""
                 DischargeFormTwo.Improved)
              Derived.updateFailsTwo Ui.idle eq_refl)
    as [msg [E F]].
  rewrite E. cbn in F. injection F as <-. reflexivity.
Defined.

(** The form with four conditions over a stored [null]: the patient is
    marked Discharged and nothing else is sent. *)
Lemma requests_without_user_witness :
  Ui.requests
    (Ui.events
       (snd (DischargeSubmitFour.handleSubmit Derived.somePatient
               Derived.filledFour
               (DischargeSubmitFour.mkEnv Ui.Null Derived.tick None None)
               Ui.idle)))
  = [ Ui.MarkDischarged "p1" "0" ].
Proof.
  destruct (requests_without_user Derived.somePatient Derived.filledTwo
              Derived.filledFour
              (DischargeSubmitTwo.mkEnv Ui.NoItem Derived.tick None None None)
              (DischargeSubmitFour.mkEnv Ui.Null Derived.tick None None)
              Ui.idle eq_refl)
    as [a2 [a4 [t4 [_ [E4 [_ [R4 _]]]]]]];
    try (intros u; discriminate).
  rewrite E4. exact R4.
Defined.

(** ** The forms and the mortality rate *)

(** Of the discharges submitted through the two forms, the report counts
    as deaths exactly those of the form with four conditions that
    record a death: a death recorded through the form with two
    conditions is never counted. *)
Theorem deaths_counted_by_form (submitted : list Derived.Submitted) :
  deceasedDischarges (map Derived.rowOf submitted)
  = List.length
      (filter (fun w => Derived.recordsDeath w && Derived.throughFour w)
         submitted).
Proof.
  unfold deceasedDischarges.
  induction submitted as [|w l IH]; [reflexivity|].
  cbn [map filter].
  destruct w as [p f u n|p f u n];
    destruct f as [d1 d2 d3 d4 d5 c]; destruct c; cbn; now rewrite IH.
Qed.

(* ================================================================== *)
(** * The patient page *)

Module PageFacts.

Import PatientDetails.

Lemma act_keeps_flag (v : View) (a : Action) :
  (activeTab v = discharge -> showDischargeForm v = true) ->
  activeTab (act v a) = discharge -> showDischargeForm (act v a) = true.
Proof.
  intros I. destruct a as [| b | | n]; simpl.
  - destruct (dischargeButtonShown v); [reflexivity|exact I].
  - destruct b; discriminate.
  - discriminate.
  - exact I.
Qed.

Lemma fold_keeps_flag (actions : list Action) :
  forall v,
    (activeTab v = discharge -> showDischargeForm v = true) ->
    activeTab (fold_left act actions v) = discharge ->
    showDischargeForm (fold_left act actions v) = true.
Proof.
  induction actions as [|a l IH]; intros v I; simpl; [exact I|].
  apply IH. now apply act_keeps_flag.
Qed.

Lemma fold_keeps_discharged (actions : list Action) :
  forall v,
    status v = "Discharged" ->
    dischargeFormShown v = false ->
    forallb (fun a => negb (changesStatus a)) actions = true ->
    status (fold_left act actions v) = "Discharged"
    /\ dischargeFormShown (fold_left act actions v) = false.
Proof.
  induction actions as [|a l IH]; intros v S F H; simpl; [now split|].
  simpl in H. apply andb_true_iff in H. destruct H as [Ha Hl].
  apply IH; [| |exact Hl]; destruct a as [| b | | n]; simpl;
    try discriminate Ha; unfold dischargeButtonShown;
    try (rewrite S; simpl); try assumption; try reflexivity.
  now destruct b.
Qed.

End PageFacts.

(** Whatever is done on the page, the discharge tab is never active
    without the discharge form: the form is on screen exactly when the
    discharge tab is active. *)
Theorem discharge_tab_shows_form (status : string)
    (actions : list PatientDetails.Action) :
  let v := PatientDetails.after status actions in
  PatientDetails.dischargeFormShown v = true
  <-> PatientDetails.activeTab v = PatientDetails.discharge.
Proof.
  intros v. unfold PatientDetails.dischargeFormShown.
  pose proof (PageFacts.fold_keeps_flag actions
                (PatientDetails.loaded status)) as K.
  fold (PatientDetails.after status actions) in K. fold v in K.
  destruct (PatientDetails.activeTab v) eqn:T;
    try (split; discriminate).
  split; [reflexivity|]. intros _. apply K; [discriminate|reflexivity].
Qed.

(** For a patient loaded as Discharged, and as long as the status is not
    changed, the discharge form never comes on screen. *)
Theorem discharged_patient_keeps_form_hidden
    (actions : list PatientDetails.Action) :
  forallb (fun a => negb (PatientDetails.changesStatus a)) actions = true ->
  PatientDetails.dischargeFormShown
    (PatientDetails.after "Discharged" actions) = false
  /\ PatientDetails.status (PatientDetails.after "Discharged" actions)
     = "Discharged".
Proof.
  intros H.
  destruct (PageFacts.fold_keeps_discharged actions
              (PatientDetails.loaded "Discharged") eq_refl eq_refl H)
    as [S F].
  now split.
Qed.

(** Clicks on a discharged patient's page. *)
Lemma discharged_patient_keeps_form_hidden_witness :
  PatientDetails.dischargeFormShown
    (PatientDetails.after "Discharged"
       [ PatientDetails.ClickDischarge;
         PatientDetails.ClickTab PatientDetails.LabsTab;
         PatientDetails.FormCompleted;
         PatientDetails.ClickDischarge ])
  = false.
Proof.
  apply (discharged_patient_keeps_form_hidden
           [ PatientDetails.ClickDischarge;
             PatientDetails.ClickTab PatientDetails.LabsTab;
             PatientDetails.FormCompleted;
             PatientDetails.ClickDischarge ]).
  reflexivity.
Defined.

(* ================================================================== *)
(** * Computed reports are well formed *)

(** Every metric of a computed report is a finite number: no division
    yields [NaN] or an infinity, whatever the collections. *)
Theorem computedMetrics_populated (getTime : string -> Z)
    (patients : list Patient.t) (medications : list Medication.t)
    (labResults : list LabResult.t) (discharges : list Discharge.t) :
  Spec.populated
    (computedMetrics getTime patients medications labResults discharges)
  = true.
Proof.
  unfold Spec.populated, computedMetrics.
  cbn [Metrics.totalPatients Metrics.criticalCases Metrics.medicationsGiven
       Metrics.labTests Metrics.averageStayDuration Metrics.bedOccupancyRate
       Metrics.readmissionRate Metrics.mortalityRate].
  rewrite (averageStayDuration_value getTime), readmissionRate_ratio,
    mortalityRate_ratio.
  unfold bedOccupancyRate. rewrite JSFacts.div_of_nat by discriminate.
  reflexivity.
Qed.

(** The Key Metrics table of the sample ward, all timestamps being the
    epoch. *)
Lemma computed_report_table_witness :
  exists stay occupancy readmission mortality,
    Metrics.averageStayDuration
      (computedMetrics (fun _ => 0%Z) Derived.ward [] [] [])
    = JS.Finite stay
    /\ Metrics.bedOccupancyRate
         (computedMetrics (fun _ => 0%Z) Derived.ward [] [] [])
       = JS.Finite occupancy
    /\ Metrics.readmissionRate
         (computedMetrics (fun _ => 0%Z) Derived.ward [] [] [])
       = JS.Finite readmission
    /\ Metrics.mortalityRate
         (computedMetrics (fun _ => 0%Z) Derived.ward [] [] [])
       = JS.Finite mortality
    /\ (0 <= readmission <= 1)%Q /\ (0 <= mortality <= 1)%Q.
Proof.
  assert (Small : forall n : nat, n <= 7 -> n < 2 ^ 32).
  { intros n H. apply (Nat.le_lt_trans _ _ _ H).
    apply (Nat.lt_le_trans _ (2 ^ 3)); [simpl; lia|].
    apply Nat.pow_le_mono_r; lia. }
  destruct (computed_report_table (fun _ => 0%Z) Sample.toStringOther
              (fun _ => ltac:(simpl; lia)) Derived.ward [] [] [])
    as [stay [occ [re [mo [E1 [E2 [E3 [E4 [R1 [R2 _]]]]]]]]]];
    try (apply Small; simpl; lia).
  exists stay, occ, re, mo. repeat split; assumption || apply R1 || apply R2.
Defined.

(* ================================================================== *)
(** * The admission form *)

Module NumFacts.

Import Numeral.

Lemma lt_of_Z (a b : Z) : Num.lt (JS.of_Z a) (JS.of_Z b) = (a <? b)%Z.
Proof.
  unfold Num.lt, JS.of_Z, Qcompare, Z.ltb. cbn [Qnum Qden inject_Z].
  now rewrite !Z.mul_1_r.
Qed.

Lemma digitValue_digit (d : N) :
  (d < 10)%N -> Num.digitValue 10 (digit_char d) = Some d.
Proof.
  intros H. unfold Num.digitValue. cbv zeta.
  rewrite NumeralFacts.N_of_digit_char by assumption.
  replace (48 <=? 48 + d)%N with true by (symmetry; apply N.leb_le; lia).
  replace (48 + d <=? 57)%N with true by (symmetry; apply N.leb_le; lia).
  cbn [andb].
  replace (48 + d - 48)%N with d by lia.
  replace (d <? 10)%N with true by (symmetry; apply N.ltb_lt; lia).
  reflexivity.
Qed.

Lemma digitsValue_digits (a : string) :
  Spec.allDigits a ->
  forall acc tail,
    exists v,
      Obj.read_digits a acc = Some v
      /\ Num.digitsValue 10 (a ++ tail) (Some acc)
         = Num.digitsValue 10 tail (Some v).
Proof.
  induction a as [|c a IH]; intros D acc tail.
  - exists acc. split; reflexivity.
  - destruct D as [[d [Hd ->]] D].
    cbn [Obj.read_digits append Num.digitsValue].
    rewrite NumeralFacts.digit_of_char, digitValue_digit by assumption.
    apply IH, D.
Qed.

Lemma digitsValue_end (tail : string) (acc : option N) :
  Derived.endsNumeral tail = true -> Num.digitsValue 10 tail acc = acc.
Proof.
  destruct tail as [|c tail]; [reflexivity|].
  cbn [Derived.endsNumeral Num.digitsValue].
  destruct (Num.digitValue 10 c); [discriminate|reflexivity].
Qed.

Lemma digit_not_space (d : N) :
  (d < 10)%N -> Str.isWhiteSpace (digit_char d) = false.
Proof.
  intros H. unfold Str.isWhiteSpace. cbv zeta.
  rewrite NumeralFacts.N_of_digit_char by assumption.
  repeat (apply orb_false_iff; split); apply N.eqb_neq; lia.
Qed.

(** [parseInt] reads a decimal numeral back, whatever follows it that
    is not a digit. *)
Lemma parseInt_numeral (n : N) (tail : string) :
  Derived.endsNumeral tail = true ->
  Num.parseInt (decimal n ++ tail) = Num.ofInteger n.
Proof.
  intros T.
  assert (V : Num.digitsValue 10 (decimal n ++ tail) None = Some n).
  { destruct (NumeralFacts.decimal_head n) as [d [rest [E [Hd _]]]].
    destruct (digitsValue_digits rest) with (acc := d) (tail := tail)
      as [v [R V]].
    { generalize (NumeralFacts.allDigits_decimal n). rewrite E.
      now intros [_ D]. }
    generalize (NumeralFacts.read_decimal n). rewrite E.
    cbn [Obj.read_digits append Num.digitsValue].
    rewrite NumeralFacts.digit_of_char, digitValue_digit by assumption.
    replace (10 * 0 + d)%N with d by lia.
    rewrite R, V, digitsValue_end by assumption. congruence. }
  destruct (NumeralFacts.decimal_head n) as [d [rest [E [Hd Hz]]]].
  unfold Num.parseInt. rewrite E in *. cbn [append Str.trimStart] in *.
  rewrite digit_not_space by assumption.
  rewrite !NumeralFacts.digit_char_neq
    by (assumption || (vm_compute; reflexivity)).
  rewrite NumeralFacts.digit_char_zero by assumption.
  destruct (rest ++ tail)%string as [|c1 r] eqn:RT.
  - now rewrite V.
  - destruct (N.eqb_spec d 0) as [Z|NZ]; cbn [andb]; [|now rewrite V].
    destruct (Hz Z) as [_ ->]. cbn [append] in RT. subst tail.
    cbn [Derived.endsNumeral] in T.
    destruct (Num.digitValue 10 c1); [discriminate|].
    apply negb_true_iff in T. rewrite T. now rewrite V.
Qed.

Lemma ofInteger_small (v : N) :
  (v <= 2 ^ 53)%N -> Num.ofInteger v = JS.of_Z (Z.of_N v).
Proof.
  intros H. unfold Num.ofInteger. now rewrite (proj2 (N.leb_le _ _) H).
Qed.

(** Beyond [2^53] the rounded value is an infinity or an integer of at
    least [2^52]. *)
Lemma ofInteger_large (v : N) :
  (2 ^ 53 < v)%N ->
  Num.ofInteger v = JS.Infinity false
  \/ exists m, Num.ofInteger v = JS.of_Z (Z.of_N m) /\ (2 ^ 52 <= m)%N.
Proof.
  intros H. unfold Num.ofInteger.
  rewrite (proj2 (N.leb_gt _ _) H). cbv zeta.
  set (e := (N.log2 v - 52)%N).
  set (q := N.shiftr v e).
  assert (L : (53 <= N.log2 v)%N).
  { apply N.log2_le_pow2; [|apply N.lt_le_incl; exact H].
    apply (N.lt_trans _ (2 ^ 53)); [reflexivity|exact H]. }
  assert (Q : (2 ^ 52 <= q)%N).
  { unfold q. rewrite N.shiftr_div_pow2.
    apply N.div_le_lower_bound; [apply N.pow_nonzero; discriminate|].
    rewrite <- N.pow_add_r.
    replace (e + 52)%N with (N.log2 v) by (unfold e; lia).
    apply N.log2_spec.
    apply (N.lt_trans _ (2 ^ 53)); [reflexivity|exact H]. }
  assert (P : (1 <= 2 ^ e)%N).
  { pose proof (N.pow_nonzero 2 e) as NZ.
    destruct (2 ^ e)%N; [exfalso; apply NZ; [discriminate|reflexivity]|].
    destruct p; discriminate. }
  match goal with
  | |- context [if ?c then (q + 1)%N else q] =>
      set (q' := if c then (q + 1)%N else q);
      assert (Q' : (q <= q')%N)
        by (unfold q'; destruct c; [apply N.le_add_r|apply N.le_refl])
  end.
  destruct (2 ^ 1024 <=? N.shiftl q' e)%N; [now left|right].
  exists (N.shiftl q' e). split; [reflexivity|].
  rewrite N.shiftl_mul_pow2.
  apply (N.le_trans _ q); [exact Q|].
  apply (N.le_trans _ q'); [exact Q'|].
  rewrite <- (N.mul_1_r q') at 1. now apply N.mul_le_mono_l.
Qed.

Lemma ofInteger_not_negative (v : N) :
  Num.lt (Num.ofInteger v) (JS.of_Z 0) = false.
Proof.
  destruct (N.le_gt_cases v (2 ^ 53)) as [S|L].
  - rewrite (ofInteger_small v S), lt_of_Z. apply Z.ltb_ge. lia.
  - destruct (ofInteger_large v L) as [->|[m [-> _]]]; [reflexivity|].
    rewrite lt_of_Z. apply Z.ltb_ge. lia.
Qed.

Lemma ofInteger_above (v : N) :
  Num.lt (JS.of_Z 150) (Num.ofInteger v) = (150 <? v)%N.
Proof.
  destruct (N.le_gt_cases v (2 ^ 53)) as [S|L].
  - rewrite (ofInteger_small v S), lt_of_Z.
    destruct (N.ltb_spec 150 v); [apply Z.ltb_lt|apply Z.ltb_ge]; lia.
  - assert (B : (150 < v)%N).
    { apply (N.lt_trans _ (2 ^ 53)); [reflexivity|exact L]. }
    rewrite (proj2 (N.ltb_lt _ _) B).
    destruct (ofInteger_large v L) as [->|[m [-> M]]]; [reflexivity|].
    rewrite lt_of_Z. apply Z.ltb_lt.
    assert (C : (150 < m)%N).
    { apply (N.lt_le_trans _ (2 ^ 52)); [reflexivity|exact M]. }
    lia.
Qed.

Lemma ofInteger_cases (v : N) :
  (exists z, Num.ofInteger v = JS.of_Z z)
  \/ Num.ofInteger v = JS.Infinity false.
Proof.
  destruct (N.le_gt_cases v (2 ^ 53)) as [S|L].
  - left. eexists. now apply ofInteger_small.
  - destruct (ofInteger_large v L) as [E|[m [E _]]]; [now right|].
    left. now exists (Z.of_N m).
Qed.

Lemma parseInt_cases (s : string) :
  Num.parseInt s = JS.NaN
  \/ (exists z, Num.parseInt s = JS.of_Z z)
  \/ exists negative, Num.parseInt s = JS.Infinity negative.
Proof.
  unfold Num.parseInt.
  destruct (match Str.trimStart s with
            | EmptyString => (false, Str.trimStart s)
            | String c r =>
                if Ascii.eqb c "-" then (true, r)
                else if Ascii.eqb c "+" then (false, r)
                else (false, Str.trimStart s)
            end) as [negative rest].
  destruct (match rest with
            | String c0 (String c1 r) =>
                if Ascii.eqb c0 "0" && (Ascii.eqb c1 "x" || Ascii.eqb c1 "X")
                then (16%N, r) else (10%N, rest)
            | _ => (10%N, rest)
            end) as [radix numeral].
  destruct (Num.digitsValue radix numeral None) as [v|]; [right|now left].
  destruct (ofInteger_cases v) as [[z ->]| ->].
  - left. destruct negative; [exists (- z)%Z|exists z]; reflexivity.
  - right. destruct negative; eexists; reflexivity.
Qed.

End NumFacts.

Module AdmitFacts.

Import AdmitPatientForm.

Lemma admit_validateForm_valid (formData : FormData) (s : Ui.State) :
  Derived.validAdmit formData = true ->
  validateForm formData s = (Normal true, s).
Proof.
  unfold Derived.validAdmit, validateForm.
  rewrite !andb_true_iff, <- !StrFacts.truthy_trim, !negb_true_iff.
  intros [[[[[[[-> ->] ->] ->] ->] ->] ->] ->]. reflexivity.
Qed.

Lemma admit_validateForm_invalid (formData : FormData) (s : Ui.State) :
  Derived.validAdmit formData = false ->
  exists msg,
    validateForm formData s
    = (Normal false,
       {| Ui.loading := Ui.loading s;
          Ui.events := (Ui.events s ++ [Ui.ToastError msg])%list;
          Ui.ticks := Ui.ticks s |})
    /\ Derived.firstFailing (Derived.checksAdmit formData) = Some msg.
Proof.
  unfold Derived.validAdmit, validateForm, Derived.checksAdmit.
  cbn [Derived.firstFailing].
  rewrite <- !StrFacts.truthy_trim. intros H.
  destruct (Str.truthy (Str.trim (mrn formData)));
    [|eexists; split; reflexivity].
  destruct (Str.truthy (Str.trim (name formData)));
    [|eexists; split; reflexivity].
  destruct (ageRefused (age formData));
    [eexists; split; reflexivity|].
  destruct (Str.truthy (gender formData));
    [|eexists; split; reflexivity].
  destruct (Str.truthy (Str.trim (diagnosis formData)));
    [|eexists; split; reflexivity].
  destruct (Str.truthy (Str.trim (bed_number formData)));
    [|eexists; split; reflexivity].
  destruct (Str.truthy (Str.trim (history formData)));
    [|eexists; split; reflexivity].
  destruct (Str.truthy (Str.trim (examination formData)));
    [discriminate|eexists; split; reflexivity].
Qed.

(** A submission inserts at most one patient, only from a complete
    form, and with the age that [parseInt] reads. *)
Lemma admit_inserts (formData : FormData) (env : Env) (s : Ui.State) :
  exists added loading ticks,
    handleSubmit formData env s
    = (Normal tt,
       {| Ui.loading := loading;
          Ui.events := (Ui.events s ++ added)%list;
          Ui.ticks := ticks |})
    /\ (Derived.agesInserted added = []
        \/ (Derived.validAdmit formData = true
            /\ Derived.agesInserted added
               = [Num.parseInt (age formData)])).
Proof.
  destruct (Derived.validAdmit formData) eqn:V.
  - unfold handleSubmit, Ui.bind at 1.
    rewrite (admit_validateForm_valid formData s V). cbn [negb].
    destruct env as [st clock [f1 e1] [f2 e2] ie np].
    unfold throwUnlessNoRow.
    cbn [stored AdmitPatientForm.clock existingPatient existingBed
         insertError newPatient found error].
    destruct st as [|err| |user_id];
      try (eexists; eexists; eexists;
           (split; [run_handler|left; reflexivity]));
      (destruct e1 as [[c1 x1]|]; [destruct (String.eqb c1 "PGRST116")|];
       destruct f1;
       try (eexists; eexists; eexists;
            (split; [run_handler|left; reflexivity])));
      (destruct e2 as [[c2 x2]|]; [destruct (String.eqb c2 "PGRST116")|];
       destruct f2;
       try (eexists; eexists; eexists;
            (split; [run_handler|left; reflexivity])));
      (destruct ie as [ie|]; destruct np as [id|];
       eexists; eexists; eexists;
       (split; [run_handler|right; split; reflexivity])).
  - destruct (admit_validateForm_invalid formData s V) as [msg [E _]].
    exists [Ui.ToastError msg], (Ui.loading s), (Ui.ticks s).
    split; [|now left].
    unfold handleSubmit, Ui.bind at 1. now rewrite E.
Qed.

End AdmitFacts.

(** The age check of the admission form lets an age through exactly
    when the field is not empty and [parseInt] reads from it either no
    number at all or an integer from 0 to 150. *)
Theorem age_check (age : string) :
  AdmitPatientForm.ageRefused age = false
  <-> age <> EmptyString
      /\ (Num.parseInt age = JS.NaN
          \/ exists z, Num.parseInt age = JS.of_Z z /\ (0 <= z <= 150)%Z).
Proof.
  unfold AdmitPatientForm.ageRefused, Str.truthy.
  rewrite !orb_false_iff, negb_false_iff, negb_true_iff.
  change (JS.of_nat 0) with (JS.of_Z 0).
  change (JS.of_nat 150) with (JS.of_Z 150).
  destruct (NumFacts.parseInt_cases age) as [->|[[z ->]|[negative ->]]].
  - cbn [Num.lt JS.of_Z]. split.
    + intros [[E _] _]. split; [|now left].
      now apply String.eqb_neq.
    + intros [E _]. apply String.eqb_neq in E. auto.
  - rewrite !NumFacts.lt_of_Z, !Z.ltb_ge. split.
    + intros [[E L] U]. split; [now apply String.eqb_neq|].
      right. exists z. split; [reflexivity|lia].
    + intros [E [N|[z' [Ez B]]]]; [discriminate|].
      apply String.eqb_neq in E.
      injection Ez as Ez. subst z'. repeat split; (assumption || lia).
  - cbn [Num.lt JS.of_Z]. split.
    + intros [[_ L] U]. destruct negative; discriminate.
    + intros [_ [N|[z [Ez _]]]]; discriminate.
Qed.

(** An age typed as a decimal numeral, followed by anything that does
    not start with a digit (or with the [x] of a hexadecimal prefix):
    what follows the numeral is ignored.  The age is refused exactly
    when the number exceeds 150; up to [2^53], [parseInt] reads the
    number itself; and when a submission of the form inserts a patient,
    that number is the age it stores. *)
Theorem age_numeral_prefix (n : N) (tail : string)
    (formData : AdmitPatientForm.FormData) (env : AdmitPatientForm.Env)
    (s : Ui.State) :
  Derived.endsNumeral tail = true ->
  AdmitPatientForm.age formData = (Numeral.decimal n ++ tail)%string ->
  AdmitPatientForm.ageRefused (AdmitPatientForm.age formData)
  = (150 <? n)%N
  /\ ((n <= 2 ^ 53)%N ->
      Num.parseInt (AdmitPatientForm.age formData) = JS.of_Z (Z.of_N n))
  /\ exists added loading ticks,
       AdmitPatientForm.handleSubmit formData env s
       = (Normal tt,
          {| Ui.loading := loading;
             Ui.events := (Ui.events s ++ added)%list;
             Ui.ticks := ticks |})
       /\ (Derived.agesInserted added = []
           \/ (Derived.agesInserted added = [JS.of_Z (Z.of_N n)]
               /\ (n <= 150)%N)).
Proof.
  intros T A.
  assert (R : AdmitPatientForm.ageRefused (AdmitPatientForm.age formData)
              = (150 <? n)%N).
  { rewrite A. unfold AdmitPatientForm.ageRefused.
    rewrite NumFacts.parseInt_numeral by assumption.
    change (JS.of_nat 0) with (JS.of_Z 0).
    change (JS.of_nat 150) with (JS.of_Z 150).
    rewrite NumFacts.ofInteger_not_negative, NumFacts.ofInteger_above.
    destruct (NumeralFacts.decimal_head n) as [d [rest [E _]]].
    rewrite E. reflexivity. }
  split; [exact R|].
  split.
  { intros B. rewrite A, NumFacts.parseInt_numeral by assumption.
    now apply NumFacts.ofInteger_small. }
  destruct (AdmitFacts.admit_inserts formData env s)
    as [added [loading [ticks [E [I|[V I]]]]]];
    exists added, loading, ticks; (split; [exact E|]); [now left|right].
  assert (B : (n <= 150)%N).
  { unfold Derived.validAdmit in V. rewrite R in V.
    destruct (N.ltb_spec 150 n) as [L|G]; [|exact G].
    cbn [negb] in V. rewrite andb_false_r in V. discriminate V. }
  split; [|exact B].
  rewrite I, A, NumFacts.parseInt_numeral by assumption.
  rewrite NumFacts.ofInteger_small; [reflexivity|].
  apply (N.le_trans _ 150); [exact B|discriminate].
Qed.

(** The age [45.7] is let through, as 45. *)
Lemma age_numeral_prefix_witness :
  AdmitPatientForm.ageRefused "45.7" = false.
Proof.
  exact (proj1 (age_numeral_prefix 45 ".7"
                  {| AdmitPatientForm.mrn := "MRN-8";
                     AdmitPatientForm.name := "H";
                     AdmitPatientForm.age := "45.7";
                     AdmitPatientForm.gender := "female";
                     AdmitPatientForm.diagnosis := "Sepsis";
                     AdmitPatientForm.bed_number := "4";
                     AdmitPatientForm.history := "none";
                     AdmitPatientForm.examination := "normal";
                     AdmitPatientForm.notes := EmptyString;
                     AdmitPatientForm.status := "Stable" |}
                  Derived.bedTaken Ui.idle eq_refl eq_refl)).
Defined.

(** An incomplete admission form is stopped at the door: one error
    toast with the message of the first check that fails, in the order
    MRN, name, age, gender, diagnosis, bed, history, examination; no
    request is sent and loading is not touched. *)
Theorem admit_incomplete_form_stops (formData : AdmitPatientForm.FormData)
    (env : AdmitPatientForm.Env) (s : Ui.State) :
  Derived.validAdmit formData = false ->
  exists msg,
    AdmitPatientForm.handleSubmit formData env s
    = (Normal tt,
       {| Ui.loading := Ui.loading s;
          Ui.events := (Ui.events s ++ [Ui.ToastError msg])%list;
          Ui.ticks := Ui.ticks s |})
    /\ Derived.firstFailing (Derived.checksAdmit formData) = Some msg.
Proof.
  intros H.
  destruct (AdmitFacts.admit_validateForm_invalid formData s H)
    as [msg [E I]].
  exists msg. split; [|exact I].
  unfold AdmitPatientForm.handleSubmit, Ui.bind at 1. now rewrite E.
Qed.

(** An admission form without a gender and with a blank history: the
    gender is asked for. *)
Lemma admit_incomplete_form_stops_witness :
  Ui.events
    (snd (AdmitPatientForm.handleSubmit
            {| AdmitPatientForm.mrn := "MRN-8";
               AdmitPatientForm.name := "H";
               AdmitPatientForm.age := "45";
               AdmitPatientForm.gender := EmptyString;
               AdmitPatientForm.diagnosis := "Sepsis";
               AdmitPatientForm.bed_number := "4";
               AdmitPatientForm.history := " ";
               AdmitPatientForm.examination := "normal";
               AdmitPatientForm.notes := EmptyString;
               AdmitPatientForm.status := "Stable" |}
            Derived.bedTaken Ui.idle))
  = [ Ui.ToastError "Gender is required" ].
Proof.
  destruct (admit_incomplete_form_stops
              {| AdmitPatientForm.mrn := "MRN-8";
                 AdmitPatientForm.name := "H";
                 AdmitPatientForm.age := "45";
                 AdmitPatientForm.gender := EmptyString;
                 AdmitPatientForm.diagnosis := "Sepsis";
                 AdmitPatientForm.bed_number := "4";
                 AdmitPatientForm.history := " ";
                 AdmitPatientForm.examination := "normal";
                 AdmitPatientForm.notes := EmptyString;
                 AdmitPatientForm.status := "Stable" |}
              Derived.bedTaken Ui.idle eq_refl)
    as [msg [E F]].
  rewrite E. vm_compute in F. injection F as <-. reflexivity.
Defined.

(** A complete admission form with a stored user.  The requests go out
    in the order MRN lookup, bed lookup, insert, notification, and stop
    at the first lookup that fails or finds a row, or at an insert that
    fails or returns nothing; a lookup error with the code of "no row"
    stops nothing.  The success is announced exactly when all four were
    sent.  A known MRN and an occupied bed each end the submission with
    their own message and without the failure toast.  The handler ends
    normally with loading cleared. *)
Theorem admit_requests_in_order (formData : AdmitPatientForm.FormData)
    (env : AdmitPatientForm.Env) (user_id : string) (s : Ui.State) :
  Derived.validAdmit formData = true ->
  AdmitPatientForm.stored env = Ui.User user_id ->
  exists added ticks,
    AdmitPatientForm.handleSubmit formData env s
    = (Normal tt,
       {| Ui.loading := false;
          Ui.events := (Ui.events s ++ added)%list;
          Ui.ticks := ticks |})
    /\ Ui.requests added
       = firstn (Derived.sentAdmit env)
           (Derived.requestsAdmit formData env user_id (Ui.ticks s))
    /\ (Derived.admitted added <-> Derived.sentAdmit env = 4)
    /\ (Derived.lookupFails (AdmitPatientForm.existingPatient env) = false ->
        AdmitPatientForm.found (AdmitPatientForm.existingPatient env) = true ->
        added = [ Ui.Sent (Ui.LookupMrn (AdmitPatientForm.mrn formData));
                  Ui.ToastError "A patient with this MRN already exists" ])
    /\ (Derived.sentAdmit env = 2 ->
        Derived.lookupFails (AdmitPatientForm.existingBed env) = false ->
        added = [ Ui.Sent (Ui.LookupMrn (AdmitPatientForm.mrn formData));
                  Ui.Sent (Ui.LookupBed
                             (AdmitPatientForm.bed_number formData));
                  Ui.ToastError "This bed is already occupied" ]).
Proof.
  intros V U.
  unfold AdmitPatientForm.handleSubmit, Ui.bind at 1.
  rewrite (AdmitFacts.admit_validateForm_valid formData s V). cbn [negb].
  destruct env as [st clock [f1 e1] [f2 e2] ie np]. cbn in U. subst st.
  unfold Derived.sentAdmit, Derived.requestsAdmit, Derived.admitted,
    Derived.lookupFails, AdmitPatientForm.throwUnlessNoRow.
  cbn [AdmitPatientForm.stored AdmitPatientForm.clock
       AdmitPatientForm.existingPatient AdmitPatientForm.existingBed
       AdmitPatientForm.insertError AdmitPatientForm.newPatient
       AdmitPatientForm.found AdmitPatientForm.error].
  destruct e1 as [[c1 x1]|]; [destruct (String.eqb c1 "PGRST116")|];
    destruct f1;
    try (eexists; eexists; (split; [run_handler|]);
         (split; [reflexivity|]);
         (split; [cbn; intuition (try discriminate; try congruence)|]);
         split; intros; (reflexivity || discriminate));
    (destruct e2 as [[c2 x2]|]; [destruct (String.eqb c2 "PGRST116")|];
     destruct f2;
     try (eexists; eexists; (split; [run_handler|]);
          (split; [reflexivity|]);
          (split; [cbn; intuition (try discriminate; try congruence)|]);
          split; intros; (reflexivity || discriminate)));
    (destruct ie as [ie|]; destruct np as [id|];
     eexists; eexists; (split; [run_handler|]);
     (split; [reflexivity|]);
     (split; [cbn; intuition (try discriminate; try congruence)|]);
     split; intros; (reflexivity || discriminate)).
Qed.

(** An admission into a bed that is taken: both lookups were sent,
    nothing was inserted. *)
Lemma admit_requests_in_order_witness :
  Ui.requests
    (Ui.events
       (snd (AdmitPatientForm.handleSubmit Derived.filledAdmit
               Derived.bedTaken Ui.idle)))
  = [ Ui.LookupMrn "MRN-8"; Ui.LookupBed "4" ].
Proof.
  destruct (admit_requests_in_order Derived.filledAdmit Derived.bedTaken
              "u1" Ui.idle eq_refl eq_refl)
    as [added [ticks [E [R _]]]].
  rewrite E. exact R.
Defined.

(** ** One toast per submission *)

Module ToastFacts.

Lemma two_one_toast (patient : Patient.t)
    (formData : DischargeSubmitTwo.FormData) (env : DischargeSubmitTwo.Env)
    (s : Ui.State) :
  exists added loading ticks,
    DischargeSubmitTwo.handleSubmit patient formData env s
    = (Normal tt,
       {| Ui.loading := loading;
          Ui.events := (Ui.events s ++ added)%list;
          Ui.ticks := ticks |})
    /\ List.length (Derived.toasts added) = 1.
Proof.
  destruct (Derived.validTwo formData) eqn:V.
  - unfold DischargeSubmitTwo.handleSubmit, Ui.bind at 1.
    rewrite (TwoFacts.validateForm_valid formData s V). cbn [negb].
    destruct env as [st clock de ue me].
    destruct st as [|err| |user_id];
      try (eexists; eexists; eexists; (split; [run_handler|reflexivity]));
      destruct de as [e1|]; destruct ue as [e2|]; destruct me as [e3|];
      eexists; eexists; eexists; (split; [run_handler|reflexivity]).
  - destruct (TwoFacts.validateForm_invalid formData s V) as [msg [E _]].
    exists [Ui.ToastError msg], (Ui.loading s), (Ui.ticks s).
    split; [|reflexivity].
    unfold DischargeSubmitTwo.handleSubmit, Ui.bind at 1. now rewrite E.
Qed.

Lemma four_one_toast (patient : Patient.t)
    (formData : DischargeSubmitFour.FormData)
    (env : DischargeSubmitFour.Env) (s : Ui.State) :
  exists added loading ticks,
    DischargeSubmitFour.handleSubmit patient formData env s
    = (Normal tt,
       {| Ui.loading := loading;
          Ui.events := (Ui.events s ++ added)%list;
          Ui.ticks := ticks |})
    /\ List.length (Derived.toasts added) = 1.
Proof.
  unfold DischargeSubmitFour.handleSubmit.
  destruct env as [st clock ue de].
  destruct st as [|err| |user_id];
    try (eexists; eexists; eexists; (split; [run_handler|reflexivity]));
    destruct ue as [e1|]; destruct de as [e2|];
    eexists; eexists; eexists; (split; [run_handler|reflexivity]).
Qed.

Lemma admit_one_toast (formData : AdmitPatientForm.FormData)
    (env : AdmitPatientForm.Env) (s : Ui.State) :
  exists added loading ticks,
    AdmitPatientForm.handleSubmit formData env s
    = (Normal tt,
       {| Ui.loading := loading;
          Ui.events := (Ui.events s ++ added)%list;
          Ui.ticks := ticks |})
    /\ List.length (Derived.toasts added) = 1.
Proof.
  destruct (Derived.validAdmit formData) eqn:V.
  - unfold AdmitPatientForm.handleSubmit, Ui.bind at 1.
    rewrite (AdmitFacts.admit_validateForm_valid formData s V). cbn [negb].
    destruct env as [st clock [f1 e1] [f2 e2] ie np].
    unfold AdmitPatientForm.throwUnlessNoRow.
    cbn [AdmitPatientForm.stored AdmitPatientForm.clock
         AdmitPatientForm.existingPatient AdmitPatientForm.existingBed
         AdmitPatientForm.insertError AdmitPatientForm.newPatient
         AdmitPatientForm.found AdmitPatientForm.error].
    destruct st as [|err| |user_id];
      try (eexists; eexists; eexists; (split; [run_handler|reflexivity]));
      (destruct e1 as [[c1 x1]|]; [destruct (String.eqb c1 "PGRST116")|];
       destruct f1;
       try (eexists; eexists; eexists; (split; [run_handler|reflexivity])));
      (destruct e2 as [[c2 x2]|]; [destruct (String.eqb c2 "PGRST116")|];
       destruct f2;
       try (eexists; eexists; eexists; (split; [run_handler|reflexivity])));
      (destruct ie as [ie|]; destruct np as [id|];
       eexists; eexists; eexists; (split; [run_handler|reflexivity])).
  - destruct (AdmitFacts.admit_validateForm_invalid formData s V) as [msg [E _]].
    exists [Ui.ToastError msg], (Ui.loading s), (Ui.ticks s).
    split; [|reflexivity].
    unfold AdmitPatientForm.handleSubmit, Ui.bind at 1. now rewrite E.
Qed.

End ToastFacts.

(** Whatever the form holds and whatever the requests answer, a
    submission of any of the three forms ends normally, without an
    exception leaving the handler, and shows exactly one toast. *)
Theorem every_submission_one_toast (patient : Patient.t)
    (two : DischargeSubmitTwo.FormData) (envTwo : DischargeSubmitTwo.Env)
    (four : DischargeSubmitFour.FormData) (envFour : DischargeSubmitFour.Env)
    (admission : AdmitPatientForm.FormData) (envAdmit : AdmitPatientForm.Env)
    (s : Ui.State) :
  (exists added loading ticks,
     DischargeSubmitTwo.handleSubmit patient two envTwo s
     = (Normal tt,
        {| Ui.loading := loading;
           Ui.events := (Ui.events s ++ added)%list;
           Ui.ticks := ticks |})
     /\ List.length (Derived.toasts added) = 1)
  /\ (exists added loading ticks,
        DischargeSubmitFour.handleSubmit patient four envFour s
        = (Normal tt,
           {| Ui.loading := loading;
              Ui.events := (Ui.events s ++ added)%list;
              Ui.ticks := ticks |})
        /\ List.length (Derived.toasts added) = 1)
  /\ (exists added loading ticks,
        AdmitPatientForm.handleSubmit admission envAdmit s
        = (Normal tt,
           {| Ui.loading := loading;
              Ui.events := (Ui.events s ++ added)%list;
              Ui.ticks := ticks |})
        /\ List.length (Derived.toasts added) = 1).
Proof.
  split; [apply ToastFacts.two_one_toast|].
  split; [apply ToastFacts.four_one_toast|apply ToastFacts.admit_one_toast].
Qed.

(* ================================================================== *)
(** * The patient page *)

(** Loading the page always ends with loading cleared, in one of four
    ways.  Without an id no request is sent, the toast says
    "No patient ID provided" and the user is sent to the dashboard.
    With an id the patient is requested, once; when the request answers
    an error the toast says "Failed to load patient data", when it
    answers no row the toast says "Patient not found", and in both cases
    the user is sent to the dashboard and no patient is set; when it
    answers a row the patient is set, with no toast and no navigation. *)
Theorem patient_loaded_or_sent_away (env : PatientPage.Env) (s : Ui.State) :
  exists added,
    PatientPage.fetchPatient env s
    = (Normal tt,
       {| Ui.loading := false;
          Ui.events := (Ui.events s ++ added)%list;
          Ui.ticks := Ui.ticks s |})
    /\ match PatientPage.idGiven env, PatientPage.error env,
             PatientPage.data env with
       | None, _, _ =>
           Derived.patientsSet added = []
           /\ Derived.toasts added = [Ui.ToastError "No patient ID provided"]
           /\ Derived.navigations added = ["/dashboard"]
       | Some _, Some _, _ =>
           Derived.patientsSet added = []
           /\ Derived.toasts added
              = [Ui.ToastError "Failed to load patient data"]
           /\ Derived.navigations added = ["/dashboard"]
       | Some _, None, None =>
           Derived.patientsSet added = []
           /\ Derived.toasts added = [Ui.ToastError "Patient not found"]
           /\ Derived.navigations added = ["/dashboard"]
       | Some _, None, Some p =>
           Derived.patientsSet added = [p]
           /\ Derived.toasts added = []
           /\ Derived.navigations added = []
       end
    /\ Ui.requests added
       = match PatientPage.idGiven env with
         | Some i => [Ui.SelectPatient i]
         | None => []
         end.
Proof.
  unfold PatientPage.fetchPatient.
  destruct env as [id patient st clock data error ue].
  unfold PatientPage.idGiven.
  cbn [PatientPage.id PatientPage.error PatientPage.data].
  destruct id as [i|]; [destruct (Str.truthy i)|];
    destruct error as [err|]; destruct data as [p|];
    eexists; (split; [run_handler|]);
    (split; [repeat split|]); reflexivity.
Qed.

(** A status change.  The handler never lets an exception out and never
    touches loading.  The status on the page is changed, and the success
    announced, exactly when the update was sent and accepted.  The
    notification is a second request, sent only when a user is stored.
    The failure toast is shown when the update is refused, and also when
    the update was accepted and the stored user cannot be read: then the
    status has changed and both the success and the failure are
    announced. *)
Theorem status_change_outcomes (newStatus : string) (env : PatientPage.Env)
    (s : Ui.State) :
  exists added ticks,
    PatientPage.handleStatusChange newStatus env s
    = (Normal tt,
       {| Ui.loading := Ui.loading s;
          Ui.events := (Ui.events s ++ added)%list;
          Ui.ticks := ticks |})
    /\ Derived.statusesSet added
       = (if Derived.statusUpdated env then [newStatus] else [])
    /\ (In (Ui.ToastSuccess ("Patient status updated to " ++ newStatus))
          added
        <-> Derived.statusUpdated env = true)
    /\ (In (Ui.ToastError "Failed to update patient status") added
        <-> Derived.updateRefused env
            || Derived.statusUpdated env
               && Derived.unreadable (PatientPage.stored env) = true)
    /\ List.length (Ui.requests added)
       = (if Derived.statusUpdated env
          then if Derived.userStored (PatientPage.stored env) then 2 else 1
          else if Derived.updateRefused env then 1 else 0)
    /\ List.length (Derived.toasts added)
       = (if Derived.statusUpdated env
          then if Derived.unreadable (PatientPage.stored env) then 2 else 1
          else if Derived.updateRefused env then 1 else 0).
Proof.
  unfold PatientPage.handleStatusChange, Derived.statusUpdated,
    Derived.updateRefused.
  destruct env as [id patient st clock data error ue].
  unfold PatientPage.idGiven.
  cbn [PatientPage.id PatientPage.patient PatientPage.stored
       PatientPage.clock PatientPage.updateError].
  destruct s as [l ev t].
  destruct patient as [p|];
    [|exists [], t; unfold Ui.tryCatchFinally, Ui.ret; cbn;
      rewrite app_nil_r; (split; [reflexivity|]); (split; [reflexivity|]);
      cbn; intuition (try discriminate; try congruence)].
  destruct id as [i|]; [destruct (Str.truthy i)|];
    [|exists [], t; unfold Ui.tryCatchFinally, Ui.ret; cbn;
      rewrite app_nil_r; (split; [reflexivity|]); (split; [reflexivity|]);
      cbn; intuition (try discriminate; try congruence) ..].
  destruct ue as [e|];
    [eexists; eexists; (split; [run_handler|]); (split; [reflexivity|]);
     cbn; intuition (try discriminate; try congruence)|].
  destruct st as [|err| |user_id];
    eexists; eexists; (split; [run_handler|]);
    (split; [reflexivity|]);
    cbn; intuition (try discriminate; try congruence).
Qed.

(** Adding a lab result.  The handler ends normally with loading
    cleared and exactly one toast.  The form is closed exactly when a
    user is stored and the insert is accepted; a request is sent only
    with a stored user, and then it is the only one. *)
Theorem lab_result_submission (patientId : string)
    (formData : AddLabResultForm.FormData) (env : AddLabResultForm.Env)
    (s : Ui.State) :
  exists added,
    AddLabResultForm.handleSubmit patientId formData env s
    = (Normal tt,
       {| Ui.loading := false;
          Ui.events := (Ui.events s ++ added)%list;
          Ui.ticks := Ui.ticks s |})
    /\ List.length (Derived.toasts added) = 1
    /\ Derived.closed added
       = Derived.userStored (AddLabResultForm.stored env)
         && match AddLabResultForm.error env with
            | None => true
            | Some _ => false
            end
    /\ List.length (Ui.requests added)
       = (if Derived.userStored (AddLabResultForm.stored env) then 1 else 0)
    /\ (In (Ui.ToastSuccess "Lab result added successfully") added
        <-> Derived.closed added = true).
Proof.
  unfold AddLabResultForm.handleSubmit.
  destruct env as [st error].
  cbn [AddLabResultForm.stored AddLabResultForm.error].
  destruct st as [|err| |user_id]; destruct error as [e|];
    eexists; (split; [run_handler|]);
    (split; [reflexivity|]); (split; [reflexivity|]);
    (split; [reflexivity|]);
    cbn; intuition (try discriminate; try congruence).
Qed.
